(** * A shallow embedding of [src/bci/brain_interface.py]

    The acquisition engine of the repository is the Python class
    [BrainInterface]: ring buffers filled by a reader thread, a pair of
    streaming IIR stages, a z-score event detector with a cooldown, and a
    calibration routine.  This file embeds the methods of that class as
    functions on an explicit record of its attributes and proves the
    properties of the specification about them.

    Conventions of the embedding.
    - Python [int] is [Z]; [%] on a positive modulus is [Z.modulo].
    - Python and NumPy floats are idealised as the real numbers [R]
      (rounding, infinities and NaN are not modelled).  An integer stored
      in a float array is the real [IZR] of it, which is the float itself
      for integers of magnitude up to [2^53] ([float64_exact]); what is
      proved about the integer value found in a slot is stated on that
      range.
    - NumPy arrays are lists; the three sample buffers keep the fixed length
      [BUFFER_SIZE].
    - Every call of [time.time()] is an explicit argument of the method that
      performs it, and each line the reader thread takes from the serial
      port is an explicit input.
    - [scipy.signal.lfilter] and [scipy.signal.lfilter_zi] are library
      routines; the engine is parametrised over them. *)

From Stdlib Require Import ZArith Reals Lra Lia.
From stdpp Require Import base list strings.
Local Open Scope Z_scope.

(** ** Module constants *)

Definition SAMPLE_RATE : Z := 250.
Definition NOTCH_FREQ : R := 60%R.
Definition BUFFER_SIZE : Z := 250 * 5.
Definition EEG_CHANNELS : Z := 1.

(** ** The part of NumPy the class uses *)

Module np.

Definition sum (a : list R) : R := fold_right Rplus 0%R a.

Definition mean (a : list R) : R := (sum a / INR (length a))%R.

(** [np.std] with its default [ddof=0]: the population standard
    deviation, [sqrt(mean(abs(a - a.mean())**2))]. *)
Definition std (a : list R) : R :=
  sqrt (mean (map (fun x => (Rabs (x - mean a) * Rabs (x - mean a))%R) a)).

Definition abs (a : list R) : list R := map Rabs a.

(** [np.max] of a non-empty array (NumPy raises on an empty one; the
    detector only reaches it behind [std > 0], which an empty window
    never satisfies). *)
Definition max (a : list R) : R :=
  match a with
  | [] => 0%R
  | x :: t => fold_left Rmax t x
  end.

(** [a[i]] and [a[i] = v] for an index inside the array.  The engine
    only indexes with values reduced modulo [BUFFER_SIZE], which are
    inside every buffer of that length. *)
Definition getitem (a : list R) (i : Z) : R := default 0%R (a !! Z.to_nat i).

Definition setitem (a : list R) (i : Z) (v : R) : list R := <[Z.to_nat i := v]> a.

(** [a[indices]]: gathering with a list of indices. *)
Definition take (a : list R) (indices : list Z) : list R := map (getitem a) indices.

(** [zi * x] for a vector [zi] and a scalar (or one-element array) [x]. *)
Definition scale (zi : list R) (x : R) : list R := map (fun z => (z * x)%R) zi.

Definition zeros (n : Z) : list R := replicate (Z.to_nat n) 0%R.

End np.

(** Python's [range(n)] and [range(a, b)]. *)
Definition range (n : Z) : list Z := seqZ 0 n.
Definition range2 (a b : Z) : list Z := seqZ a (b - a).

(** ** The attributes of [BrainInterface] *)

Record BrainInterface : Type := mkBrainInterface {
  (* serial port: [serial_open] stands for [self.serial and self.serial.is_open] *)
  serial_open : bool;
  (* data buffers (channel 0) *)
  raw_buffer : list R;
  filtered_buffer : list R;
  timestamps : list R;
  event_timestamps : list R;
  (* processing state *)
  running : bool;
  streaming : bool;
  filter_state : option (list R);      (* [None] is Python's [None] *)
  notch_state : option (list R);       (* [None]: the attribute does not exist yet *)
  current_sample_idx : Z;
  start_time : option R;
  event_count : Z;
  last_event_time : R;
  (* detection parameters *)
  cooldown_period : R;
  detection_threshold : R;
  window_size : Z;
  (* filter coefficients, set by [_setup_filters] *)
  bp_filter_b : list R;
  bp_filter_a : list R;
  notch_b : list R;
  notch_a : list R
}.

(** [__init__]: the four coefficient vectors are what [signal.butter] and
    [signal.iirnotch] return in [_setup_filters]. *)
Definition init (bp_b bp_a n_b n_a : list R) : BrainInterface :=
  {| serial_open := false;
     raw_buffer := np.zeros BUFFER_SIZE;
     filtered_buffer := np.zeros BUFFER_SIZE;
     timestamps := np.zeros BUFFER_SIZE;
     event_timestamps := [];
     running := false;
     streaming := false;
     filter_state := None;
     notch_state := None;
     current_sample_idx := 0;
     start_time := None;
     event_count := 0;
     last_event_time := 0%R;
     cooldown_period := (1 / 2)%R;
     detection_threshold := 50%R;
     window_size := 50;
     bp_filter_b := bp_b;
     bp_filter_a := bp_a;
     notch_b := n_b;
     notch_a := n_a |}.

(** *** Attribute assignments *)

Definition set_connection (e : BrainInterface) (op rn : bool) : BrainInterface :=
  {| serial_open := op; raw_buffer := raw_buffer e;
     filtered_buffer := filtered_buffer e; timestamps := timestamps e;
     event_timestamps := event_timestamps e; running := rn;
     streaming := streaming e; filter_state := filter_state e;
     notch_state := notch_state e; current_sample_idx := current_sample_idx e;
     start_time := start_time e; event_count := event_count e;
     last_event_time := last_event_time e; cooldown_period := cooldown_period e;
     detection_threshold := detection_threshold e; window_size := window_size e;
     bp_filter_b := bp_filter_b e; bp_filter_a := bp_filter_a e;
     notch_b := notch_b e; notch_a := notch_a e |}.

Definition set_streaming (e : BrainInterface) (s : bool) : BrainInterface :=
  {| serial_open := serial_open e; raw_buffer := raw_buffer e;
     filtered_buffer := filtered_buffer e; timestamps := timestamps e;
     event_timestamps := event_timestamps e; running := running e;
     streaming := s; filter_state := filter_state e;
     notch_state := notch_state e; current_sample_idx := current_sample_idx e;
     start_time := start_time e; event_count := event_count e;
     last_event_time := last_event_time e; cooldown_period := cooldown_period e;
     detection_threshold := detection_threshold e; window_size := window_size e;
     bp_filter_b := bp_filter_b e; bp_filter_a := bp_filter_a e;
     notch_b := notch_b e; notch_a := notch_a e |}.

(** The four assignments of [start_stream] after [streaming = True]. *)
Definition reset_session (e : BrainInterface) (now : R) : BrainInterface :=
  {| serial_open := serial_open e; raw_buffer := raw_buffer e;
     filtered_buffer := filtered_buffer e; timestamps := timestamps e;
     event_timestamps := []; running := running e;
     streaming := streaming e; filter_state := filter_state e;
     notch_state := notch_state e; current_sample_idx := 0;
     start_time := Some now; event_count := 0;
     last_event_time := last_event_time e; cooldown_period := cooldown_period e;
     detection_threshold := detection_threshold e; window_size := window_size e;
     bp_filter_b := bp_filter_b e; bp_filter_a := bp_filter_a e;
     notch_b := notch_b e; notch_a := notch_a e |}.

(** The three assignments of the detector when an event fires. *)
Definition record_event (e : BrainInterface) (current_time : R) : BrainInterface :=
  {| serial_open := serial_open e; raw_buffer := raw_buffer e;
     filtered_buffer := filtered_buffer e; timestamps := timestamps e;
     event_timestamps := event_timestamps e ++ [current_time];
     running := running e;
     streaming := streaming e; filter_state := filter_state e;
     notch_state := notch_state e; current_sample_idx := current_sample_idx e;
     start_time := start_time e; event_count := event_count e + 1;
     last_event_time := current_time; cooldown_period := cooldown_period e;
     detection_threshold := detection_threshold e; window_size := window_size e;
     bp_filter_b := bp_filter_b e; bp_filter_a := bp_filter_a e;
     notch_b := notch_b e; notch_a := notch_a e |}.

(** The writes of one loop iteration up to the filtered store: both raw
    slots, both filter states and the filtered slot. *)
Definition store_sample (e : BrainInterface) (buffer_idx : Z)
    (sample t filtered : R) (fs ns : option (list R)) : BrainInterface :=
  {| serial_open := serial_open e;
     raw_buffer := np.setitem (raw_buffer e) buffer_idx sample;
     filtered_buffer := np.setitem (filtered_buffer e) buffer_idx filtered;
     timestamps := np.setitem (timestamps e) buffer_idx t;
     event_timestamps := event_timestamps e; running := running e;
     streaming := streaming e; filter_state := fs;
     notch_state := ns; current_sample_idx := current_sample_idx e;
     start_time := start_time e; event_count := event_count e;
     last_event_time := last_event_time e; cooldown_period := cooldown_period e;
     detection_threshold := detection_threshold e; window_size := window_size e;
     bp_filter_b := bp_filter_b e; bp_filter_a := bp_filter_a e;
     notch_b := notch_b e; notch_a := notch_a e |}.

Definition advance_sample_idx (e : BrainInterface) : BrainInterface :=
  {| serial_open := serial_open e; raw_buffer := raw_buffer e;
     filtered_buffer := filtered_buffer e; timestamps := timestamps e;
     event_timestamps := event_timestamps e; running := running e;
     streaming := streaming e; filter_state := filter_state e;
     notch_state := notch_state e;
     current_sample_idx := current_sample_idx e + 1;
     start_time := start_time e; event_count := event_count e;
     last_event_time := last_event_time e; cooldown_period := cooldown_period e;
     detection_threshold := detection_threshold e; window_size := window_size e;
     bp_filter_b := bp_filter_b e; bp_filter_a := bp_filter_a e;
     notch_b := notch_b e; notch_a := notch_a e |}.

Definition set_detection_threshold (e : BrainInterface) (z : R) : BrainInterface :=
  {| serial_open := serial_open e; raw_buffer := raw_buffer e;
     filtered_buffer := filtered_buffer e; timestamps := timestamps e;
     event_timestamps := event_timestamps e; running := running e;
     streaming := streaming e; filter_state := filter_state e;
     notch_state := notch_state e; current_sample_idx := current_sample_idx e;
     start_time := start_time e; event_count := event_count e;
     last_event_time := last_event_time e; cooldown_period := cooldown_period e;
     detection_threshold := z; window_size := window_size e;
     bp_filter_b := bp_filter_b e; bp_filter_a := bp_filter_a e;
     notch_b := notch_b e; notch_a := notch_a e |}.

(** ** Lifecycle: [connect], [disconnect], [start_stream], [stop_stream] *)

(** [connect]: [device_ok] says whether [serial.Serial(port, baudrate)]
    returns (or raises, which the method catches).  [self.port] is never
    empty, because the constructor falls back to [DEFAULT_PORT]. *)
Definition connect (e : BrainInterface) (device_ok : bool) : BrainInterface * bool :=
  if device_ok then (set_connection e true true, true) else (e, false).

Definition stop_stream (e : BrainInterface) : BrainInterface :=
  set_streaming e false.

Definition disconnect (e : BrainInterface) : BrainInterface :=
  if serial_open e
  then set_connection (stop_stream e) false false
  else e.

Definition start_stream (e : BrainInterface) (device_ok : bool) (now : R)
    : BrainInterface * bool :=
  let '(e1, ok) := if running e then (e, true) else connect e device_ok in
  if ok
  then (reset_session (set_streaming e1 true) now, true)
  else (e1, false).

(** ** The detector: [_detect_neural_event] *)

Definition window_indices (e : BrainInterface) (current_idx : Z) : list Z :=
  map (fun i => (current_idx - i) mod BUFFER_SIZE) (range (window_size e)).

Definition window_data (e : BrainInterface) (current_idx : Z) : list R :=
  np.take (filtered_buffer e) (window_indices e current_idx).

Definition z_scores (w : list R) : list R :=
  map (fun x => ((x - np.mean w) / np.std w)%R) w.

Definition max_z (w : list R) : R := np.max (np.abs (z_scores w)).

(** [current_time] is the clock value the method reads once the standard
    deviation test has passed.  The print of the event rate and the call
    of the optional [event_callback] do not touch the attributes. *)
Definition _detect_neural_event (e : BrainInterface) (current_idx : Z)
    (current_time : R) : BrainInterface :=
  let w := window_data e current_idx in
  if Rgt_dec (np.std w) 0 then
    if Rgt_dec (max_z w) (detection_threshold e) then
      if Rgt_dec (current_time - last_event_time e) (cooldown_period e) then
        record_event e current_time
      else e
    else e
  else e.

(** ** The reader thread: [_stream_data] *)

(** What [int(self.serial.readline().decode('utf-8').strip())] gives: an
    integer, or one of the two exceptions the loop catches. *)
Inductive serial_line : Type :=
  | Malformed
  | Parsed (sample : Z).

(** One line together with the two clock values its processing reads:
    [t_store] at the timestamp store, [t_detect] inside the detector. *)
Record arrival : Type := mkArrival {
  line : serial_line;
  t_store : R;
  t_detect : R
}.

(** 24-bit ADC values above [0x800000] are taken as negative. *)
Definition decode_sample (sample : Z) : Z :=
  if sample >? 0x800000 then sample - 0x1000000 else sample.

(** The buffers are float64 arrays.  A float64 holds every integer of
    magnitude up to [2^53] exactly, so on this range the real number
    [IZR sample] is the value the store [raw_buffer[0, buffer_idx] = sample]
    leaves in the slot; a larger integer is rounded by the store (or
    rejected by the conversion when it exceeds the float range). *)
Definition float64_exact (sample : Z) : Prop := Z.abs sample <= 2 ^ 53.

Section Engine.

(** [signal.lfilter(b, a, x, zi=zi)], returning the filtered signal and
    the final delay-line state, and [signal.lfilter_zi(b, a)]. *)
Variable lfilter : list R -> list R -> list R -> list R -> list R * list R.
Variable lfilter_zi : list R -> list R -> list R.

(** The bandpass stage of the loop body. *)
Definition bandpass_stage (e : BrainInterface) (sample : R) : list R * list R :=
  match filter_state e with
  | None =>
      lfilter (bp_filter_b e) (bp_filter_a e) [sample]
        (np.scale (lfilter_zi (bp_filter_b e) (bp_filter_a e)) sample)
  | Some zi =>
      lfilter (bp_filter_b e) (bp_filter_a e) [sample] zi
  end.

(** The notch stage of the loop body: a conditional expression on
    [hasattr(self, 'notch_state')]. *)
Definition notch_stage (e : BrainInterface) (filtered_sample : list R)
    : list R * list R :=
  match notch_state e with
  | Some _ =>
      lfilter (notch_b e) (notch_a e) filtered_sample
        (np.scale (lfilter_zi (notch_b e) (notch_a e))
           (np.getitem filtered_sample 0))
  | None =>
      (filtered_sample,
       np.scale (lfilter_zi (notch_b e) (notch_a e))
         (np.getitem filtered_sample 0))
  end.

(** Both stages on one decoded sample: the value stored in the filtered
    buffer and the two states assigned. *)
Definition filter_sample (e : BrainInterface) (sample : R)
    : R * list R * list R :=
  let '(filtered_sample, fs) := bandpass_stage e sample in
  let '(filtered_sample', ns) := notch_stage e filtered_sample in
  (np.getitem filtered_sample' 0, fs, ns).

(** The attributes after the stores of the loop body for a line that
    parsed to [v], just before the detector is consulted. *)
Definition stored (e : BrainInterface) (v : Z) (t : R) : BrainInterface :=
  let x := IZR (decode_sample v) in
  store_sample e (current_sample_idx e mod BUFFER_SIZE) x t
    (filter_sample e x).1.1 (Some (filter_sample e x).1.2)
    (Some (filter_sample e x).2).

(** The body of the [try] block for a line that parsed to [sample]. *)
Definition process_sample (e : BrainInterface) (sample : Z) (t_st t_det : R)
    : BrainInterface :=
  let sample := decode_sample sample in
  let buffer_idx := current_sample_idx e mod BUFFER_SIZE in
  let '(y, fs, ns) := filter_sample e (IZR sample) in
  let e1 := store_sample e buffer_idx (IZR sample) t_st y (Some fs) (Some ns) in
  let e2 := if current_sample_idx e1 >=? window_size e1
            then _detect_neural_event e1 buffer_idx t_det
            else e1 in
  advance_sample_idx e2.

(** One iteration of the [while] loop with a line waiting. *)
Definition stream_iteration (e : BrainInterface) (a : arrival) : BrainInterface :=
  match line a with
  | Malformed => e                 (* [except]: the error is printed *)
  | Parsed sample => process_sample e sample (t_store a) (t_detect a)
  end.

(** The loop over the lines that arrive while the thread runs. *)
Fixpoint _stream_data (e : BrainInterface) (arrivals : list arrival)
    : BrainInterface :=
  match arrivals with
  | [] => e
  | a :: rest =>
      if streaming e && serial_open e
      then _stream_data (stream_iteration e a) rest
      else e
  end.

End Engine.

(** ** [calibrate] *)

(** What the method prints at its end. *)
Inductive calibration_report : Type :=
  | CalibrationComplete (baseline_mean baseline_std threshold : R)
  | NotEnoughData.

(** The extraction of the calibration data from the filtered buffer. *)
Definition calibration_data (e : BrainInterface) (cal_start_idx cal_end_idx : Z)
    : list R :=
  let cal_samples := cal_end_idx - cal_start_idx in
  if cal_samples >? BUFFER_SIZE
  then filtered_buffer e
  else np.take (filtered_buffer e)
         (map (fun i => i mod BUFFER_SIZE) (range2 cal_start_idx cal_end_idx)).

Section Calibration.

Variable lfilter : list R -> list R -> list R -> list R -> list R * list R.
Variable lfilter_zi : list R -> list R -> list R.

(** "Start streaming if not already": the engine once the method has
    made sure the stream runs. *)
Definition ensure_streaming (e : BrainInterface) (device_ok : bool) (now : R)
    : BrainInterface :=
  if streaming e then e else fst (start_stream e device_ok now).

(** [arrivals] are the lines the reader thread processes while the
    method sleeps through [duration]; [now] is the clock value read by
    [start_stream] when the method has to start the stream itself. *)
Definition calibrate (e : BrainInterface) (device_ok : bool) (now : R)
    (arrivals : list arrival) : BrainInterface * calibration_report :=
  let was_streaming := streaming e in
  let e1 := ensure_streaming e device_ok now in
  let cal_start_idx := current_sample_idx e1 in
  let e2 := _stream_data lfilter lfilter_zi e1 arrivals in
  let cal_end_idx := current_sample_idx e2 in
  let data := calibration_data e2 cal_start_idx cal_end_idx in
  let '(e3, report) :=
    if Z.of_nat (length data) >? SAMPLE_RATE
    then (set_detection_threshold e2 5%R,
          CalibrationComplete (np.mean data) (np.std data) 5%R)
    else (e2, NotEnoughData) in
  (if was_streaming then e3 else stop_stream e3, report).

End Calibration.

(** ** [save_data]: the chronological read of the buffers *)

Definition chronological_indices (e : BrainInterface) : list Z :=
  if current_sample_idx e <? BUFFER_SIZE
  then range (current_sample_idx e)
  else
    let current_pos := current_sample_idx e mod BUFFER_SIZE in
    map (fun i => (current_pos + i) mod BUFFER_SIZE) (range BUFFER_SIZE).

(** The arrays handed to the writer of the chosen format. *)
Record saved_arrays : Type := mkSaved {
  raw_data : list R;
  filtered_data : list R;
  time_data : list R
}.

(** [None] when the method returns without writing: no sample yet (or no
    [start_time] to subtract, which Python rejects). *)
Definition save_data (e : BrainInterface) : option saved_arrays :=
  if current_sample_idx e =? 0 then None
  else
    match start_time e with
    | None => None
    | Some st =>
        let plot_indices := chronological_indices e in
        Some {| raw_data := np.take (raw_buffer e) plot_indices;
                filtered_data := np.take (filtered_buffer e) plot_indices;
                time_data := map (fun t => (t - st)%R)
                               (np.take (timestamps e) plot_indices) |}
    end.

(** ** Samples as the specification names them *)

Record Sample : Type := mkSample {
  sequence : Z;
  raw : R;
  filtered : R;
  timestamp : R
}.

Section Trace.

Variable lfilter : list R -> list R -> list R -> list R -> list R * list R.
Variable lfilter_zi : list R -> list R -> list R.

(** The sample one loop iteration writes, if it writes one. *)
Definition sample_of (e : BrainInterface) (a : arrival) : option Sample :=
  match line a with
  | Malformed => None
  | Parsed v =>
      let x := IZR (decode_sample v) in
      Some {| sequence := current_sample_idx e;
              raw := x;
              filtered := (filter_sample lfilter lfilter_zi e x).1.1;
              timestamp := t_store a |}
  end.

(** The samples written, in order, while the thread consumes [arrivals]. *)
Fixpoint ingested (e : BrainInterface) (arrivals : list arrival) : list Sample :=
  match arrivals with
  | [] => []
  | a :: rest =>
      if streaming e && serial_open e
      then option_list (sample_of e a)
             ++ ingested (stream_iteration lfilter lfilter_zi e a) rest
      else []
  end.

(** Calls of the public methods, and lines reaching the reader thread. *)
Inductive command : Type :=
  | Connect (device_ok : bool)
  | Disconnect
  | StartStream (device_ok : bool) (now : R)
  | StopStream
  | Arrive (a : arrival)
  | Calibrate (device_ok : bool) (now : R) (arrivals : list arrival).

Definition exec (e : BrainInterface) (c : command) : BrainInterface :=
  match c with
  | Connect ok => fst (connect e ok)
  | Disconnect => disconnect e
  | StartStream ok now => fst (start_stream e ok now)
  | StopStream => stop_stream e
  | Arrive a => _stream_data lfilter lfilter_zi e [a]
  | Calibrate ok now arrivals =>
      fst (calibrate lfilter lfilter_zi e ok now arrivals)
  end.

Definition exec_all (e : BrainInterface) (cs : list command) : BrainInterface :=
  fold_left exec cs e.

End Trace.

(** The buffers have the size the constructor gives them and the sample
    counter is not negative. *)
Definition buffers_ok (e : BrainInterface) : Prop :=
  Z.of_nat (length (raw_buffer e)) = BUFFER_SIZE /\
  Z.of_nat (length (filtered_buffer e)) = BUFFER_SIZE /\
  Z.of_nat (length (timestamps e)) = BUFFER_SIZE /\
  0 <= current_sample_idx e.

(** The detector fired between [e] and [e']. *)
Definition event_fired (e e' : BrainInterface) : Prop :=
  event_count e' = event_count e + 1.

(** A direct-form-II-transposed reading of the two filter routines, used
    to run the engine on concrete inputs: the difference equations of
    [lfilter] with the coefficients divided by [a[0]], and for [lfilter_zi]
    the delay line of the steady state of the step response. *)
Module df2t.

Definition normalize (a0 : R) (c : list R) : list R := map (fun x => (x / a0)%R) c.

Fixpoint advance (bs as_ z : list R) (x y : R) : list R :=
  match z with
  | [] => []
  | _ :: z' =>
      (hd 0 z' + hd 0 bs * x - hd 0 as_ * y)%R
        :: advance (tl bs) (tl as_) z' x y
  end.

Definition step (b a : list R) (z : list R) (x : R) : R * list R :=
  let y := (hd 0 b * x + hd 0 z)%R in
  (y, advance (tl b) (tl a) z x y).

Fixpoint filter (b a x zi : list R) : list R * list R :=
  match x with
  | [] => ([], zi)
  | x0 :: xs =>
      let '(y, z) := step b a zi x0 in
      let '(ys, zf) := filter b a xs z in
      (y :: ys, zf)
  end.

Definition lfilter (b a x zi : list R) : list R * list R :=
  let a0 := hd 1%R a in
  filter (normalize a0 b) (normalize a0 a) x zi.

Definition lfilter_zi (b a : list R) : list R :=
  let a0 := hd 1%R a in
  let b := normalize a0 b in
  let a := normalize a0 a in
  let n := Nat.max (length a) (length b) in
  let coef := fun (c : list R) (k : nat) => nth k c 0%R in
  let B := fun k => (coef b k - coef a k * coef b 0%nat)%R in
  let asum := fun k => (1 + np.sum (map (coef a) (seq 1 k)))%R in
  let csum := fun k => np.sum (map B (seq 1 k)) in
  let zi0 := (csum (n - 1)%nat / asum (n - 1)%nat)%R in
  map (fun k => (asum k * zi0 - csum k)%R) (seq 0 (n - 1)).

End df2t.

(** ** The rest of [save_data]: the rows of the csv file *)

(** [np.argmin]: the index of the first smallest element. *)
Fixpoint argmin_from (a : list R) (i best_i : nat) (best : R) : nat :=
  match a with
  | [] => best_i
  | x :: t =>
      if Rlt_dec x best
      then argmin_from t (S i) i x
      else argmin_from t (S i) best_i best
  end.

Definition argmin (a : list R) : nat :=
  match a with
  | [] => 0%nat
  | x :: t => argmin_from t 1 0 x
  end.

(** One pass of the loop over the event times: the row whose time is
    closest to [event_time] gets the indicator 1. *)
Definition mark_event (time_data indicators : list R) (event_time : R) : list R :=
  let idx := argmin (np.abs (map (fun t => (t - event_time)%R) time_data)) in
  <[idx := 1%R]> indicators.

(** The [is_event] column.  [st] is [self.start_time]; as a condition a
    float is true when it is not zero and a list when it is not empty. *)
Definition event_indicators (e : BrainInterface) (st : R) (time_data : list R)
    : list R :=
  let indicators := replicate (length time_data) 0%R in
  if Req_dec_T st 0 then indicators
  else
    match event_timestamps e with
    | [] => indicators
    | _ :: _ =>
        let event_times := map (fun t => (t - st)%R) (event_timestamps e) in
        fold_left (mark_event time_data) event_times indicators
    end.

(** The data rows written for [format='csv']:
    [timestamp, raw_eeg, filtered_eeg, is_event]. *)
Record csv_row : Type := mkRow {
  row_timestamp : R;
  row_raw : R;
  row_filtered : R;
  row_is_event : R
}.

Definition csv_rows (e : BrainInterface) : option (list csv_row) :=
  match save_data e, start_time e with
  | Some sv, Some st =>
      let is_event := event_indicators e st (time_data sv) in
      Some (map (fun i =>
                   {| row_timestamp := np.getitem (time_data sv) (Z.of_nat i);
                      row_raw := np.getitem (raw_data sv) (Z.of_nat i);
                      row_filtered := np.getitem (filtered_data sv) (Z.of_nat i);
                      row_is_event := np.getitem is_event (Z.of_nat i) |})
              (seq 0 (length (time_data sv))))
  | _, _ => None
  end.

(** ** [run_session] *)

Section Session.

Variable lfilter : list R -> list R -> list R -> list R -> list R * list R.
Variable lfilter_zi : list R -> list R -> list R.

(** [arrivals] are the lines the reader thread processes while the method
    waits through [duration]; with [save] the method ends in [save_data]
    (for one of the three formats), whose arrays are the second component.
    The statistics it prints and the plot do not touch the attributes. *)
Definition run_session (e : BrainInterface) (device_ok : bool) (now : R)
    (arrivals : list arrival) (save : bool)
    : BrainInterface * option saved_arrays :=
  let was_streaming := streaming e in
  let e1 := ensure_streaming e device_ok now in
  let e2 := _stream_data lfilter lfilter_zi e1 arrivals in
  let e3 := if was_streaming then e2 else stop_stream e2 in
  (e3, if save then save_data e3 else None).

End Session.

(** ** [main.py]: the standalone mode *)

(** The command line arguments the standalone mode reads. *)
Record arguments : Type := mkArguments {
  arg_list_ports : bool;
  arg_calibrate : bool;
  arg_record : Z
}.

Section Standalone.

Variable lfilter : list R -> list R -> list R -> list R -> list R * list R.
Variable lfilter_zi : list R -> list R -> list R.

(** What [signal.butter] and [signal.iirnotch] return in the constructor. *)
Variables butter_b butter_a iirnotch_b iirnotch_a : list R.

(** [run_standalone_mode], with the engine it leaves behind: [cal_lines]
    and [rec_lines] are the lines arriving during the calibration and
    during the recording.  [if args.record:] holds for every integer but 0. *)
Definition run_standalone_mode (args : arguments) (device_ok : bool)
    (now_cal now_rec : R) (cal_lines rec_lines : list arrival)
    : BrainInterface :=
  let device := init butter_b butter_a iirnotch_b iirnotch_a in
  if arg_list_ports args then device
  else
    let '(d1, ok) := connect device device_ok in
    if ok then
      let d2 := if arg_calibrate args
                then fst (calibrate lfilter lfilter_zi d1 device_ok now_cal cal_lines)
                else d1 in
      let d3 := if arg_record args =? 0
                then d2
                else fst (run_session lfilter lfilter_zi d2 device_ok now_rec
                            rec_lines true) in
      disconnect d3
    else d1.

End Standalone.

(** ** [mcp/server.py]: the session record and the tool methods *)

(** One entry of [session_data["events"]]. *)
Record event : Type := mkEvent {
  event_id : Z;
  event_timestamp : R;
  event_elapsed_time : R
}.

(** [session_data["calibration"]]. *)
Record calibration_info : Type := mkCalibrationInfo {
  cal_timestamp : R;
  cal_duration : Z;
  cal_threshold : R
}.

(** The dictionary [session_data]; [sd_calibration = None] is the empty
    dictionary it starts with. *)
Record session_data : Type := mkSessionData {
  sd_device_connected : bool;
  sd_streaming : bool;
  sd_events : list event;
  sd_event_count : Z;
  sd_session_start : option R;
  sd_calibration : option calibration_info
}.

Definition initial_session_data : session_data :=
  {| sd_device_connected := false;
     sd_streaming := false;
     sd_events := [];
     sd_event_count := 0;
     sd_session_start := None;
     sd_calibration := None |}.

(** The two globals of the module. *)
Record server : Type := mkServer {
  brain_interface : option BrainInterface;
  session : session_data
}.

(** The result of a tool method: [Success] with its ["status"], or
    [Error] with its code (messages and the fields copied from the state
    are left out). *)
Inductive response : Type :=
  | Success (status : string)
  | Error (code : Z).

(** "Format recent events (last 5)": [events[-(i+1)]] for
    [i in range(min(5, len(events)))]. *)
Definition recent_events (events : list event) : list event :=
  omap (fun i => events !! (length events - S i)%nat)
    (seq 0 (Nat.min 5 (length events))).

(** What the choice of the indices in [get_resource_brain_signals] comes
    to: the ["no_data"] answer, an index list, or [AttributeError]. *)
Inductive signal_index_result : Type :=
  | IndicesNoData
  | Indices (indices : list Z)
  | IndicesAttributeError.

(** From 250 samples on the method evaluates
    [brain_interface.current_sample_idx % brain_interface.BUFFER_SIZE].
    [BUFFER_SIZE] is a constant of the module, not an attribute of the
    object or of its class, so the evaluation raises [AttributeError]
    before any index is computed. *)
Definition signal_indices (e : BrainInterface) : signal_index_result :=
  if current_sample_idx e <? 250 then
    let indices := range (current_sample_idx e) in
    if (length indices =? 0)%nat then IndicesNoData else Indices indices
  else IndicesAttributeError.

(** What [get_resource_brain_signals] answers. *)
Inductive brain_signals : Type :=
  | SignalsNotStreaming
  | SignalsNoData
  | SignalsStreaming (timestamps raw filtered : list R) (count : Z)
      (recent : list event)
  | SignalsTypeError          (* a [start_time] of [None] cannot be subtracted *)
  | SignalsAttributeError.    (* the object has no attribute [BUFFER_SIZE] *)

Definition get_resource_brain_signals (s : server) : brain_signals :=
  match brain_interface s with
  | None => SignalsNotStreaming
  | Some e =>
      if negb (sd_streaming (session s)) then SignalsNotStreaming
      else
        match signal_indices e with
        | IndicesNoData => SignalsNoData
        | IndicesAttributeError => SignalsAttributeError
        | Indices indices =>
            match start_time e with
            | None => SignalsTypeError
            | Some st =>
                SignalsStreaming
                  (map (fun t => (t - st)%R) (np.take (timestamps e) indices))
                  (np.take (raw_buffer e) indices)
                  (np.take (filtered_buffer e) indices)
                  (sd_event_count (session s))
                  (recent_events (sd_events (session s)))
            end
        end
  end.

Definition with_session (s : server) (sd : session_data) : server :=
  {| brain_interface := brain_interface s; session := sd |}.

Definition set_device_connected (sd : session_data) (b : bool) : session_data :=
  {| sd_device_connected := b; sd_streaming := sd_streaming sd;
     sd_events := sd_events sd; sd_event_count := sd_event_count sd;
     sd_session_start := sd_session_start sd;
     sd_calibration := sd_calibration sd |}.

Definition set_sd_streaming (sd : session_data) (b : bool) : session_data :=
  {| sd_device_connected := sd_device_connected sd; sd_streaming := b;
     sd_events := sd_events sd; sd_event_count := sd_event_count sd;
     sd_session_start := sd_session_start sd;
     sd_calibration := sd_calibration sd |}.

Section Server.

Variable lfilter : list R -> list R -> list R -> list R -> list R * list R.
Variable lfilter_zi : list R -> list R -> list R.

(** What [signal.butter] and [signal.iirnotch] return in the constructor. *)
Variables butter_b butter_a iirnotch_b iirnotch_a : list R.

(** [start_server] creates the global engine. *)
Definition start_server : server :=
  {| brain_interface := Some (init butter_b butter_a iirnotch_b iirnotch_a);
     session := initial_session_data |}.

Definition invoke_tool_connect_device (s : server) (device_ok : bool)
    : server * response :=
  let e := match brain_interface s with
           | None => init butter_b butter_a iirnotch_b iirnotch_a
           | Some e => e
           end in
  let '(e', success) := connect e device_ok in
  ({| brain_interface := Some e';
      session := set_device_connected (session s) success |},
   if success then Success "connected" else Error (-32000)).

Definition invoke_tool_disconnect_device (s : server) : server * response :=
  match brain_interface s with
  | None => (s, Error (-32001))
  | Some e =>
      if negb (sd_device_connected (session s)) then (s, Error (-32002))
      else
        ({| brain_interface := Some (disconnect e);
            session := set_sd_streaming
                         (set_device_connected (session s) false) false |},
         Success "disconnected")
  end.

(** [now] is the clock value read by [start_stream], [session_now] the one
    stored in [session_data["session_start"]]. *)
Definition invoke_tool_start_stream (s : server) (device_ok : bool)
    (now session_now : R) : server * response :=
  match brain_interface s with
  | None => (s, Error (-32001))
  | Some e =>
      if negb (sd_device_connected (session s)) then (s, Error (-32002))
      else if sd_streaming (session s) then (s, Success "already_streaming")
      else
        let '(e', success) := start_stream e device_ok now in
        if success then
          ({| brain_interface := Some e';
              session :=
                {| sd_device_connected := sd_device_connected (session s);
                   sd_streaming := true;
                   sd_events := [];
                   sd_event_count := 0;
                   sd_session_start := Some session_now;
                   sd_calibration := sd_calibration (session s) |} |},
           Success "streaming")
        else ({| brain_interface := Some e'; session := session s |},
              Error (-32003))
  end.

Definition invoke_tool_stop_stream (s : server) : server * response :=
  match brain_interface s with
  | None => (s, Error (-32001))
  | Some e =>
      if negb (sd_streaming (session s)) then (s, Success "not_streaming")
      else
        ({| brain_interface := Some (stop_stream e);
            session := set_sd_streaming (session s) false |},
         Success "stopped")
  end.

(** [arrivals] are the lines processed during the calibration, [stamp] the
    clock value stored with its result. *)
Definition invoke_tool_calibrate_device (s : server) (duration : Z)
    (device_ok : bool) (now : R) (arrivals : list arrival) (stamp : R)
    : server * response :=
  match brain_interface s with
  | None => (s, Error (-32001))
  | Some e =>
      if negb (sd_device_connected (session s)) then (s, Error (-32002))
      else
        let e' := fst (calibrate lfilter lfilter_zi e device_ok now arrivals) in
        ({| brain_interface := Some e';
            session :=
              {| sd_device_connected := sd_device_connected (session s);
                 sd_streaming := streaming e';
                 sd_events := sd_events (session s);
                 sd_event_count := sd_event_count (session s);
                 sd_session_start := sd_session_start (session s);
                 sd_calibration :=
                   Some {| cal_timestamp := stamp; cal_duration := duration;
                           cal_threshold := detection_threshold e' |} |} |},
         Success "calibrated")
  end.

(** [supported] says whether [format] is one of the three formats
    [save_data] writes. *)
Definition invoke_tool_save_data (s : server) (supported : bool)
    : server * response :=
  match brain_interface s with
  | None => (s, Error (-32001))
  | Some e =>
      if current_sample_idx e =? 0 then (s, Error (-32004))
      else
        match (if supported then save_data e else None) with
        | Some _ => (s, Success "saved")
        | None => (s, Error (-32005))
        end
  end.

(** The requests a client sends, and the lines that reach the reader
    thread between two of them.  Arriving lines change the engine only:
    [on_neural_event] is a coroutine function, so the call the detector
    makes does not run its body, and [invoke_tool_connect_device] registers
    it only when there is no engine, which [start_server] has created. *)
Inductive request : Type :=
  | ConnectDevice (device_ok : bool)
  | DisconnectDevice
  | StartStreamTool (device_ok : bool) (now session_now : R)
  | StopStreamTool
  | CalibrateDevice (duration : Z) (device_ok : bool) (now : R)
      (arrivals : list arrival) (stamp : R)
  | SaveData (supported : bool)
  | LinesArrive (arrivals : list arrival).

Definition serve (s : server) (r : request) : server :=
  match r with
  | ConnectDevice ok => fst (invoke_tool_connect_device s ok)
  | DisconnectDevice => fst (invoke_tool_disconnect_device s)
  | StartStreamTool ok now session_now =>
      fst (invoke_tool_start_stream s ok now session_now)
  | StopStreamTool => fst (invoke_tool_stop_stream s)
  | CalibrateDevice duration ok now arrivals stamp =>
      fst (invoke_tool_calibrate_device s duration ok now arrivals stamp)
  | SaveData supported => fst (invoke_tool_save_data s supported)
  | LinesArrive arrivals =>
      match brain_interface s with
      | None => s
      | Some e =>
          {| brain_interface := Some (_stream_data lfilter lfilter_zi e arrivals);
             session := session s |}
      end
  end.

Definition serve_all (s : server) (rs : list request) : server :=
  fold_left serve rs s.

End Server.

(** The flags of the engine agree: the port is open exactly when the
    engine runs, and it streams only while it runs. *)
Definition flags_ok (e : BrainInterface) : Prop :=
  running e = serial_open e /\ (streaming e = true -> running e = true).

(** The session record of the server agrees with the engine it describes:
    its streaming entry is the engine's flag, and a device it calls
    connected is one whose port is open. *)
Definition session_tracks_engine (s : server) : Prop :=
  exists e,
    brain_interface s = Some e /\
    flags_ok e /\
    sd_streaming (session s) = streaming e /\
    (sd_device_connected (session s) = true -> running e = true).

(** An engine that streams, or has taken a sample, has a start time. *)
Definition started_ok (e : BrainInterface) : Prop :=
  start_time e = None -> current_sample_idx e = 0 /\ streaming e = false.

(** The event count is the length of the event log. *)
Definition counts_ok (e : BrainInterface) : Prop :=
  event_count e = Z.of_nat (length (event_timestamps e)).

(** No two entries of an event log are within [cooldown] of each other. *)
Definition spaced (cooldown : R) (log : list R) : Prop :=
  forall (i j : nat) (ti tj : R),
    (i < j)%nat -> log !! i = Some ti -> log !! j = Some tj ->
    (tj - ti > cooldown)%R.

(** The invariant of the event log: every logged time is at most the
    last event time, and the log is spaced by the cooldown. *)
Definition log_spaced (e : BrainInterface) : Prop :=
  (0 <= cooldown_period e)%R /\
  Forall (fun t => (t <= last_event_time e)%R) (event_timestamps e) /\
  spaced (cooldown_period e) (event_timestamps e).

(** The engine [e] with another value in its [notch_state] attribute. *)
Definition with_notch_state (e : BrainInterface) (ns : option (list R))
    : BrainInterface :=
  {| serial_open := serial_open e; raw_buffer := raw_buffer e;
     filtered_buffer := filtered_buffer e; timestamps := timestamps e;
     event_timestamps := event_timestamps e; running := running e;
     streaming := streaming e; filter_state := filter_state e;
     notch_state := ns; current_sample_idx := current_sample_idx e;
     start_time := start_time e; event_count := event_count e;
     last_event_time := last_event_time e; cooldown_period := cooldown_period e;
     detection_threshold := detection_threshold e; window_size := window_size e;
     bp_filter_b := bp_filter_b e; bp_filter_a := bp_filter_a e;
     notch_b := notch_b e; notch_a := notch_a e |}.

(** The ring invariant of the three buffers: [recs] are the samples
    written since the counter stood at [s0], and each of them that is at
    most [BUFFER_SIZE] writes old sits in the slot of its sequence number. *)
Definition ring_holds (s0 : Z) (recs : list Sample) (e : BrainInterface) : Prop :=
  current_sample_idx e = s0 + Z.of_nat (length recs) /\
  (forall (k : nat) (r : Sample),
     recs !! k = Some r -> sequence r = s0 + Z.of_nat k) /\
  (forall (k : nat) (r : Sample),
     recs !! k = Some r ->
     current_sample_idx e - BUFFER_SIZE <= s0 + Z.of_nat k ->
     np.getitem (raw_buffer e) ((s0 + Z.of_nat k) mod BUFFER_SIZE) = raw r /\
     np.getitem (filtered_buffer e) ((s0 + Z.of_nat k) mod BUFFER_SIZE) = filtered r /\
     np.getitem (timestamps e) ((s0 + Z.of_nat k) mod BUFFER_SIZE) = timestamp r).

(** The most recent [BUFFER_SIZE] elements of a list (all of a shorter one). *)
Definition most_recent {A : Type} (l : list A) : list A :=
  drop (length l - Z.to_nat BUFFER_SIZE) l.

(** ** Engines used to run the model *)

(** A freshly constructed engine with short example coefficient vectors. *)
Definition bench : BrainInterface :=
  init [(1/2)%R; (1/2)%R] [1%R; 0%R] [1%R; 0%R; 1%R] [1%R; 0%R; 0%R].

(** [bench] connected and streaming since clock value 100. *)
Definition bench_streaming : BrainInterface := fst (start_stream bench true 100%R).

(** An engine whose two-sample window ending at slot 0 holds 0 and 1. *)
Definition bench_spike : BrainInterface :=
  {| serial_open := true;
     raw_buffer := np.zeros BUFFER_SIZE;
     filtered_buffer := np.setitem (np.zeros BUFFER_SIZE) 0 1%R;
     timestamps := np.zeros BUFFER_SIZE;
     event_timestamps := [];
     running := true;
     streaming := true;
     filter_state := Some [];
     notch_state := Some [];
     current_sample_idx := 1250;
     start_time := Some 100%R;
     event_count := 0;
     last_event_time := 0%R;
     cooldown_period := (1 / 2)%R;
     detection_threshold := (1 / 2)%R;
     window_size := 2;
     bp_filter_b := [1%R];
     bp_filter_a := [1%R];
     notch_b := [1%R];
     notch_a := [1%R] |}.

(** A calibrated engine in a session that has logged two events. *)
Definition bench_session : BrainInterface :=
  {| serial_open := true;
     raw_buffer := np.zeros BUFFER_SIZE;
     filtered_buffer := np.zeros BUFFER_SIZE;
     timestamps := np.zeros BUFFER_SIZE;
     event_timestamps := [101%R; 102%R];
     running := true;
     streaming := true;
     filter_state := Some [0%R];
     notch_state := Some [0%R; 0%R];
     current_sample_idx := 600;
     start_time := Some 100%R;
     event_count := 2;
     last_event_time := 102%R;
     cooldown_period := (1 / 2)%R;
     detection_threshold := 5%R;
     window_size := 50;
     bp_filter_b := [(1/2)%R; (1/2)%R];
     bp_filter_a := [1%R; 0%R];
     notch_b := [1%R; 0%R; 1%R];
     notch_a := [1%R; 0%R; 0%R] |}.

(** The same engine after [disconnect]: its device is gone. *)
Definition bench_unplugged : BrainInterface := disconnect bench_session.

(** A server whose engine is [bench_session], connected and streaming. *)
Definition bench_server : server :=
  {| brain_interface := Some bench_session;
     session := {| sd_device_connected := true;
                   sd_streaming := true;
                   sd_events := [];
                   sd_event_count := 0;
                   sd_session_start := Some 100%R;
                   sd_calibration := None |} |}.

(** A line carrying [v], stored and evaluated at clock value [t]. *)
Definition reading (v : Z) (t : R) : arrival :=
  {| line := Parsed v; t_store := t; t_detect := t |}.

(** A line that does not parse. *)
Definition garbage (t : R) : arrival :=
  {| line := Malformed; t_store := t; t_detect := t |}.

(** [bench_streaming] after the line [2], and after the lines [2] and [4]. *)
Definition after_one : BrainInterface :=
  stream_iteration df2t.lfilter df2t.lfilter_zi bench_streaming (reading 2 101%R).

Definition after_two : BrainInterface :=
  stream_iteration df2t.lfilter df2t.lfilter_zi after_one (reading 4 102%R).

(** Fifty lines carrying the value 3. *)
Definition fifty_lines : list arrival := replicate 50 (reading 3 101%R).

(** * Properties *)

(** ** Arithmetic of the buffer size *)

Lemma BUFFER_SIZE_pos : 0 < BUFFER_SIZE.
Proof. reflexivity. Qed.

Lemma slot_bounds (s : Z) : 0 <= s mod BUFFER_SIZE < BUFFER_SIZE.
Proof. apply Z.mod_pos_bound, BUFFER_SIZE_pos. Qed.

Lemma slot_in_list (a : list R) (s : Z) :
  Z.of_nat (length a) = BUFFER_SIZE ->
  (Z.to_nat (s mod BUFFER_SIZE) < length a)%nat.
Proof. intros Hlen. pose proof (slot_bounds s). lia. Qed.

(** ** Reading and writing array slots *)

Lemma getitem_setitem_same (a : list R) (i : Z) (v : R) :
  (Z.to_nat i < length a)%nat ->
  np.getitem (np.setitem a i v) i = v.
Proof.
  intros Hi. unfold np.getitem, np.setitem.
  now rewrite list_lookup_insert_eq.
Qed.

Lemma getitem_setitem_other (a : list R) (i j : Z) (v : R) :
  Z.to_nat i <> Z.to_nat j ->
  np.getitem (np.setitem a i v) j = np.getitem a j.
Proof.
  intros Hij. unfold np.getitem, np.setitem.
  now rewrite list_lookup_insert_ne.
Qed.

Lemma length_setitem (a : list R) (i : Z) (v : R) :
  length (np.setitem a i v) = length a.
Proof. apply length_insert. Qed.

Lemma length_zeros (n : Z) : Z.of_nat (length (np.zeros n)) = Z.max 0 n.
Proof. unfold np.zeros. rewrite length_replicate. lia. Qed.

Lemma buffers_ok_init (bp_b bp_a n_b n_a : list R) :
  buffers_ok (init bp_b bp_a n_b n_a).
Proof. repeat split; try apply length_zeros; simpl; lia. Qed.

(** ** Frame of the detector *)

Ltac detector_cases :=
  unfold _detect_neural_event; cbv zeta;
  repeat match goal with
         | |- context [Rgt_dec ?x ?y] => destruct (Rgt_dec x y)
         end.

Lemma detect_cases (e : BrainInterface) (i : Z) (t : R) :
  _detect_neural_event e i t = e \/
  _detect_neural_event e i t = record_event e t.
Proof. detector_cases; auto. Qed.

Lemma detect_fired_cases (e : BrainInterface) (i : Z) (t : R) :
  _detect_neural_event e i t = e \/
  (_detect_neural_event e i t = record_event e t /\
   (np.std (window_data e i) > 0)%R /\
   (max_z (window_data e i) > detection_threshold e)%R /\
   (t - last_event_time e > cooldown_period e)%R).
Proof. detector_cases; auto. Qed.

Lemma detect_zero_std (e : BrainInterface) (i : Z) (t : R) :
  np.std (window_data e i) = 0%R -> _detect_neural_event e i t = e.
Proof.
  intros Hz. destruct (detect_fired_cases e i t) as [H | (_ & Hpos & _)];
    [exact H | lra].
Qed.

Lemma detect_raw_buffer e i t :
  raw_buffer (_detect_neural_event e i t) = raw_buffer e.
Proof. destruct (detect_cases e i t) as [-> | ->]; reflexivity. Qed.

Lemma detect_filtered_buffer e i t :
  filtered_buffer (_detect_neural_event e i t) = filtered_buffer e.
Proof. destruct (detect_cases e i t) as [-> | ->]; reflexivity. Qed.

Lemma detect_timestamps e i t :
  timestamps (_detect_neural_event e i t) = timestamps e.
Proof. destruct (detect_cases e i t) as [-> | ->]; reflexivity. Qed.

Lemma detect_current_sample_idx e i t :
  current_sample_idx (_detect_neural_event e i t) = current_sample_idx e.
Proof. destruct (detect_cases e i t) as [-> | ->]; reflexivity. Qed.

Lemma detect_flags e i t :
  streaming (_detect_neural_event e i t) = streaming e /\
  serial_open (_detect_neural_event e i t) = serial_open e /\
  running (_detect_neural_event e i t) = running e.
Proof. destruct (detect_cases e i t) as [-> | ->]; auto. Qed.

Lemma detect_parameters e i t :
  detection_threshold (_detect_neural_event e i t) = detection_threshold e /\
  cooldown_period (_detect_neural_event e i t) = cooldown_period e /\
  window_size (_detect_neural_event e i t) = window_size e.
Proof. destruct (detect_cases e i t) as [-> | ->]; auto. Qed.

Lemma detect_filter_states e i t :
  filter_state (_detect_neural_event e i t) = filter_state e /\
  notch_state (_detect_neural_event e i t) = notch_state e.
Proof. destruct (detect_cases e i t) as [-> | ->]; auto. Qed.

Lemma detect_coefficients e i t :
  bp_filter_b (_detect_neural_event e i t) = bp_filter_b e /\
  bp_filter_a (_detect_neural_event e i t) = bp_filter_a e /\
  notch_b (_detect_neural_event e i t) = notch_b e /\
  notch_a (_detect_neural_event e i t) = notch_a e.
Proof. destruct (detect_cases e i t) as [-> | ->]; auto. Qed.

(** ** The detector *)

(** When the detector fires on a window of positive deviation. *)
Lemma fired_iff (e : BrainInterface) (current_idx : Z) (now : R) :
  (np.std (window_data e current_idx) > 0)%R ->
  event_fired e (_detect_neural_event e current_idx now) <->
  (max_z (window_data e current_idx) > detection_threshold e)%R /\
  (now - last_event_time e > cooldown_period e)%R.
Proof.
  intros Hstd. unfold event_fired.
  destruct (detect_fired_cases e current_idx now)
    as [Hsame | (Hfire & _ & Hz & Hgap)].
  - rewrite Hsame. split; [lia |]. intros [Hz Hgap].
    revert Hsame. unfold _detect_neural_event. cbv zeta.
    destruct (Rgt_dec _ _); [| contradiction].
    destruct (Rgt_dec _ _); [| contradiction].
    destruct (Rgt_dec _ _); [| contradiction].
    intros Hsame. apply (f_equal event_count) in Hsame. simpl in Hsame. lia.
  - rewrite Hfire. simpl. split; [auto | lia].
Qed.

(** C1. On a window whose population standard deviation is positive the
    detector fires exactly when the largest absolute z-score exceeds the
    threshold and more than the cooldown has passed since the last event;
    when it fires it adds one to the event count, appends the current time
    to the event log and makes it the last event time, and when it does
    not fire it leaves the engine as it was. *)
Theorem detector_fires_iff (e : BrainInterface) (current_idx : Z) (now : R) :
  let w := window_data e current_idx in
  let e' := _detect_neural_event e current_idx now in
  (np.std w > 0)%R ->
  (event_fired e e' <->
     (max_z w > detection_threshold e)%R /\
     (now - last_event_time e > cooldown_period e)%R) /\
  (event_fired e e' ->
     event_count e' = event_count e + 1 /\
     event_timestamps e' = event_timestamps e ++ [now] /\
     last_event_time e' = now) /\
  (~ event_fired e e' -> e' = e).
Proof.
  intros w e' Hstd. subst w e'.
  split; [now apply fired_iff |].
  unfold event_fired.
  destruct (detect_cases e current_idx now) as [-> | ->]; simpl.
  - split; [lia | reflexivity].
  - split; [auto |]. intros Hn. exfalso. apply Hn. reflexivity.
Qed.

Lemma Rabs_square (x : R) : (Rabs x * Rabs x = x * x)%R.
Proof. unfold Rabs. destruct (Rcase_abs x); lra. Qed.

Lemma bench_spike_window : window_data bench_spike 0 = [1%R; 0%R].
Proof. reflexivity. Qed.

Lemma std_pair_1_0 : np.std [1%R; 0%R] = (1 / 2)%R.
Proof.
  unfold np.std, np.mean, np.sum. simpl.
  rewrite !Rabs_square.
  replace (_ / _)%R with ((1/2) * (1/2))%R by (simpl; lra).
  apply sqrt_square. lra.
Qed.

Lemma max_z_pair_1_0 : max_z [1%R; 0%R] = 1%R.
Proof.
  unfold max_z, z_scores. rewrite std_pair_1_0.
  unfold np.mean, np.sum, np.abs, np.max. simpl.
  replace ((1 - (1 + (0 + 0)) / (1 + 1)) / (1 / 2))%R with 1%R by lra.
  replace ((0 - (1 + (0 + 0)) / (1 + 1)) / (1 / 2))%R with (-1)%R by lra.
  rewrite Rabs_R1. replace (Rabs (-1)) with 1%R
    by (unfold Rabs; destruct (Rcase_abs (-1)); lra).
  apply Rmax_left. lra.
Qed.

Lemma detector_fires_iff_witness :
  (np.std (window_data bench_spike 0) > 0)%R /\
  event_fired bench_spike (_detect_neural_event bench_spike 0 200%R).
Proof.
  assert (Hstd : (np.std (window_data bench_spike 0) > 0)%R).
  { rewrite bench_spike_window, std_pair_1_0. lra. }
  split; [exact Hstd |].
  destruct (detector_fires_iff bench_spike 0 200%R Hstd) as [[_ Hfire] _].
  apply Hfire.
  rewrite bench_spike_window, max_z_pair_1_0. simpl. lra.
Defined.

(** ** Lifecycle *)

Lemma start_stream_result (e : BrainInterface) (ok : bool) (now : R) :
  snd (start_stream e ok now) = running e || ok.
Proof. unfold start_stream, connect. destruct (running e), ok; reflexivity. Qed.

Lemma start_stream_refused (e : BrainInterface) (now : R) :
  running e = false -> start_stream e false now = (e, false).
Proof. intros Hr. unfold start_stream, connect. now rewrite Hr. Qed.

Lemma start_stream_accepted (e : BrainInterface) (ok : bool) (now : R) :
  running e || ok = true ->
  exists e1,
    start_stream e ok now = (reset_session (set_streaming e1 true) now, true) /\
    (e1 = e \/ e1 = set_connection e true true).
Proof.
  intros Hok. unfold start_stream, connect.
  destruct (running e); [eauto |].
  destruct ok; [eauto | discriminate].
Qed.

(** C9, as amended.  [stop_stream] changes nothing but the streaming
    flag, so the event count, the event log, the sample counter and the
    three buffers read after it are the ones from before it; and when the
    device is connected, or the connection attempt of [start_stream]
    succeeds, the following [start_stream] sets the event count to 0 and
    empties the event log. *)
Theorem stop_then_start (e : BrainInterface) (ok : bool) (now : R) :
  running e || ok = true ->
  let stopped := stop_stream e in
  let restarted := fst (start_stream stopped ok now) in
  (event_count stopped = event_count e /\
   event_timestamps stopped = event_timestamps e /\
   current_sample_idx stopped = current_sample_idx e /\
   raw_buffer stopped = raw_buffer e /\
   filtered_buffer stopped = filtered_buffer e /\
   timestamps stopped = timestamps e) /\
  event_count restarted = 0 /\
  event_timestamps restarted = [] /\
  streaming restarted = true.
Proof.
  intros Hok stopped restarted. split; [now repeat split |].
  subst restarted.
  destruct (start_stream_accepted stopped ok now Hok) as (e1 & -> & _).
  now repeat split.
Qed.

Lemma stop_then_start_witness :
  running bench_streaming || false = true /\
  event_count (fst (start_stream (stop_stream bench_streaming) false 300%R)) = 0.
Proof.
  assert (H : running bench_streaming || false = true) by reflexivity.
  split; [exact H |].
  apply (stop_then_start bench_streaming false 300%R H).
Defined.

(** C9, the claim as written fails: on an engine whose device is gone,
    [stop_stream] followed by [start_stream] returns [False] before the
    resets, and the event count and the log of the last session stay. *)
Lemma stop_then_start_refused :
  let restarted := fst (start_stream (stop_stream bench_unplugged) false 300%R) in
  event_count restarted = 2 /\
  event_timestamps restarted = [101%R; 102%R] /\
  ~ (event_count restarted = 0 /\ event_timestamps restarted = []).
Proof.
  cbv zeta. rewrite start_stream_refused by reflexivity. simpl.
  repeat split. intros [H _]. discriminate H.
Qed.

(** ** One iteration of the reader loop *)

Section StreamProperties.

Variable lfilter : list R -> list R -> list R -> list R -> list R * list R.
Variable lfilter_zi : list R -> list R -> list R.

Local Abbreviation filter1 := (filter_sample lfilter lfilter_zi).
Local Abbreviation process := (process_sample lfilter lfilter_zi).
Local Abbreviation iteration := (stream_iteration lfilter lfilter_zi).
Local Abbreviation run := (_stream_data lfilter lfilter_zi).
Local Abbreviation trace := (ingested lfilter lfilter_zi).
Local Abbreviation stored := (stored lfilter lfilter_zi).

Lemma process_sample_cases (e : BrainInterface) (v : Z) (ts td : R) :
  process e v ts td = advance_sample_idx (stored e v ts) \/
  process e v ts td =
    advance_sample_idx (record_event (stored e v ts) td).
Proof.
  unfold process_sample, stored.
  destruct (filter1 e (IZR (decode_sample v))) as [[y fs] ns]. cbn [fst snd].
  match goal with
  | |- context [if ?c then _ else _] => destruct c
  end; [| now left].
  match goal with
  | |- context [_detect_neural_event ?s ?i ?t] =>
      destruct (detect_cases s i t) as [-> | ->]
  end; auto.
Qed.

Lemma process_raw_buffer e v ts td :
  raw_buffer (process e v ts td) =
  np.setitem (raw_buffer e) (current_sample_idx e mod BUFFER_SIZE)
    (IZR (decode_sample v)).
Proof. destruct (process_sample_cases e v ts td) as [-> | ->]; reflexivity. Qed.

Lemma process_filtered_buffer e v ts td :
  filtered_buffer (process e v ts td) =
  np.setitem (filtered_buffer e) (current_sample_idx e mod BUFFER_SIZE)
    (filter1 e (IZR (decode_sample v))).1.1.
Proof. destruct (process_sample_cases e v ts td) as [-> | ->]; reflexivity. Qed.

Lemma process_timestamps e v ts td :
  timestamps (process e v ts td) =
  np.setitem (timestamps e) (current_sample_idx e mod BUFFER_SIZE) ts.
Proof. destruct (process_sample_cases e v ts td) as [-> | ->]; reflexivity. Qed.

Lemma process_current_sample_idx e v ts td :
  current_sample_idx (process e v ts td) = current_sample_idx e + 1.
Proof. destruct (process_sample_cases e v ts td) as [-> | ->]; reflexivity. Qed.

Lemma process_filter_states e v ts td :
  filter_state (process e v ts td) = Some (filter1 e (IZR (decode_sample v))).1.2 /\
  notch_state (process e v ts td) = Some (filter1 e (IZR (decode_sample v))).2.
Proof. destruct (process_sample_cases e v ts td) as [-> | ->]; auto. Qed.

Lemma iteration_flags e a :
  streaming (iteration e a) = streaming e /\
  serial_open (iteration e a) = serial_open e /\
  running (iteration e a) = running e.
Proof.
  unfold stream_iteration. destruct (line a); [auto |].
  destruct (process_sample_cases e sample (t_store a) (t_detect a))
    as [-> | ->]; auto.
Qed.

Lemma iteration_parameters e a :
  detection_threshold (iteration e a) = detection_threshold e /\
  cooldown_period (iteration e a) = cooldown_period e /\
  window_size (iteration e a) = window_size e.
Proof.
  unfold stream_iteration. destruct (line a); [auto |].
  destruct (process_sample_cases e sample (t_store a) (t_detect a))
    as [-> | ->]; auto.
Qed.

Lemma iteration_buffers_ok e a : buffers_ok e -> buffers_ok (iteration e a).
Proof.
  unfold stream_iteration. destruct (line a); [auto |].
  intros (Hr & Hf & Ht & Hi). unfold buffers_ok.
  rewrite process_raw_buffer, process_filtered_buffer, process_timestamps,
    process_current_sample_idx, !length_setitem.
  repeat split; auto; lia.
Qed.

(** ** Runs of the reader loop *)

Lemma run_not_streaming e arrivals :
  streaming e && serial_open e = false -> run e arrivals = e.
Proof. intros H. destruct arrivals; simpl; [reflexivity | now rewrite H]. Qed.

Lemma run_flags e arrivals :
  streaming (run e arrivals) = streaming e /\
  serial_open (run e arrivals) = serial_open e /\
  running (run e arrivals) = running e.
Proof.
  revert e. induction arrivals as [| a rest IH]; intros e; simpl; [auto |].
  destruct (streaming e && serial_open e); [| auto].
  destruct (IH (iteration e a)) as (-> & -> & ->). apply iteration_flags.
Qed.

Lemma run_parameters e arrivals :
  detection_threshold (run e arrivals) = detection_threshold e /\
  cooldown_period (run e arrivals) = cooldown_period e /\
  window_size (run e arrivals) = window_size e.
Proof.
  revert e. induction arrivals as [| a rest IH]; intros e; simpl; [auto |].
  destruct (streaming e && serial_open e); [| auto].
  destruct (IH (iteration e a)) as (-> & -> & ->). apply iteration_parameters.
Qed.

Lemma run_buffers_ok e arrivals : buffers_ok e -> buffers_ok (run e arrivals).
Proof.
  revert e. induction arrivals as [| a rest IH]; intros e He; simpl; [auto |].
  destruct (streaming e && serial_open e); [| auto].
  apply IH, iteration_buffers_ok, He.
Qed.

Lemma run_app e before after :
  run e (before ++ after) = run (run e before) after.
Proof.
  revert e. induction before as [| a rest IH]; intros e; simpl; [reflexivity |].
  destruct (streaming e && serial_open e) eqn:Hs; [apply IH |].
  symmetry. now apply run_not_streaming.
Qed.

Lemma trace_not_streaming e arrivals :
  streaming e && serial_open e = false -> trace e arrivals = [].
Proof. intros H. destruct arrivals; simpl; [reflexivity | now rewrite H]. Qed.

Lemma trace_app e before after :
  trace e (before ++ after) = trace e before ++ trace (run e before) after.
Proof.
  revert e. induction before as [| a rest IH]; intros e; simpl; [reflexivity |].
  destruct (streaming e && serial_open e) eqn:Hs.
  - rewrite IH. now rewrite app_assoc.
  - symmetry. now apply trace_not_streaming.
Qed.

Lemma run_current_sample_idx e arrivals :
  current_sample_idx (run e arrivals) =
  current_sample_idx e + Z.of_nat (length (trace e arrivals)).
Proof.
  revert e. induction arrivals as [| a rest IH]; intros e; simpl; [lia |].
  destruct (streaming e && serial_open e); [| simpl; lia].
  rewrite IH, length_app. unfold stream_iteration, sample_of.
  destruct (line a); simpl; [lia |].
  rewrite process_current_sample_idx. lia.
Qed.

(** ** Malformed lines *)

(** C8. A line that fails to decode or to parse leaves every attribute
    of the engine as it was (no buffer write, no filter state update, no
    counter increment, no detector evaluation), the loop goes on with the
    following lines, and the run as a whole ends in the state, and writes
    the samples, it would have without that line. *)
Theorem malformed_line_dropped (e : BrainInterface) (ts td : R)
    (before after : list arrival) :
  let bad := {| line := Malformed; t_store := ts; t_detect := td |} in
  iteration e bad = e /\
  run e (before ++ bad :: after) = run e (before ++ after) /\
  trace e (before ++ bad :: after) = trace e (before ++ after) /\
  run e (before ++ bad :: after) = run (run e before) after.
Proof.
  intros bad.
  assert (Hrun : forall s rest, run s (bad :: rest) = run s rest).
  { intros s rest. simpl. destruct (streaming s && serial_open s) eqn:Hs;
      [reflexivity | symmetry; now apply run_not_streaming]. }
  assert (Htrace : forall s rest, trace s (bad :: rest) = trace s rest).
  { intros s rest. simpl. destruct (streaming s && serial_open s) eqn:Hs;
      [reflexivity | symmetry; now apply trace_not_streaming]. }
  split; [reflexivity |].
  rewrite !run_app, !trace_app, Hrun, Htrace. auto.
Qed.

(** ** Sign decoding of the raw value *)

(** Every 24-bit value decodes to an integer the float64 buffer holds
    exactly. *)
Lemma decode_sample_exact (v : Z) :
  0 <= v < 0x1000000 -> float64_exact (decode_sample v).
Proof.
  intros Hv. unfold float64_exact, decode_sample.
  assert (H53 : 2 ^ 53 = 9007199254740992) by reflexivity. rewrite H53.
  destruct (v >? 0x800000); lia.
Qed.


(** ** The sample counter *)

(** C3, as amended.  The sample counter grows by exactly one for each
    line that parses, stays as it is on a malformed line and on
    [stop_stream], and over a run of the loop grows by the number of
    samples written; a [start_stream] that succeeds sets it back to 0, and
    one that fails leaves it. *)
Theorem sample_counter_steps (e : BrainInterface) :
  (forall v ts td,
     current_sample_idx
       (iteration e {| line := Parsed v; t_store := ts; t_detect := td |})
     = current_sample_idx e + 1) /\
  (forall ts td,
     current_sample_idx
       (iteration e {| line := Malformed; t_store := ts; t_detect := td |})
     = current_sample_idx e) /\
  (forall arrivals,
     current_sample_idx (run e arrivals)
     = current_sample_idx e + Z.of_nat (length (trace e arrivals))) /\
  current_sample_idx (stop_stream e) = current_sample_idx e /\
  (forall ok now,
     current_sample_idx (fst (start_stream e ok now))
     = if snd (start_stream e ok now) then 0 else current_sample_idx e).
Proof.
  split; [intros; apply process_current_sample_idx |].
  split; [reflexivity |].
  split; [apply run_current_sample_idx |].
  split; [reflexivity |].
  intros ok now. unfold start_stream, connect.
  destruct (running e); [reflexivity |]. destruct ok; reflexivity.
Qed.

End StreamProperties.

Lemma buffers_ok_bench_streaming : buffers_ok bench_streaming.
Proof. repeat split; try apply length_zeros; simpl; lia. Qed.


(** C3, the claim as written fails: after three samples the counter is
    3, and [stop_stream] followed by [start_stream] puts it back to 0. *)
Lemma sample_counter_reset_by_restart :
  let e := _stream_data df2t.lfilter df2t.lfilter_zi bench_streaming
             [reading 5 101%R; reading 6 102%R; reading 7 103%R] in
  let restarted := fst (start_stream (stop_stream e) true 104%R) in
  current_sample_idx e = 3 /\
  current_sample_idx restarted = 0 /\
  ~ (current_sample_idx e <= current_sample_idx restarted).
Proof.
  cbv zeta.
  assert (H3 : current_sample_idx
                 (_stream_data df2t.lfilter df2t.lfilter_zi bench_streaming
                    [reading 5 101%R; reading 6 102%R; reading 7 103%R]) = 3).
  { rewrite run_current_sample_idx. reflexivity. }
  assert (H0 : current_sample_idx
                 (fst (start_stream
                         (stop_stream
                            (_stream_data df2t.lfilter df2t.lfilter_zi
                               bench_streaming
                               [reading 5 101%R; reading 6 102%R; reading 7 103%R]))
                         true 104%R)) = 0).
  { unfold start_stream, connect.
    match goal with |- context [if ?c then _ else _] => destruct c end;
      reflexivity. }
  rewrite H3, H0. repeat split. lia.
Qed.

(** ** The cooldown *)

Lemma log_spaced_frame (e e' : BrainInterface) :
  cooldown_period e' = cooldown_period e ->
  last_event_time e' = last_event_time e ->
  event_timestamps e' = event_timestamps e ->
  log_spaced e -> log_spaced e'.
Proof. unfold log_spaced. intros -> -> ->. auto. Qed.

Lemma log_spaced_empty (e : BrainInterface) :
  (0 <= cooldown_period e)%R -> event_timestamps e = [] -> log_spaced e.
Proof.
  intros Hcd Hlog. unfold log_spaced. rewrite Hlog.
  repeat split; [exact Hcd | constructor |].
  intros i j ti tj _ Hi. rewrite lookup_nil in Hi. discriminate.
Qed.

Lemma record_event_log_spaced (e : BrainInterface) (t : R) :
  log_spaced e ->
  (t - last_event_time e > cooldown_period e)%R ->
  log_spaced (record_event e t).
Proof.
  intros (Hcd & Hall & Hsp) Hgap. unfold log_spaced. simpl.
  split; [exact Hcd |]. split.
  - apply Forall_app. split.
    + eapply Forall_impl; [exact Hall |]. simpl. intros x Hx. lra.
    + constructor; [lra | constructor].
  - intros i j ti tj Hij Hi Hj.
    apply lookup_app_Some in Hj as [Hj | [Hlen Hj]].
    + apply lookup_app_Some in Hi as [Hi | [Hlen _]].
      * exact (Hsp i j ti tj Hij Hi Hj).
      * apply lookup_lt_Some in Hj. lia.
    + apply list_lookup_singleton_Some in Hj as [Hj0 <-].
      apply lookup_app_Some in Hi as [Hi | [Hlen' _]]; [| lia].
      rewrite Forall_lookup in Hall. specialize (Hall i ti Hi). simpl in Hall.
      lra.
Qed.

Lemma detect_log_spaced (e : BrainInterface) (i : Z) (t : R) :
  log_spaced e -> log_spaced (_detect_neural_event e i t).
Proof.
  intros He. destruct (detect_fired_cases e i t) as [-> | (-> & _ & _ & Hgap)];
    [exact He | now apply record_event_log_spaced].
Qed.

Lemma lifecycle_log_spaced (e : BrainInterface) :
  log_spaced e ->
  (forall ok, log_spaced (fst (connect e ok))) /\
  log_spaced (disconnect e) /\
  log_spaced (stop_stream e) /\
  (forall ok now, log_spaced (fst (start_stream e ok now))).
Proof.
  intros He. split; [| split; [| split]].
  - intros ok. unfold connect. destruct ok; [| exact He].
    revert He. now apply log_spaced_frame.
  - unfold disconnect. destruct (serial_open e); [| exact He].
    revert He. now apply log_spaced_frame.
  - revert He. now apply log_spaced_frame.
  - intros ok now. unfold start_stream, connect.
    pose proof He as (Hcd & _).
    destruct (running e); [now apply log_spaced_empty |].
    destruct ok; [now apply log_spaced_empty | exact He].
Qed.

Section CooldownProperties.

Variable lfilter : list R -> list R -> list R -> list R -> list R * list R.
Variable lfilter_zi : list R -> list R -> list R.

Local Abbreviation process := (process_sample lfilter lfilter_zi).
Local Abbreviation iteration := (stream_iteration lfilter lfilter_zi).
Local Abbreviation run := (_stream_data lfilter lfilter_zi).
Local Abbreviation stored := (stored lfilter lfilter_zi).

Lemma process_fired_cases e v ts td :
  process e v ts td = advance_sample_idx (stored e v ts) \/
  (process e v ts td = advance_sample_idx (record_event (stored e v ts) td) /\
   (td - last_event_time e > cooldown_period e)%R).
Proof.
  unfold process_sample, stored.
  destruct (filter_sample lfilter lfilter_zi e (IZR (decode_sample v)))
    as [[y fs] ns]. cbn [fst snd].
  match goal with
  | |- context [if ?c then _ else _] => destruct c
  end; [| now left].
  match goal with
  | |- context [_detect_neural_event ?s ?i ?t] =>
      destruct (detect_fired_cases s i t) as [-> | (-> & _ & _ & Hgap)]
  end; auto.
Qed.

Lemma process_log_spaced e v ts td :
  log_spaced e -> log_spaced (process e v ts td).
Proof.
  intros He.
  assert (Hs : log_spaced (stored e v ts))
    by (revert He; now apply log_spaced_frame).
  destruct (process_fired_cases e v ts td) as [-> | [-> Hgap]].
  - revert Hs. now apply log_spaced_frame.
  - apply (record_event_log_spaced _ td) in Hs; [| exact Hgap].
    revert Hs. now apply log_spaced_frame.
Qed.

Lemma run_log_spaced e arrivals : log_spaced e -> log_spaced (run e arrivals).
Proof.
  revert e. induction arrivals as [| a rest IH]; intros e He; simpl; [exact He |].
  destruct (streaming e && serial_open e); [| exact He].
  apply IH. unfold stream_iteration. destruct (line a); [exact He |].
  now apply process_log_spaced.
Qed.

Lemma calibrate_log_spaced e ok now arrivals :
  log_spaced e -> log_spaced (fst (calibrate lfilter lfilter_zi e ok now arrivals)).
Proof.
  intros He. unfold calibrate.
  set (e1 := ensure_streaming e ok now).
  assert (H1 : log_spaced e1).
  { subst e1. unfold ensure_streaming. destruct (streaming e); [exact He |].
    now apply lifecycle_log_spaced. }
  pose proof (run_log_spaced e1 arrivals H1) as H2.
  destruct (Z.of_nat (length (calibration_data _ _ _)) >? SAMPLE_RATE);
    destruct (streaming e); simpl; revert H2; now apply log_spaced_frame.
Qed.

Lemma exec_log_spaced e c :
  log_spaced e -> log_spaced (exec lfilter lfilter_zi e c).
Proof.
  intros He.
  destruct (lifecycle_log_spaced e He) as (Hconnect & Hdisconnect & Hstop & Hstart).
  destruct c; cbn [exec].
  - apply Hconnect.
  - exact Hdisconnect.
  - apply Hstart.
  - exact Hstop.
  - apply (run_log_spaced e [a] He).
  - now apply calibrate_log_spaced.
Qed.

Lemma exec_all_log_spaced e cs :
  log_spaced e -> log_spaced (exec_all lfilter lfilter_zi e cs).
Proof.
  revert e. induction cs as [| c cs IH]; intros e He; simpl; [exact He |].
  apply IH, exec_log_spaced, He.
Qed.

(** C2. Whatever methods are called on a constructed engine and
    whatever lines arrive, any two events in the log of the current stream
    are more than the cooldown apart; and a detector evaluation on a window
    whose standard deviation is exactly zero leaves the engine as it was,
    so it fires no event. *)
Theorem events_respect_cooldown (bp_b bp_a n_b n_a : list R) (cs : list command) :
  let e := exec_all lfilter lfilter_zi (init bp_b bp_a n_b n_a) cs in
  (forall (i j : nat) (ti tj : R),
     (i < j)%nat ->
     event_timestamps e !! i = Some ti ->
     event_timestamps e !! j = Some tj ->
     (tj - ti > cooldown_period e)%R /\ (0 <= cooldown_period e)%R) /\
  (forall (e0 : BrainInterface) (current_idx : Z) (now : R),
     np.std (window_data e0 current_idx) = 0%R ->
     _detect_neural_event e0 current_idx now = e0 /\
     ~ event_fired e0 (_detect_neural_event e0 current_idx now)).
Proof.
  intros e. split.
  - assert (He : log_spaced e).
    { apply exec_all_log_spaced, log_spaced_empty; simpl; [lra | reflexivity]. }
    destruct He as (Hcd & _ & Hsp). intros i j ti tj Hij Hi Hj.
    split; [exact (Hsp i j ti tj Hij Hi Hj) | exact Hcd].
  - intros e0 current_idx now Hz. rewrite (detect_zero_std e0 current_idx now Hz).
    split; [reflexivity |]. unfold event_fired. lia.
Qed.

End CooldownProperties.

(** ** The ring buffer *)

Lemma slot_shift_ne (a d : Z) :
  0 < d < BUFFER_SIZE -> (a + d) mod BUFFER_SIZE <> a mod BUFFER_SIZE.
Proof.
  intros Hd Heq.
  assert (H0 : (a + d - a) mod BUFFER_SIZE = 0).
  { rewrite Zminus_mod, Heq, Z.sub_diag. apply Z.mod_0_l.
    pose proof BUFFER_SIZE_pos. lia. }
  replace (a + d - a) with d in H0 by lia.
  rewrite Z.mod_small in H0; lia.
Qed.

Lemma slot_to_nat_ne (a b : Z) :
  a mod BUFFER_SIZE <> b mod BUFFER_SIZE ->
  Z.to_nat (a mod BUFFER_SIZE) <> Z.to_nat (b mod BUFFER_SIZE).
Proof. pose proof (slot_bounds a). pose proof (slot_bounds b). lia. Qed.

Lemma ring_holds_start (e : BrainInterface) :
  ring_holds (current_sample_idx e) [] e.
Proof.
  split; [simpl; lia |].
  split; intros k r Hk; rewrite lookup_nil in Hk; discriminate.
Qed.

Lemma lookup_map {A B : Type} (f : A -> B) (l : list A) (i : nat) :
  map f l !! i = f <$> (l !! i).
Proof. exact (list_lookup_fmap f l i). Qed.

Lemma length_most_recent {A : Type} (l : list A) :
  length (most_recent l) = Nat.min (length l) (Z.to_nat BUFFER_SIZE).
Proof. unfold most_recent. rewrite length_drop. lia. Qed.

Lemma most_recent_short {A : Type} (l : list A) :
  Z.of_nat (length l) <= BUFFER_SIZE -> most_recent l = l.
Proof.
  intros Hl. unfold most_recent.
  replace (length l - Z.to_nat BUFFER_SIZE)%nat with 0%nat by lia.
  reflexivity.
Qed.

(** Gathering the slots of the last [min n BUFFER_SIZE] sequence numbers,
    oldest first, gives the most recent values. *)
Lemma gather_recent (get : Z -> R) (vals : list R) (s0 : Z) :
  (forall (k : nat) (v : R),
     vals !! k = Some v ->
     s0 + Z.of_nat (length vals) - BUFFER_SIZE <= s0 + Z.of_nat k ->
     get ((s0 + Z.of_nat k) mod BUFFER_SIZE) = v) ->
  let m := Z.min (Z.of_nat (length vals)) BUFFER_SIZE in
  map (fun i => get ((s0 + Z.of_nat (length vals) - m + i) mod BUFFER_SIZE))
      (seqZ 0 m)
  = most_recent vals.
Proof.
  intros Hget m. pose proof BUFFER_SIZE_pos as Hpos.
  apply list_eq. intros i. unfold most_recent.
  rewrite lookup_map, lookup_drop.
  destruct (decide (Z.of_nat i < m)) as [Hi | Hi].
  - rewrite lookup_seqZ_lt by exact Hi. simpl.
    destruct (lookup_lt_is_Some_2 vals (length vals - Z.to_nat BUFFER_SIZE + i))
      as [v Hv]; [lia |].
    rewrite Hv. f_equal.
    rewrite <- (Hget _ v Hv) by lia.
    f_equal. f_equal. lia.
  - rewrite lookup_seqZ_ge by lia. simpl. symmetry.
    apply lookup_ge_None. lia.
Qed.

(** The index list of the chronological read names the slots of the last
    [min idx BUFFER_SIZE] sequence numbers, oldest first. *)
Lemma chronological_gather (e : BrainInterface) (buf : list R) :
  0 <= current_sample_idx e ->
  let m := Z.min (current_sample_idx e) BUFFER_SIZE in
  np.take buf (chronological_indices e)
  = map (fun i => np.getitem buf ((current_sample_idx e - m + i) mod BUFFER_SIZE))
      (seqZ 0 m).
Proof.
  intros Hidx m. pose proof BUFFER_SIZE_pos as Hpos.
  unfold chronological_indices, np.take, range.
  destruct (current_sample_idx e <? BUFFER_SIZE) eqn:Hlt.
  - apply Z.ltb_lt in Hlt. replace m with (current_sample_idx e) by lia.
    apply map_ext_in. intros i Hin.
    apply list_elem_of_In, elem_of_seqZ in Hin. f_equal.
    rewrite Z.mod_small; lia.
  - apply Z.ltb_ge in Hlt. replace m with BUFFER_SIZE by lia.
    rewrite map_map. apply map_ext. intros i. f_equal.
    rewrite Zplus_mod_idemp_l.
    replace (current_sample_idx e + i)
      with (current_sample_idx e - BUFFER_SIZE + i + 1 * BUFFER_SIZE) by lia.
    apply Z_mod_plus_full.
Qed.

Section RingProperties.

Variable lfilter : list R -> list R -> list R -> list R -> list R * list R.
Variable lfilter_zi : list R -> list R -> list R.

Local Abbreviation filter1 := (filter_sample lfilter lfilter_zi).
Local Abbreviation process := (process_sample lfilter lfilter_zi).
Local Abbreviation iteration := (stream_iteration lfilter lfilter_zi).
Local Abbreviation run := (_stream_data lfilter lfilter_zi).
Local Abbreviation trace := (ingested lfilter lfilter_zi).

Lemma ring_step e s0 recs v ts td :
  buffers_ok e ->
  ring_holds s0 recs e ->
  ring_holds s0
    (recs ++ [ {| sequence := current_sample_idx e;
                  raw := IZR (decode_sample v);
                  filtered := (filter1 e (IZR (decode_sample v))).1.1;
                  timestamp := ts |} ])
    (process e v ts td).
Proof.
  intros (Hr & Hf & Ht & Hi) (Hidx & Hseq & Hslots).
  split; [| split].
  - rewrite process_current_sample_idx, length_app. simpl. lia.
  - intros k r Hk. apply lookup_app_Some in Hk as [Hk | [Hlen Hk]].
    + now apply Hseq.
    + apply list_lookup_singleton_Some in Hk as [Hk0 <-]. simpl. lia.
  - intros k r Hk Hrecent.
    rewrite process_current_sample_idx in Hrecent.
    rewrite process_raw_buffer, process_filtered_buffer, process_timestamps.
    apply lookup_app_Some in Hk as [Hk | [Hlen Hk]].
    + pose proof (lookup_lt_Some _ _ _ Hk) as Hlt.
      assert (Hne : Z.to_nat (current_sample_idx e mod BUFFER_SIZE)
                    <> Z.to_nat ((s0 + Z.of_nat k) mod BUFFER_SIZE)).
      { apply slot_to_nat_ne.
        replace (current_sample_idx e)
          with ((s0 + Z.of_nat k) + (current_sample_idx e - (s0 + Z.of_nat k)))
          by lia.
        apply slot_shift_ne. lia. }
      rewrite !getitem_setitem_other by exact Hne.
      apply Hslots; [exact Hk | lia].
    + apply list_lookup_singleton_Some in Hk as [Hk0 <-]. simpl.
      assert (Hk' : s0 + Z.of_nat k = current_sample_idx e) by lia.
      rewrite Hk'.
      rewrite !getitem_setitem_same by now apply slot_in_list.
      auto.
Qed.

Lemma iteration_parsed e a v :
  line a = Parsed v -> iteration e a = process e v (t_store a) (t_detect a).
Proof. intros H. unfold stream_iteration. now rewrite H. Qed.

Lemma iteration_malformed e a : line a = Malformed -> iteration e a = e.
Proof. intros H. unfold stream_iteration. now rewrite H. Qed.

Lemma ring_run arrivals : forall e s0 recs,
  buffers_ok e ->
  ring_holds s0 recs e ->
  ring_holds s0 (recs ++ trace e arrivals) (run e arrivals).
Proof.
  induction arrivals as [| a rest IH]; intros e s0 recs Hok Hring; simpl.
  - now rewrite app_nil_r.
  - destruct (streaming e && serial_open e); [| now rewrite app_nil_r].
    pose proof (iteration_buffers_ok lfilter lfilter_zi e a Hok) as Hok'.
    unfold sample_of.
    destruct (line a) as [| v] eqn:Hline; simpl.
    + rewrite (iteration_malformed e a Hline) in *. now apply IH.
    + rewrite (iteration_parsed e a v Hline) in *.
      rewrite (cons_middle _ recs), app_assoc.
      apply IH; [exact Hok' | now apply ring_step].
Qed.

Lemma ring_gather e s0 recs :
  ring_holds s0 recs e ->
  let m := Z.min (Z.of_nat (length recs)) BUFFER_SIZE in
  let slots := fun buf =>
    map (fun i => np.getitem buf ((current_sample_idx e - m + i) mod BUFFER_SIZE))
      (seqZ 0 m) in
  slots (raw_buffer e) = most_recent (map raw recs) /\
  slots (filtered_buffer e) = most_recent (map filtered recs) /\
  slots (timestamps e) = most_recent (map timestamp recs).
Proof.
  intros (Hidx & _ & Hslots) m slots. subst slots m. cbv beta. rewrite Hidx.
  assert (Hone : forall (buf : list R) (proj : Sample -> R),
            (forall k r, recs !! k = Some r ->
               current_sample_idx e - BUFFER_SIZE <= s0 + Z.of_nat k ->
               np.getitem buf ((s0 + Z.of_nat k) mod BUFFER_SIZE) = proj r) ->
            map (fun i =>
                   np.getitem buf
                     ((s0 + Z.of_nat (length recs)
                       - Z.min (Z.of_nat (length recs)) BUFFER_SIZE + i)
                      mod BUFFER_SIZE))
              (seqZ 0 (Z.min (Z.of_nat (length recs)) BUFFER_SIZE))
            = most_recent (map proj recs)).
  { intros buf proj Hbuf.
    pose proof (gather_recent (np.getitem buf) (map proj recs) s0) as H.
    rewrite length_map in H. apply H. intros k v Hk Hrecent.
    rewrite lookup_map in Hk. apply fmap_Some in Hk as (r & Hr & ->).
    apply (Hbuf k r Hr). lia. }
  repeat split; apply Hone; intros k r Hk Hrecent;
    now apply (Hslots k r Hk Hrecent).
Qed.

(** One write: the sample goes to the slot of its sequence number and
    every other slot keeps its content. *)
Lemma write_slot e a s :
  buffers_ok e ->
  sample_of lfilter lfilter_zi e a = Some s ->
  let e1 := iteration e a in
  let slot := sequence s mod BUFFER_SIZE in
  sequence s = current_sample_idx e /\
  np.getitem (raw_buffer e1) slot = raw s /\
  np.getitem (filtered_buffer e1) slot = filtered s /\
  np.getitem (timestamps e1) slot = timestamp s /\
  (forall j, 0 <= j -> j <> slot ->
     np.getitem (raw_buffer e1) j = np.getitem (raw_buffer e) j /\
     np.getitem (filtered_buffer e1) j = np.getitem (filtered_buffer e) j /\
     np.getitem (timestamps e1) j = np.getitem (timestamps e) j).
Proof.
  intros (Hr & Hf & Ht & Hi) Hs e1 slot. subst e1 slot.
  unfold sample_of in Hs. destruct (line a) as [| v] eqn:Hline; [discriminate |].
  injection Hs as <-. simpl sequence. simpl raw. simpl filtered. simpl timestamp.
  rewrite (iteration_parsed e a v Hline).
  rewrite process_raw_buffer, process_filtered_buffer, process_timestamps.
  split; [reflexivity |].
  rewrite !getitem_setitem_same by now apply slot_in_list.
  repeat split; apply getitem_setitem_other;
    pose proof (slot_bounds (current_sample_idx e)); lia.
Qed.

(** C5. Each write puts the sample with sequence number [s] into slot
    [s mod BUFFER_SIZE] of the three buffers and touches no other slot; and
    after any run of a stream the chronological read of [save_data] returns,
    oldest first, the most recent samples of the stream: all of them while
    fewer than [BUFFER_SIZE] were written, the last [BUFFER_SIZE] of them
    afterwards. *)
Theorem ring_buffer_chronological (e : BrainInterface) (arrivals : list arrival) :
  buffers_ok e ->
  current_sample_idx e = 0 ->
  let e' := run e arrivals in
  let recs := trace e arrivals in
  (forall (k : nat) (r : Sample), recs !! k = Some r -> sequence r = Z.of_nat k) /\
  (forall e0 a s,
     buffers_ok e0 ->
     sample_of lfilter lfilter_zi e0 a = Some s ->
     let e1 := iteration e0 a in
     let slot := sequence s mod BUFFER_SIZE in
     np.getitem (raw_buffer e1) slot = raw s /\
     np.getitem (filtered_buffer e1) slot = filtered s /\
     np.getitem (timestamps e1) slot = timestamp s /\
     (forall j, 0 <= j -> j <> slot ->
        np.getitem (raw_buffer e1) j = np.getitem (raw_buffer e0) j /\
        np.getitem (filtered_buffer e1) j = np.getitem (filtered_buffer e0) j /\
        np.getitem (timestamps e1) j = np.getitem (timestamps e0) j)) /\
  np.take (raw_buffer e') (chronological_indices e') = most_recent (map raw recs) /\
  np.take (filtered_buffer e') (chronological_indices e')
    = most_recent (map filtered recs) /\
  np.take (timestamps e') (chronological_indices e')
    = most_recent (map timestamp recs) /\
  (Z.of_nat (length recs) <= BUFFER_SIZE ->
     np.take (raw_buffer e') (chronological_indices e') = map raw recs) /\
  (forall sv,
     save_data e' = Some sv ->
     raw_data sv = most_recent (map raw recs) /\
     filtered_data sv = most_recent (map filtered recs)).
Proof.
  intros Hok Hzero e' recs.
  assert (Hring : ring_holds 0 recs e').
  { pose proof (ring_run arrivals e 0 [] Hok) as H. simpl in H. apply H.
    rewrite <- Hzero. apply ring_holds_start. }
  pose proof Hring as (Hidx & Hseq & _).
  assert (Hnonneg : 0 <= current_sample_idx e') by lia.
  pose proof (ring_gather e' 0 recs Hring) as (Hraw & Hfil & Hts).
  replace (Z.of_nat (length recs)) with (current_sample_idx e') in Hraw, Hfil, Hts
    by lia.
  rewrite <- (chronological_gather e' (raw_buffer e') Hnonneg) in Hraw.
  rewrite <- (chronological_gather e' (filtered_buffer e') Hnonneg) in Hfil.
  rewrite <- (chronological_gather e' (timestamps e') Hnonneg) in Hts.
  split; [intros k r Hk; rewrite (Hseq k r Hk); lia |].
  split; [intros e0 a s H0 Hs; now apply (write_slot e0 a s H0 Hs) |].
  split; [exact Hraw |]. split; [exact Hfil |]. split; [exact Hts |].
  split.
  - intros Hshort. rewrite Hraw. apply most_recent_short.
    now rewrite length_map.
  - intros sv Hsv. unfold save_data in Hsv.
    destruct (current_sample_idx e' =? 0); [discriminate |].
    destruct (start_time e'); [| discriminate].
    injection Hsv as <-. simpl. auto.
Qed.

End RingProperties.

(** ** Statistics do not depend on the order of the data *)

Lemma sum_Permutation (a b : list R) : Permutation a b -> np.sum a = np.sum b.
Proof.
  induction 1 as [| x a b _ IH | x y a | a b c _ IH1 _ IH2]; simpl;
    [reflexivity | rewrite IH; reflexivity | lra | congruence].
Qed.

Lemma mean_Permutation (a b : list R) : Permutation a b -> np.mean a = np.mean b.
Proof.
  intros H. unfold np.mean.
  now rewrite (sum_Permutation a b H), (Permutation_length H).
Qed.

Lemma std_Permutation (a b : list R) : Permutation a b -> np.std a = np.std b.
Proof.
  intros H. unfold np.std. rewrite (mean_Permutation a b H). f_equal.
  apply mean_Permutation, Permutation_map, H.
Qed.

(** Reading a whole buffer from slot [pos] round to slot [pos - 1] is a
    rotation of the buffer. *)
Lemma gather_rotation (buf : list R) (pos : Z) :
  Z.of_nat (length buf) = BUFFER_SIZE ->
  0 <= pos < BUFFER_SIZE ->
  map (fun i => np.getitem buf ((pos + i) mod BUFFER_SIZE)) (seqZ 0 BUFFER_SIZE)
  = drop (Z.to_nat pos) buf ++ take (Z.to_nat pos) buf.
Proof.
  intros Hlen Hpos. apply list_eq. intros i.
  rewrite lookup_map.
  destruct (decide (Z.of_nat i < BUFFER_SIZE)) as [Hi | Hi].
  - rewrite lookup_seqZ_lt by exact Hi. simpl. unfold np.getitem.
    destruct (decide (pos + Z.of_nat i < BUFFER_SIZE)) as [Hlow | Hhigh].
    + rewrite Z.mod_small by lia.
      rewrite lookup_app_l by (rewrite length_drop; lia).
      rewrite lookup_drop.
      replace (Z.to_nat (0 + (pos + Z.of_nat i))) with (Z.to_nat pos + i)%nat
        by lia.
      replace (Z.to_nat (pos + (0 + Z.of_nat i))) with (Z.to_nat pos + i)%nat
        by lia.
      destruct (lookup_lt_is_Some_2 buf (Z.to_nat pos + i)) as [v Hv]; [lia |].
      now rewrite Hv.
    + replace ((pos + (0 + Z.of_nat i)) mod BUFFER_SIZE)
        with (pos + Z.of_nat i - BUFFER_SIZE).
      2:{ replace (pos + (0 + Z.of_nat i))
            with (pos + Z.of_nat i - BUFFER_SIZE + 1 * BUFFER_SIZE) by lia.
          rewrite Z_mod_plus_full, Z.mod_small; lia. }
      rewrite lookup_app_r by (rewrite length_drop; lia).
      rewrite length_drop.
      rewrite lookup_take_lt by lia.
      replace (i - (length buf - Z.to_nat pos))%nat
        with (Z.to_nat (pos + Z.of_nat i - BUFFER_SIZE)) by lia.
      destruct (lookup_lt_is_Some_2 buf (Z.to_nat (pos + Z.of_nat i - BUFFER_SIZE)))
        as [v Hv]; [lia |].
      now rewrite Hv.
  - rewrite lookup_seqZ_ge by lia. simpl. symmetry.
    apply lookup_ge_None. rewrite length_app, length_drop, length_take. lia.
Qed.

Lemma gather_rotation_Permutation (buf : list R) (pos : Z) :
  Z.of_nat (length buf) = BUFFER_SIZE ->
  0 <= pos < BUFFER_SIZE ->
  Permutation buf
    (map (fun i => np.getitem buf ((pos + i) mod BUFFER_SIZE))
       (seqZ 0 BUFFER_SIZE)).
Proof.
  intros Hlen Hpos. rewrite (gather_rotation buf pos Hlen Hpos).
  rewrite Permutation_app_comm. now rewrite take_drop.
Qed.

(** ** Calibration *)

Lemma SAMPLE_RATE_lt_BUFFER_SIZE : SAMPLE_RATE < BUFFER_SIZE.
Proof. reflexivity. Qed.

Lemma length_calibration_data_short (e : BrainInterface) (s0 s1 : Z) :
  0 <= s1 - s0 <= BUFFER_SIZE ->
  Z.of_nat (length (calibration_data e s0 s1)) = s1 - s0.
Proof.
  intros Hn. unfold calibration_data, np.take, range2.
  destruct (s1 - s0 >? BUFFER_SIZE) eqn:Hgt; [lia |].
  rewrite !length_map, length_seqZ. lia.
Qed.

Lemma length_calibration_data_long (e : BrainInterface) (s0 s1 : Z) :
  buffers_ok e ->
  s1 - s0 > BUFFER_SIZE ->
  Z.of_nat (length (calibration_data e s0 s1)) = BUFFER_SIZE.
Proof.
  intros (_ & Hf & _) Hn. unfold calibration_data.
  destruct (s1 - s0 >? BUFFER_SIZE) eqn:Hgt; [exact Hf | lia].
Qed.

Lemma ensure_streaming_buffers_ok (e : BrainInterface) (ok : bool) (now : R) :
  buffers_ok e -> buffers_ok (ensure_streaming e ok now).
Proof.
  intros He. unfold ensure_streaming, start_stream, connect.
  destruct (streaming e); [exact He |].
  destruct (running e); [destruct He as (? & ? & ? & ?); now repeat split |].
  destruct ok; [destruct He as (? & ? & ? & ?); now repeat split | exact He].
Qed.

Lemma ensure_streaming_parameters (e : BrainInterface) (ok : bool) (now : R) :
  detection_threshold (ensure_streaming e ok now) = detection_threshold e /\
  cooldown_period (ensure_streaming e ok now) = cooldown_period e.
Proof.
  unfold ensure_streaming, start_stream, connect.
  destruct (streaming e); [auto |].
  destruct (running e); [auto |]. destruct ok; auto.
Qed.

(** The data the method extracts are, up to their order, the most recent
    filtered samples of the run. *)
Lemma calibration_data_recent (e : BrainInterface) (s0 : Z) (recs : list Sample) :
  buffers_ok e ->
  0 <= s0 ->
  ring_holds s0 recs e ->
  Permutation (calibration_data e s0 (current_sample_idx e))
    (most_recent (map filtered recs)).
Proof.
  intros Hok Hs0 Hring. pose proof BUFFER_SIZE_pos as Hpos.
  pose proof Hring as (Hidx & _ & _).
  pose proof (ring_gather e s0 recs Hring) as (_ & Hfil & _). cbv beta zeta in Hfil.
  rewrite <- Hfil. unfold calibration_data.
  destruct (current_sample_idx e - s0 >? BUFFER_SIZE) eqn:Hgt.
  - apply Z.gtb_lt in Hgt.
    replace (Z.min (Z.of_nat (length recs)) BUFFER_SIZE) with BUFFER_SIZE by lia.
    destruct Hok as (_ & Hf & _).
    pose proof (gather_rotation_Permutation (filtered_buffer e)
                  (current_sample_idx e mod BUFFER_SIZE) Hf
                  (slot_bounds (current_sample_idx e))) as Hperm.
    match goal with
    | |- Permutation _ ?rhs =>
        match type of Hperm with
        | Permutation _ ?mid => assert (Heq : mid = rhs)
        end
    end.
    { apply map_ext. intros i. f_equal.
      rewrite Zplus_mod_idemp_l.
      replace (current_sample_idx e + i)
        with (current_sample_idx e - BUFFER_SIZE + i + 1 * BUFFER_SIZE) by lia.
      apply Z_mod_plus_full. }
    rewrite <- Heq. exact Hperm.
  - rewrite Z.gtb_ltb in Hgt. apply Z.ltb_ge in Hgt.
    assert (Hle : Z.of_nat (length recs) <= BUFFER_SIZE) by lia.
    replace (Z.min (Z.of_nat (length recs)) BUFFER_SIZE)
      with (Z.of_nat (length recs)) by lia.
    match goal with
    | |- Permutation ?lhs ?rhs => assert (Heq : lhs = rhs)
    end; [| now rewrite Heq].
    unfold np.take, range2. rewrite map_map.
    replace (current_sample_idx e - s0) with (Z.of_nat (length recs)) by lia.
    replace (seqZ s0 (Z.of_nat (length recs)))
      with (map (Z.add s0) (seqZ 0 (Z.of_nat (length recs)))).
    2:{ replace s0 with (s0 + 0) at 2 by lia.
        exact (fmap_add_seqZ s0 0 (Z.of_nat (length recs))). }
    rewrite map_map. apply map_ext. intros i. do 2 f_equal. lia.
Qed.

Section CalibrationProperties.

Variable lfilter : list R -> list R -> list R -> list R -> list R * list R.
Variable lfilter_zi : list R -> list R -> list R.

Local Abbreviation run := (_stream_data lfilter lfilter_zi).
Local Abbreviation trace := (ingested lfilter lfilter_zi).
Local Abbreviation calibrate := (calibrate lfilter lfilter_zi).
Local Abbreviation exec := (exec lfilter lfilter_zi).
Local Abbreviation exec_all := (exec_all lfilter lfilter_zi).

(** The two ways the method ends, by the number of samples collected. *)
Lemma calibrate_cases e ok now arrivals :
  buffers_ok e ->
  let e1 := ensure_streaming e ok now in
  let e2 := run e1 arrivals in
  let n := Z.of_nat (length (trace e1 arrivals)) in
  let data := calibration_data e2 (current_sample_idx e1) (current_sample_idx e2) in
  let finish := fun x => if streaming e then x else stop_stream x in
  (n > SAMPLE_RATE /\
   calibrate e ok now arrivals
   = (finish (set_detection_threshold e2 5%R),
      CalibrationComplete (np.mean data) (np.std data) 5%R)) \/
  (n <= SAMPLE_RATE /\
   calibrate e ok now arrivals = (finish e2, NotEnoughData)).
Proof.
  intros Hok e1 e2 n data finish.
  pose proof SAMPLE_RATE_lt_BUFFER_SIZE as Hsr.
  assert (Hok2 : buffers_ok e2)
    by (apply run_buffers_ok, ensure_streaming_buffers_ok, Hok).
  assert (Hidx : current_sample_idx e2 - current_sample_idx e1 = n).
  { subst e2 n. rewrite run_current_sample_idx. lia. }
  assert (Hlen : Z.of_nat (length data) = Z.min n BUFFER_SIZE).
  { subst data. destruct (Z_le_gt_dec n BUFFER_SIZE).
    - rewrite length_calibration_data_short; lia.
    - rewrite length_calibration_data_long; [lia | exact Hok2 | lia]. }
  unfold calibrate. cbv zeta.
  change (ensure_streaming e ok now) with e1.
  change (run e1 arrivals) with e2.
  change (calibration_data e2 (current_sample_idx e1) (current_sample_idx e2))
    with data.
  destruct (Z.of_nat (length data) >? SAMPLE_RATE) eqn:Hgt.
  - left. apply Z.gtb_lt in Hgt. split; [lia | reflexivity].
  - right. rewrite Z.gtb_ltb in Hgt. apply Z.ltb_ge in Hgt.
    split; [lia | reflexivity].
Qed.

Lemma calibrate_threshold e ok now arrivals :
  detection_threshold (fst (calibrate e ok now arrivals)) = 5%R \/
  detection_threshold (fst (calibrate e ok now arrivals)) = detection_threshold e.
Proof.
  unfold calibrate. cbv zeta.
  destruct (Z.of_nat (length (calibration_data _ _ _)) >? SAMPLE_RATE).
  - left. destruct (streaming e); reflexivity.
  - right.
    destruct (ensure_streaming_parameters e ok now) as [<- _].
    destruct (run_parameters lfilter lfilter_zi (ensure_streaming e ok now) arrivals)
      as [<- _].
    destruct (streaming e); reflexivity.
Qed.

Lemma exec_threshold e c :
  detection_threshold e = 5%R -> detection_threshold (exec e c) = 5%R.
Proof.
  intros He. destruct c; simpl.
  - unfold connect. destruct device_ok; exact He.
  - unfold disconnect. destruct (serial_open e); exact He.
  - unfold start_stream, connect.
    destruct (running e); [exact He |]. destruct device_ok; exact He.
  - exact He.
  - destruct (streaming e && serial_open e); [| exact He].
    destruct (iteration_parameters lfilter lfilter_zi e a) as [-> _]. exact He.
  - destruct (calibrate_threshold e device_ok now arrivals) as [H | H];
      [exact H | now rewrite H].
Qed.

Lemma exec_all_threshold e cs :
  detection_threshold e = 5%R -> detection_threshold (exec_all e cs) = 5%R.
Proof.
  revert e. induction cs as [| c cs IH]; intros e He; simpl; [exact He |].
  apply IH, exec_threshold, He.
Qed.

(** C6, at the boundary.  A calibration run that collects exactly
    [SAMPLE_RATE] samples, one full second of data, ends with "Not enough
    data" and leaves the detection threshold as it was: the test of the
    method is [len(calibration_data) > SAMPLE_RATE]. *)
Theorem calibrate_one_second_rejected e ok now arrivals :
  Z.of_nat (length (trace (ensure_streaming e ok now) arrivals)) = SAMPLE_RATE ->
  snd (calibrate e ok now arrivals) = NotEnoughData /\
  detection_threshold (fst (calibrate e ok now arrivals)) = detection_threshold e.
Proof.
  intros Hn. pose proof SAMPLE_RATE_lt_BUFFER_SIZE as Hsr.
  assert (Hsr0 : 0 <= SAMPLE_RATE) by (unfold SAMPLE_RATE; lia).
  unfold calibrate. cbv zeta.
  set (e1 := ensure_streaming e ok now) in *.
  set (e2 := run e1 arrivals).
  assert (Hidx : current_sample_idx e2 - current_sample_idx e1 = SAMPLE_RATE).
  { subst e2. rewrite run_current_sample_idx. lia. }
  rewrite length_calibration_data_short by lia.
  rewrite Hidx, Z.gtb_ltb, Z.ltb_irrefl.
  split; [reflexivity |].
  destruct (ensure_streaming_parameters e ok now) as [<- _]. fold e1.
  destruct (run_parameters lfilter lfilter_zi e1 arrivals) as [<- _]. fold e2.
  destruct (streaming e); reflexivity.
Qed.

(** The rule the method follows: it sets the threshold when it has
    collected more than [SAMPLE_RATE] samples, and only then. *)
Lemma calibrate_threshold_rule e ok now arrivals :
  buffers_ok e ->
  let n := Z.of_nat (length (trace (ensure_streaming e ok now) arrivals)) in
  (n > SAMPLE_RATE ->
   snd (calibrate e ok now arrivals) <> NotEnoughData /\
   detection_threshold (fst (calibrate e ok now arrivals)) = 5%R) /\
  (n <= SAMPLE_RATE ->
   snd (calibrate e ok now arrivals) = NotEnoughData /\
   detection_threshold (fst (calibrate e ok now arrivals)) = detection_threshold e).
Proof.
  intros Hok n.
  destruct (calibrate_cases e ok now arrivals Hok) as [[Hn ->] | [Hn ->]];
    fold n in Hn; (split; [intros Hn' | intros Hn']); try lia; simpl.
  - split; [discriminate |]. destruct (streaming e); reflexivity.
  - split; [reflexivity |].
    destruct (ensure_streaming_parameters e ok now) as [<- _].
    destruct (run_parameters lfilter lfilter_zi (ensure_streaming e ok now) arrivals)
      as [<- _].
    destruct (streaming e); reflexivity.
Qed.

(** C7. When a calibration run completes, the baseline mean and the
    baseline standard deviation it reports are those of the filtered
    samples collected during the run (the most recent [BUFFER_SIZE] of them
    when more were collected), the threshold it sets is the constant 5
    whatever these statistics are, and 5 is the threshold every later
    detector evaluation compares against, whatever methods are called and
    whatever lines arrive in between. *)
Theorem calibration_sets_fixed_threshold e ok now arrivals e' m s thr :
  buffers_ok e ->
  calibrate e ok now arrivals = (e', CalibrationComplete m s thr) ->
  let collected :=
    most_recent (map filtered (trace (ensure_streaming e ok now) arrivals)) in
  m = np.mean collected /\
  s = np.std collected /\
  thr = 5%R /\
  detection_threshold e' = 5%R /\
  forall (cs : list command),
    let e'' := exec_all e' cs in
    detection_threshold e'' = 5%R /\
    forall (current_idx : Z) (t : R),
      (np.std (window_data e'' current_idx) > 0)%R ->
      (event_fired e'' (_detect_neural_event e'' current_idx t) <->
         (max_z (window_data e'' current_idx) > 5)%R /\
         (t - last_event_time e'' > cooldown_period e'')%R).
Proof.
  intros Hok Hcal collected.
  destruct (calibrate_cases e ok now arrivals Hok) as [[Hn Heq] | [Hn Heq]];
    rewrite Heq in Hcal; [| discriminate].
  injection Hcal as <- <- <- <-.
  set (e1 := ensure_streaming e ok now) in *.
  set (e2 := run e1 arrivals) in *.
  assert (Hok1 : buffers_ok e1) by now apply ensure_streaming_buffers_ok.
  assert (Hok2 : buffers_ok e2) by now apply run_buffers_ok.
  assert (Hperm : Permutation
                    (calibration_data e2 (current_sample_idx e1)
                       (current_sample_idx e2))
                    collected).
  { apply calibration_data_recent; [exact Hok2 | apply Hok1 |].
    pose proof (ring_run lfilter lfilter_zi arrivals e1 (current_sample_idx e1)
                  [] Hok1 (ring_holds_start e1)) as H.
    exact H. }
  split; [now apply mean_Permutation |].
  split; [now apply std_Permutation |].
  split; [reflexivity |].
  assert (Hthr : detection_threshold
                   (if streaming e
                    then set_detection_threshold e2 5%R
                    else stop_stream (set_detection_threshold e2 5%R)) = 5%R)
    by (destruct (streaming e); reflexivity).
  split; [exact Hthr |].
  intros cs e''.
  assert (H5 : detection_threshold e'' = 5%R)
    by (subst e''; now apply exec_all_threshold).
  split; [exact H5 |].
  intros current_idx t Hstd. rewrite <- H5.
  now apply fired_iff.
Qed.

End CalibrationProperties.

(** ** The two filter stages *)

Section FilterProperties.

Variable lfilter : list R -> list R -> list R -> list R -> list R * list R.
Variable lfilter_zi : list R -> list R -> list R.

Local Abbreviation filter1 := (filter_sample lfilter lfilter_zi).
Local Abbreviation process := (process_sample lfilter lfilter_zi).
Local Abbreviation iteration := (stream_iteration lfilter lfilter_zi).
Local Abbreviation run := (_stream_data lfilter lfilter_zi).
Local Abbreviation trace := (ingested lfilter lfilter_zi).

(** The bandpass stage is stateful: once a state exists, each call starts
    from the delay line the call before it left and stores the one it
    ends with. *)
Lemma bandpass_stage_persistent e v ts td zi :
  filter_state e = Some zi ->
  let x := IZR (decode_sample v) in
  bandpass_stage lfilter lfilter_zi e x
  = lfilter (bp_filter_b e) (bp_filter_a e) [x] zi /\
  filter_state (process e v ts td)
  = Some (lfilter (bp_filter_b e) (bp_filter_a e) [x] zi).2.
Proof.
  intros Hzi x.
  assert (Hbp : bandpass_stage lfilter lfilter_zi e x
                = lfilter (bp_filter_b e) (bp_filter_a e) [x] zi)
    by (unfold bandpass_stage; now rewrite Hzi).
  split; [exact Hbp |].
  destruct (process_filter_states lfilter lfilter_zi e v ts td) as [-> _].
  unfold filter_sample. fold x. rewrite Hbp.
  destruct (lfilter (bp_filter_b e) (bp_filter_a e) [x] zi) as [y fs].
  destruct (notch_stage lfilter lfilter_zi e y) as [y' ns]. reflexivity.
Qed.

(** The notch stage, once its attribute exists, starts every call from
    initial conditions computed from the current bandpass output. *)
Lemma notch_stage_from_current e ns y :
  notch_state e = Some ns ->
  notch_stage lfilter lfilter_zi e y
  = lfilter (notch_b e) (notch_a e) y
      (np.scale (lfilter_zi (notch_b e) (notch_a e)) (np.getitem y 0)).
Proof. intros Hns. unfold notch_stage. now rewrite Hns. Qed.

(** C4, at the notch stage.  Whatever delay line the previous call of the
    notch stage stored, the next sample is filtered to the same value and
    the same state is stored again: the stored notch state is written by
    every call and read by none, so the output of the stage after the first
    sample is a function of the current bandpass output alone. *)
Theorem notch_delay_line_never_read (e : BrainInterface) (ns1 ns2 : list R)
    (v : Z) (ts td : R) :
  let a := {| line := Parsed v; t_store := ts; t_detect := td |} in
  let e1 := with_notch_state e (Some ns1) in
  let e2 := with_notch_state e (Some ns2) in
  filter1 e1 (IZR (decode_sample v)) = filter1 e2 (IZR (decode_sample v)) /\
  sample_of lfilter lfilter_zi e1 a = sample_of lfilter lfilter_zi e2 a /\
  filtered_buffer (iteration e1 a) = filtered_buffer (iteration e2 a) /\
  notch_state (iteration e1 a) = notch_state (iteration e2 a).
Proof.
  intros a e1 e2.
  assert (Hf : filter1 e1 (IZR (decode_sample v))
               = filter1 e2 (IZR (decode_sample v))) by reflexivity.
  split; [exact Hf |].
  split; [unfold sample_of; simpl; now rewrite Hf |].
  unfold stream_iteration. simpl.
  rewrite !process_filtered_buffer.
  destruct (process_filter_states lfilter lfilter_zi e1 v ts td) as [_ ->].
  destruct (process_filter_states lfilter lfilter_zi e2 v ts td) as [_ ->].
  rewrite Hf. split; reflexivity.
Qed.

Lemma trace_length_all_parsed e arrivals :
  streaming e && serial_open e = true ->
  Forall (fun a => line a <> Malformed) arrivals ->
  length (trace e arrivals) = length arrivals.
Proof.
  revert e. induction arrivals as [| a rest IH]; intros e Hs Hall; simpl;
    [reflexivity |].
  rewrite Hs. apply Forall_cons in Hall as [Ha Hrest].
  rewrite length_app, IH; [| | exact Hrest].
  - unfold sample_of. destruct (line a); [contradiction | reflexivity].
  - destruct (iteration_flags lfilter lfilter_zi e a) as (-> & -> & _). exact Hs.
Qed.

End FilterProperties.

(** ** The properties at concrete runs *)

Lemma ring_buffer_chronological_witness :
  let arrivals := [reading 5 101%R; garbage 102%R; reading 0xFFFFFF 103%R] in
  let e' := _stream_data df2t.lfilter df2t.lfilter_zi bench_streaming arrivals in
  buffers_ok bench_streaming /\
  current_sample_idx bench_streaming = 0 /\
  np.take (raw_buffer e') (chronological_indices e')
  = most_recent
      (map raw (ingested df2t.lfilter df2t.lfilter_zi bench_streaming arrivals)).
Proof.
  cbv zeta.
  assert (H0 : current_sample_idx bench_streaming = 0) by reflexivity.
  split; [exact buffers_ok_bench_streaming |]. split; [exact H0 |].
  destruct (ring_buffer_chronological df2t.lfilter df2t.lfilter_zi
              bench_streaming
              [reading 5 101%R; garbage 102%R; reading 0xFFFFFF 103%R]
              buffers_ok_bench_streaming H0) as (_ & _ & Hraw & _).
  exact Hraw.
Defined.

Lemma one_second_of_readings :
  Z.of_nat
    (length
       (ingested df2t.lfilter df2t.lfilter_zi
          (ensure_streaming bench_streaming true 100%R)
          (replicate 250 (reading 0 101%R))))
  = SAMPLE_RATE.
Proof.
  rewrite trace_length_all_parsed;
    [now rewrite length_replicate | reflexivity |].
  apply Forall_replicate. discriminate.
Qed.

Lemma calibrate_one_second_rejected_witness :
  Z.of_nat
    (length
       (ingested df2t.lfilter df2t.lfilter_zi
          (ensure_streaming bench_streaming true 100%R)
          (replicate 250 (reading 0 101%R))))
  = SAMPLE_RATE /\
  snd (calibrate df2t.lfilter df2t.lfilter_zi bench_streaming true 100%R
         (replicate 250 (reading 0 101%R)))
  = NotEnoughData /\
  detection_threshold
    (fst (calibrate df2t.lfilter df2t.lfilter_zi bench_streaming true 100%R
            (replicate 250 (reading 0 101%R))))
  = 50%R.
Proof.
  split; [exact one_second_of_readings |].
  apply (calibrate_one_second_rejected df2t.lfilter df2t.lfilter_zi
           bench_streaming true 100%R (replicate 250 (reading 0 101%R))
           one_second_of_readings).
Defined.

Lemma more_than_one_second_of_readings :
  Z.of_nat
    (length
       (ingested df2t.lfilter df2t.lfilter_zi
          (ensure_streaming bench_streaming true 100%R)
          (replicate 251 (reading 0 101%R))))
  = 251.
Proof.
  rewrite trace_length_all_parsed;
    [now rewrite length_replicate | reflexivity |].
  apply Forall_replicate. discriminate.
Qed.

Lemma calibration_sets_fixed_threshold_witness :
  buffers_ok bench_streaming /\
  detection_threshold
    (fst (calibrate df2t.lfilter df2t.lfilter_zi bench_streaming true 100%R
            (replicate 251 (reading 0 101%R))))
  = 5%R.
Proof.
  split; [exact buffers_ok_bench_streaming |].
  destruct (calibrate_cases df2t.lfilter df2t.lfilter_zi bench_streaming true
              100%R (replicate 251 (reading 0 101%R)) buffers_ok_bench_streaming)
    as [[_ Heq] | [Hn _]].
  - destruct (calibration_sets_fixed_threshold df2t.lfilter df2t.lfilter_zi
                bench_streaming true 100%R (replicate 251 (reading 0 101%R))
                _ _ _ _ buffers_ok_bench_streaming Heq) as (_ & _ & _ & H5 & _).
    rewrite Heq. exact H5.
  - rewrite more_than_one_second_of_readings in Hn. unfold SAMPLE_RATE in Hn. lia.
Defined.

(** *** The notch stage on the lines [2] and [4]

    After the first line the stored notch state is [[2; 2]].  At the second
    line the bandpass output is 3; the loop stores 6, the response of the
    notch filter from initial conditions scaled by the current value, where
    the filter continued from the stored state gives 5. *)

Lemma filters_after_one :
  filter_sample df2t.lfilter df2t.lfilter_zi bench_streaming (IZR (decode_sample 2))
  = (2%R, [1%R], [2%R; 2%R]).
Proof.
  unfold filter_sample, bandpass_stage, notch_stage, np.getitem. simpl.
  change (decode_sample 2) with 2.
  repeat f_equal; lra.
Qed.

Lemma after_one_states :
  filter_state after_one = Some [1%R] /\
  notch_state after_one = Some [2%R; 2%R] /\
  np.getitem (filtered_buffer after_one) 0 = 2%R.
Proof.
  unfold after_one.
  rewrite (iteration_parsed df2t.lfilter df2t.lfilter_zi bench_streaming
             (reading 2 101%R) 2 eq_refl).
  destruct (process_filter_states df2t.lfilter df2t.lfilter_zi bench_streaming 2
              (t_store (reading 2 101%R)) (t_detect (reading 2 101%R)))
    as [-> ->].
  rewrite process_filtered_buffer, filters_after_one. simpl.
  repeat split.
Qed.

Lemma filters_after_two :
  filter_sample df2t.lfilter df2t.lfilter_zi after_one (IZR (decode_sample 4))
  = (6%R, [2%R], [3%R; 3%R]).
Proof.
  unfold filter_sample, bandpass_stage, notch_stage.
  destruct after_one_states as (Hfs & Hns & _). rewrite Hfs, Hns.
  unfold np.getitem. simpl.
  change (decode_sample 4) with 4.
  repeat f_equal; lra.
Qed.

Lemma notch_restarts_at_second_sample :
  notch_state after_one = Some [2%R; 2%R] /\
  bandpass_stage df2t.lfilter df2t.lfilter_zi after_one (IZR (decode_sample 4))
  = ([3%R], [2%R]) /\
  np.getitem (filtered_buffer after_two) 1 = 6%R /\
  df2t.lfilter (notch_b after_one) (notch_a after_one) [3%R] [2%R; 2%R]
  = ([5%R], [2%R; 3%R]).
Proof.
  destruct after_one_states as (Hfs & Hns & _).
  split; [exact Hns |]. split; [| split].
  - unfold bandpass_stage. rewrite Hfs. simpl. unfold df2t.lfilter. simpl.
    change (decode_sample 4) with 4. repeat f_equal; lra.
  - unfold after_two.
    rewrite (iteration_parsed df2t.lfilter df2t.lfilter_zi after_one
               (reading 4 102%R) 4 eq_refl).
    assert (Hidx : current_sample_idx after_one mod BUFFER_SIZE = 1).
    { unfold after_one.
      rewrite (iteration_parsed df2t.lfilter df2t.lfilter_zi bench_streaming
                 (reading 2 101%R) 2 eq_refl), process_current_sample_idx.
      reflexivity. }
    rewrite process_filtered_buffer, filters_after_two, Hidx.
    apply getitem_setitem_same.
    pose proof (iteration_buffers_ok df2t.lfilter df2t.lfilter_zi bench_streaming
                  (reading 2 101%R) buffers_ok_bench_streaming) as (_ & Hf & _).
    fold after_one in Hf. unfold BUFFER_SIZE in Hf. lia.
  - simpl. unfold df2t.lfilter. simpl. repeat f_equal; lra.
Qed.

(** * Further properties of the code *)

(** ** The sign decoding *)

(** X1. On a 24-bit value the sign decoding loses nothing: the value is
    the decoded number modulo [0x1000000]; the decoded number lies in
    [(-0x800000, 0x800000]], and it is negative exactly for the values
    above [0x800000]. *)
Theorem decode_sample_round_trip (v : Z) :
  0 <= v < 0x1000000 ->
  decode_sample v mod 0x1000000 = v /\
  -0x800000 < decode_sample v <= 0x800000 /\
  (decode_sample v < 0 <-> 0x800000 < v).
Proof.
  intros Hv. unfold decode_sample.
  destruct (v >? 0x800000) eqn:Hgt.
  - apply Z.gtb_lt in Hgt. split; [| lia].
    replace (v - 0x1000000) with (v + (-1) * 0x1000000) by lia.
    rewrite Z_mod_plus_full. apply Z.mod_small. lia.
  - rewrite Z.gtb_ltb in Hgt. apply Z.ltb_ge in Hgt.
    split; [apply Z.mod_small; lia | lia].
Qed.

Lemma decode_sample_round_trip_witness :
  0 <= 0xFFFFFF < 0x1000000 /\ decode_sample 0xFFFFFF mod 0x1000000 = 0xFFFFFF.
Proof.
  assert (H : 0 <= 0xFFFFFF < 0x1000000) by lia.
  split; [exact H |].
  destruct (decode_sample_round_trip 0xFFFFFF H) as (Hmod & _). exact Hmod.
Defined.

(** ** How large a z-score can be *)

Lemma sum_nonneg (a : list R) :
  Forall (fun x => (0 <= x)%R) a -> (0 <= np.sum a)%R.
Proof.
  induction 1 as [| x a Hx _ IH]; simpl; [lra | lra].
Qed.

Lemma sum_bounds_element (a : list R) (x : R) :
  Forall (fun y => (0 <= y)%R) a -> In x a -> (x <= np.sum a)%R.
Proof.
  induction 1 as [| y a Hy Ha IH]; simpl; [contradiction |].
  pose proof (sum_nonneg a Ha) as Hs.
  intros [-> | Hin]; [lra | specialize (IH Hin); lra].
Qed.

Lemma max_bounded (a : list R) (bound : R) :
  (0 <= bound)%R ->
  Forall (fun x => (x <= bound)%R) a -> (np.max a <= bound)%R.
Proof.
  intros Hb Ha. destruct a as [| x t]; simpl; [exact Hb |].
  apply Forall_cons in Ha as [Hx Ht].
  revert x Hx. induction Ht as [| y t Hy _ IH]; intros x Hx; simpl; [exact Hx |].
  apply IH. now apply Rmax_lub.
Qed.

Lemma std_positive_variance (w : list R) :
  (np.std w > 0)%R ->
  (0 < np.mean (map (fun x => (Rabs (x - np.mean w) * Rabs (x - np.mean w))%R) w))%R.
Proof.
  unfold np.std. intros Hs.
  destruct (Rle_or_lt
              (np.mean (map (fun x => (Rabs (x - np.mean w) * Rabs (x - np.mean w))%R) w)) 0)
    as [Hle | Hlt]; [| exact Hlt].
  rewrite (sqrt_neg_0 _ Hle) in Hs. lra.
Qed.

Lemma std_positive_nonempty (w : list R) : (np.std w > 0)%R -> w <> [].
Proof.
  intros Hs ->. apply std_positive_variance in Hs.
  unfold np.mean in Hs. simpl in Hs. unfold Rdiv in Hs.
  rewrite Rmult_0_l in Hs. lra.
Qed.

(** Each absolute z-score is at most the square root of the window length. *)
Lemma z_score_bounded (w : list R) (x : R) :
  (np.std w > 0)%R -> In x w ->
  (Rabs ((x - np.mean w) / np.std w) <= sqrt (INR (length w)))%R.
Proof.
  intros Hs Hin.
  pose proof (std_positive_variance w Hs) as Hvar.
  set (m := np.mean w) in *.
  set (sq := map (fun y => (Rabs (y - m) * Rabs (y - m))%R) w) in *.
  assert (Hn : (0 < INR (length w))%R).
  { apply lt_0_INR. destruct w; [contradiction | simpl; lia]. }
  assert (Hlen : length sq = length w) by (subst sq; apply length_map).
  assert (Hsum : (0 < np.sum sq)%R).
  { unfold np.mean in Hvar. rewrite Hlen in Hvar.
    apply (Rmult_lt_compat_r (INR (length w))) in Hvar; [| exact Hn].
    unfold Rdiv in Hvar. rewrite Rmult_0_l, Rmult_assoc, Rinv_l, Rmult_1_r in Hvar;
      lra. }
  assert (Hx : ((x - m) * (x - m) <= np.sum sq)%R).
  { rewrite <- Rabs_square. apply sum_bounds_element.
    - subst sq. apply List.Forall_forall. intros y Hy.
      apply in_map_iff in Hy as (z & <- & _). rewrite Rabs_square.
      pose proof (Rle_0_sqr (z - m)) as Hsq. unfold Rsqr in Hsq. exact Hsq.
    - subst sq. apply in_map_iff. now exists x. }
  assert (Hstd2 : (np.std w * np.std w = np.sum sq / INR (length w))%R).
  { unfold np.std. fold m. fold sq. rewrite sqrt_sqrt; [| unfold np.mean in *; lra].
    unfold np.mean. now rewrite Hlen. }
  rewrite <- sqrt_Rsqr_abs. apply sqrt_le_1_alt.
  unfold Rsqr.
  replace ((x - m) / np.std w * ((x - m) / np.std w))%R
    with ((x - m) * (x - m) / (np.std w * np.std w))%R by (field; lra).
  rewrite Hstd2.
  replace ((x - m) * (x - m) / (np.sum sq / INR (length w)))%R
    with ((x - m) * (x - m) / np.sum sq * INR (length w))%R by (field; lra).
  assert (Hratio : ((x - m) * (x - m) / np.sum sq <= 1)%R).
  { apply (Rmult_le_reg_r (np.sum sq)); [exact Hsum |].
    unfold Rdiv. rewrite Rmult_assoc, Rinv_l, Rmult_1_r, Rmult_1_l; lra. }
  nra.
Qed.

(** X2. On a window of positive standard deviation the largest absolute
    z-score is at most the square root of the number of samples in the
    window. *)
Theorem max_z_bounded (w : list R) :
  (np.std w > 0)%R -> (max_z w <= sqrt (INR (length w)))%R.
Proof.
  intros Hs. unfold max_z, np.abs, z_scores.
  apply max_bounded; [apply sqrt_pos |].
  apply List.Forall_forall. intros y Hy.
  apply in_map_iff in Hy as (z & <- & Hz).
  apply in_map_iff in Hz as (x & <- & Hx).
  now apply z_score_bounded.
Qed.

Lemma max_z_bounded_witness :
  (np.std [1%R; 0%R] > 0)%R /\ (max_z [1%R; 0%R] <= sqrt (INR 2))%R.
Proof.
  assert (H : (np.std [1%R; 0%R] > 0)%R) by (rewrite std_pair_1_0; lra).
  split; [exact H |]. exact (max_z_bounded [1%R; 0%R] H).
Defined.

(** ** A threshold the z-score cannot reach *)

Lemma length_window_data (e : BrainInterface) (current_idx : Z) :
  length (window_data e current_idx) = Z.to_nat (window_size e).
Proof.
  unfold window_data, window_indices, np.take, range.
  now rewrite !length_map, length_seqZ.
Qed.

Lemma detect_below_threshold (e : BrainInterface) (current_idx : Z) (t : R) :
  (0 <= detection_threshold e)%R ->
  (IZR (window_size e) <= detection_threshold e * detection_threshold e)%R ->
  _detect_neural_event e current_idx t = e.
Proof.
  intros Hthr Hws.
  destruct (detect_fired_cases e current_idx t) as [H | (_ & Hstd & Hz & _)];
    [exact H | exfalso].
  assert (Hmax : (max_z (window_data e current_idx)
                  <= sqrt (INR (length (window_data e current_idx))))%R).
  { unfold max_z, np.abs, z_scores.
    apply max_bounded; [apply sqrt_pos |].
    apply List.Forall_forall. intros y Hy.
    apply in_map_iff in Hy as (z & <- & Hin).
    apply in_map_iff in Hin as (x & <- & Hx).
    now apply z_score_bounded. }
  rewrite length_window_data in Hmax.
  assert (Hlen : (INR (Z.to_nat (window_size e))
                  <= detection_threshold e * detection_threshold e)%R).
  { destruct (Z_le_gt_dec 0 (window_size e)) as [Hpos | Hneg].
    - rewrite INR_IZR_INZ, Z2Nat.id by exact Hpos. exact Hws.
    - replace (Z.to_nat (window_size e)) with 0%nat by lia. simpl. nra. }
  apply sqrt_le_1_alt in Hlen. rewrite sqrt_square in Hlen by exact Hthr.
  lra.
Qed.

Section QuietProperties.

Variable lfilter : list R -> list R -> list R -> list R -> list R * list R.
Variable lfilter_zi : list R -> list R -> list R.

Local Abbreviation filter1 := (filter_sample lfilter lfilter_zi).
Local Abbreviation process := (process_sample lfilter lfilter_zi).
Local Abbreviation iteration := (stream_iteration lfilter lfilter_zi).
Local Abbreviation run := (_stream_data lfilter lfilter_zi).
Local Abbreviation trace := (ingested lfilter lfilter_zi).
Local Abbreviation stored := (stored lfilter lfilter_zi).

Lemma process_below_threshold e v ts td :
  (0 <= detection_threshold e)%R ->
  (IZR (window_size e) <= detection_threshold e * detection_threshold e)%R ->
  process e v ts td = advance_sample_idx (stored e v ts).
Proof.
  intros Hthr Hws. unfold process_sample, stored.
  destruct (filter_sample lfilter lfilter_zi e (IZR (decode_sample v)))
    as [[y fs] ns]. cbn [fst snd].
  match goal with
  | |- context [if ?c then _ else _] => destruct c
  end; [| reflexivity].
  now rewrite detect_below_threshold.
Qed.

(** X3. While the threshold is not negative and its square is at least
    the window size, which holds for the 50.0 and 50 the constructor sets,
    no run of the reader loop fires an event: the event count, the event
    log and the last event time stay as they are. *)
Theorem high_threshold_never_fires (e : BrainInterface) (arrivals : list arrival) :
  (0 <= detection_threshold e)%R ->
  (IZR (window_size e) <= detection_threshold e * detection_threshold e)%R ->
  event_count (run e arrivals) = event_count e /\
  event_timestamps (run e arrivals) = event_timestamps e /\
  last_event_time (run e arrivals) = last_event_time e.
Proof.
  revert e. induction arrivals as [| a rest IH]; intros e Hthr Hws; simpl;
    [auto |].
  destruct (streaming e && serial_open e); [| auto].
  destruct (iteration_parameters lfilter lfilter_zi e a) as (Ht & _ & Hw).
  destruct (IH (iteration e a)) as (-> & -> & ->);
    [now rewrite Ht | now rewrite Ht, Hw |].
  unfold stream_iteration. destruct (line a) as [| v]; [auto |].
  now rewrite process_below_threshold.
Qed.

End QuietProperties.

Lemma high_threshold_never_fires_witness :
  (0 <= detection_threshold bench_streaming)%R /\
  (IZR (window_size bench_streaming)
   <= detection_threshold bench_streaming * detection_threshold bench_streaming)%R /\
  event_count
    (_stream_data df2t.lfilter df2t.lfilter_zi bench_streaming
       (replicate 300 (reading 9000 101%R)))
  = 0.
Proof.
  assert (H1 : (0 <= detection_threshold bench_streaming)%R) by (simpl; lra).
  assert (H2 : (IZR (window_size bench_streaming)
                <= detection_threshold bench_streaming
                   * detection_threshold bench_streaming)%R) by (simpl; lra).
  split; [exact H1 |]. split; [exact H2 |].
  destruct (high_threshold_never_fires df2t.lfilter df2t.lfilter_zi
              bench_streaming (replicate 300 (reading 9000 101%R)) H1 H2)
    as (Hc & _).
  exact Hc.
Defined.

(** ** Index lists stay inside the buffers *)

(** X4. Every index the code gathers with is a slot of the buffers: the
    window of the detector, the chronological read of [save_data] and
    [plot_data], the calibration data, and every index list the brain
    signals resource comes to read with all index inside
    [0, BUFFER_SIZE). *)
Theorem index_lists_in_bounds (e : BrainInterface) (current_idx s0 s1 : Z) :
  let inside := fun i => 0 <= i < BUFFER_SIZE in
  Forall inside (window_indices e current_idx) /\
  Forall inside (chronological_indices e) /\
  Forall inside (map (fun i => i mod BUFFER_SIZE) (range2 s0 s1)) /\
  (forall l, signal_indices e = Indices l -> Forall inside l).
Proof.
  intros inside. subst inside. pose proof BUFFER_SIZE_pos as Hpos.
  assert (Hmod : forall (f : Z -> Z) (l : list Z),
            Forall (fun i => 0 <= i < BUFFER_SIZE)
              (map (fun i => f i mod BUFFER_SIZE) l)).
  { intros f l. apply List.Forall_map, List.Forall_forall. intros i _.
    apply slot_bounds. }
  assert (Hrange : forall n, n <= BUFFER_SIZE ->
            Forall (fun i => 0 <= i < BUFFER_SIZE) (range n)).
  { intros n Hn. unfold range. apply Forall_seqZ. intros i Hi. lia. }
  split; [apply (Hmod (fun i => current_idx - i)) |].
  split.
  - unfold chronological_indices.
    destruct (current_sample_idx e <? BUFFER_SIZE) eqn:Hlt.
    + apply Z.ltb_lt in Hlt. apply Hrange. lia.
    + apply (Hmod (fun i => current_sample_idx e mod BUFFER_SIZE + i)).
  - split; [apply (Hmod (fun i => i)) |].
    intros l Hl. unfold signal_indices in Hl.
    destruct (current_sample_idx e <? 250) eqn:Hlt.
    + apply Z.ltb_lt in Hlt.
      destruct (length (range (current_sample_idx e)) =? 0)%nat; [discriminate |].
      injection Hl as <-. apply Hrange. unfold BUFFER_SIZE. lia.
    + discriminate.
Qed.

(** ** What the detector looks at *)

(** Gathering the slots of the last [w] sequence numbers, newest first. *)
Lemma gather_newest (get : Z -> R) (vals : list R) (s0 w : Z) :
  (forall (k : nat) (v : R),
     vals !! k = Some v ->
     s0 + Z.of_nat (length vals) - BUFFER_SIZE <= s0 + Z.of_nat k ->
     get ((s0 + Z.of_nat k) mod BUFFER_SIZE) = v) ->
  0 <= w <= Z.of_nat (length vals) ->
  w <= BUFFER_SIZE ->
  map (fun i => get ((s0 + Z.of_nat (length vals) - 1 - i) mod BUFFER_SIZE))
      (seqZ 0 w)
  = take (Z.to_nat w) (reverse vals).
Proof.
  intros Hget Hw HwC. apply list_eq. intros i.
  rewrite lookup_map.
  destruct (decide (Z.of_nat i < w)) as [Hi | Hi].
  - rewrite lookup_seqZ_lt by exact Hi. simpl.
    rewrite lookup_take_lt by lia.
    rewrite reverse_lookup by lia.
    destruct (lookup_lt_is_Some_2 vals (length vals - S i)) as [v Hv]; [lia |].
    rewrite Hv. f_equal.
    rewrite <- (Hget _ v Hv) by lia.
    f_equal. f_equal. lia.
  - rewrite lookup_seqZ_ge by lia. simpl. symmetry.
    apply lookup_ge_None. rewrite length_take, length_reverse. lia.
Qed.

Section WindowProperties.

Variable lfilter : list R -> list R -> list R -> list R -> list R * list R.
Variable lfilter_zi : list R -> list R -> list R.

Local Abbreviation filter1 := (filter_sample lfilter lfilter_zi).
Local Abbreviation process := (process_sample lfilter lfilter_zi).
Local Abbreviation run := (_stream_data lfilter lfilter_zi).
Local Abbreviation trace := (ingested lfilter lfilter_zi).
Local Abbreviation stored := (stored lfilter lfilter_zi).

(** X5. When the loop consults the detector for a new sample, the window
    the detector reads is made of the filtered values of the latest
    [window_size] samples of the stream, the new one first; this holds
    whenever the window is no longer than the buffer and the guard
    [current_sample_idx >= window_size] has let the detector run. *)
Theorem detector_window_latest (e0 : BrainInterface) (arrivals : list arrival)
    (v : Z) (ts : R) :
  buffers_ok e0 ->
  current_sample_idx e0 = 0 ->
  let e := run e0 arrivals in
  let earlier := map filtered (trace e0 arrivals) in
  let y := (filter1 e (IZR (decode_sample v))).1.1 in
  0 <= window_size e <= BUFFER_SIZE ->
  window_size e <= current_sample_idx e ->
  window_data (stored e v ts) (current_sample_idx e mod BUFFER_SIZE)
  = take (Z.to_nat (window_size e)) (reverse (earlier ++ [y])).
Proof.
  intros Hok Hzero e earlier y Hw Hguard.
  assert (Hring : ring_holds 0 (trace e0 arrivals) e).
  { pose proof (ring_run lfilter lfilter_zi arrivals e0 0 [] Hok) as H.
    simpl in H. apply H. rewrite <- Hzero. apply ring_holds_start. }
  assert (Hoke : buffers_ok e) by now apply run_buffers_ok.
  pose proof (ring_step lfilter lfilter_zi e 0 (trace e0 arrivals) v ts ts
                Hoke Hring) as (Hidx' & _ & Hslots).
  pose proof Hring as (Hidx & _ & _).
  set (new := {| sequence := current_sample_idx e;
                 raw := IZR (decode_sample v);
                 filtered := (filter1 e (IZR (decode_sample v))).1.1;
                 timestamp := ts |}) in *.
  rewrite process_current_sample_idx in Hslots.
  rewrite process_filtered_buffer in Hslots.
  pose proof (gather_newest
                (np.getitem
                   (np.setitem (filtered_buffer e)
                      (current_sample_idx e mod BUFFER_SIZE) y))
                (earlier ++ [y]) 0 (window_size e)) as Hgather.
  assert (Hlen : length (earlier ++ [y]) = S (length (trace e0 arrivals))).
  { subst earlier. rewrite length_app, length_map. simpl. lia. }
  rewrite Hlen in Hgather.
  rewrite <- Hgather; [| | lia | lia].
  - unfold window_data, window_indices, np.take, range. rewrite map_map.
    apply map_ext. intros i. cbn [filtered_buffer stored store_sample window_size].
    fold y. f_equal.
    rewrite Zminus_mod_idemp_l. f_equal. lia.
  - intros k v0 Hk Hrecent.
    replace (earlier ++ [y]) with (map filtered (trace e0 arrivals ++ [new])) in Hk
      by (subst earlier new; now rewrite map_app).
    rewrite lookup_map in Hk. apply fmap_Some in Hk as (r & Hr & ->).
    apply (Hslots k r Hr). lia.
Qed.

End WindowProperties.

Local Abbreviation after_fifty :=
  (_stream_data df2t.lfilter df2t.lfilter_zi bench_streaming fifty_lines).

Lemma after_fifty_counter : current_sample_idx after_fifty = 50.
Proof.
  rewrite run_current_sample_idx.
  rewrite trace_length_all_parsed.
  - unfold fifty_lines. now rewrite length_replicate.
  - reflexivity.
  - apply Forall_replicate. discriminate.
Qed.

Lemma after_fifty_window_size : window_size after_fifty = 50.
Proof.
  destruct (run_parameters df2t.lfilter df2t.lfilter_zi bench_streaming
                  fifty_lines) as (_ & _ & Hw).
  rewrite Hw. reflexivity.
Qed.

Lemma detector_window_latest_witness :
  buffers_ok bench_streaming /\
  current_sample_idx bench_streaming = 0 /\
  0 <= window_size after_fifty <= BUFFER_SIZE /\
  window_size after_fifty <= current_sample_idx after_fifty /\
  window_data (stored df2t.lfilter df2t.lfilter_zi after_fifty 7 102%R)
    (current_sample_idx after_fifty mod BUFFER_SIZE)
  = take (Z.to_nat (window_size after_fifty))
      (reverse
         (map filtered
            (ingested df2t.lfilter df2t.lfilter_zi bench_streaming fifty_lines)
          ++ [(filter_sample df2t.lfilter df2t.lfilter_zi after_fifty
                 (IZR (decode_sample 7))).1.1])).
Proof.
  assert (H0 : current_sample_idx bench_streaming = 0) by reflexivity.
  assert (Hw : 0 <= window_size after_fifty <= BUFFER_SIZE)
    by (rewrite after_fifty_window_size; unfold BUFFER_SIZE; lia).
  assert (Hg : window_size after_fifty <= current_sample_idx after_fifty)
    by (rewrite after_fifty_window_size, after_fifty_counter; lia).
  split; [exact buffers_ok_bench_streaming |]. split; [exact H0 |].
  split; [exact Hw |]. split; [exact Hg |].
  exact (detector_window_latest df2t.lfilter df2t.lfilter_zi bench_streaming
           fifty_lines 7 102%R buffers_ok_bench_streaming H0 Hw Hg).
Defined.

(** ** What every method keeps *)

Section InvariantProperties.

Variable lfilter : list R -> list R -> list R -> list R -> list R * list R.
Variable lfilter_zi : list R -> list R -> list R.

Local Abbreviation process := (process_sample lfilter lfilter_zi).
Local Abbreviation iteration := (stream_iteration lfilter lfilter_zi).
Local Abbreviation run := (_stream_data lfilter lfilter_zi).
Local Abbreviation calibrate := (calibrate lfilter lfilter_zi).
Local Abbreviation exec := (exec lfilter lfilter_zi).
Local Abbreviation exec_all := (exec_all lfilter lfilter_zi).
Local Abbreviation stored := (stored lfilter lfilter_zi).

(** A property kept by the four lifecycle methods, by one iteration of
    the loop while it runs and by the assignment of the threshold is kept
    by every method. *)
Lemma invariant_of_methods (P : BrainInterface -> Prop) :
  (forall e ok, P e -> P (fst (connect e ok))) ->
  (forall e, P e -> P (disconnect e)) ->
  (forall e ok now, P e -> P (fst (start_stream e ok now))) ->
  (forall e, P e -> P (stop_stream e)) ->
  (forall e a, streaming e && serial_open e = true -> P e -> P (iteration e a)) ->
  (forall e z, P e -> P (set_detection_threshold e z)) ->
  forall e cs, P e -> P (exec_all e cs).
Proof.
  intros Hconnect Hdisconnect Hstart Hstop Hiter Hthr.
  assert (Hrun : forall arrivals e, P e -> P (run e arrivals)).
  { induction arrivals as [| a rest IH]; intros e He; simpl; [exact He |].
    destruct (streaming e && serial_open e) eqn:Hs; [| exact He].
    apply IH, Hiter; [exact Hs | exact He]. }
  assert (Hcal : forall e ok now arrivals,
            P e -> P (fst (calibrate e ok now arrivals))).
  { intros e ok now arrivals He. unfold calibrate. cbv zeta.
    assert (H1 : P (ensure_streaming e ok now)).
    { unfold ensure_streaming. destruct (streaming e); [exact He |].
      now apply Hstart. }
    pose proof (Hrun arrivals _ H1) as H2.
    destruct (Z.of_nat (length (calibration_data _ _ _)) >? SAMPLE_RATE);
      destruct (streaming e); cbn [fst]; auto. }
  intros e cs. revert e. induction cs as [| c cs IH]; intros e He; simpl;
    [exact He |].
  apply IH. destruct c; simpl.
  - now apply Hconnect.
  - now apply Hdisconnect.
  - now apply Hstart.
  - now apply Hstop.
  - apply (Hrun [a] e He).
  - now apply Hcal.
Qed.

(** X6. From the constructor on, whatever methods are called and
    whatever lines arrive, the three buffers keep the length [BUFFER_SIZE]
    and the sample counter is never negative. *)
Theorem buffers_never_resized (bp_b bp_a n_b n_a : list R) (cs : list command) :
  let e := exec_all (init bp_b bp_a n_b n_a) cs in
  Z.of_nat (length (raw_buffer e)) = BUFFER_SIZE /\
  Z.of_nat (length (filtered_buffer e)) = BUFFER_SIZE /\
  Z.of_nat (length (timestamps e)) = BUFFER_SIZE /\
  0 <= current_sample_idx e.
Proof.
  apply (invariant_of_methods buffers_ok).
  - intros e ok He. unfold connect. destruct ok; exact He.
  - intros e He. unfold disconnect. destruct (serial_open e); exact He.
  - intros e ok now (Hr & Hf & Ht & Hi). unfold start_stream, connect.
    destruct (running e); [now repeat split |].
    destruct ok; now repeat split.
  - intros e He. exact He.
  - intros e a _ He. now apply iteration_buffers_ok.
  - intros e z He. exact He.
  - apply buffers_ok_init.
Qed.

(** X7. From the constructor on, whatever methods are called and
    whatever lines arrive, the port is open exactly when the engine is
    marked running, and the engine is marked streaming only while it is
    running. *)
Theorem streaming_only_while_running (bp_b bp_a n_b n_a : list R)
    (cs : list command) :
  let e := exec_all (init bp_b bp_a n_b n_a) cs in
  running e = serial_open e /\ (streaming e = true -> running e = true).
Proof.
  apply (invariant_of_methods flags_ok).
  - intros e ok He. unfold connect. destruct ok; [| exact He].
    split; [reflexivity | auto].
  - intros e (Hr & Hs). unfold disconnect.
    destruct (serial_open e) eqn:Ho.
    + split; [reflexivity | discriminate].
    + split; [congruence | exact Hs].
  - intros e ok now (Hr & Hs). unfold start_stream, connect.
    destruct (running e) eqn:Hrun.
    + split; simpl; [congruence | intros _; exact Hrun].
    + destruct ok.
      * split; [reflexivity | intros _; reflexivity].
      * split; simpl; [congruence | intros H; apply Hs in H; congruence].
  - intros e (Hr & Hs). split; [exact Hr | discriminate].
  - intros e a _ (Hr & Hs).
    destruct (iteration_flags lfilter lfilter_zi e a) as (Hst & Hso & Hru).
    unfold flags_ok. rewrite Hst, Hso, Hru. now split.
  - intros e z He. exact He.
  - split; [reflexivity | discriminate].
Qed.

(** X8. From the constructor on, whatever methods are called and
    whatever lines arrive, [event_count] is the number of entries of
    [event_timestamps]. *)
Theorem event_count_is_log_length (bp_b bp_a n_b n_a : list R)
    (cs : list command) :
  let e := exec_all (init bp_b bp_a n_b n_a) cs in
  event_count e = Z.of_nat (length (event_timestamps e)).
Proof.
  apply (invariant_of_methods counts_ok).
  - intros e ok He. unfold connect. destruct ok; exact He.
  - intros e He. unfold disconnect. destruct (serial_open e); exact He.
  - intros e ok now He. unfold start_stream, connect.
    destruct (running e); [reflexivity |].
    destruct ok; [reflexivity | exact He].
  - intros e He. exact He.
  - intros e a _ He. unfold stream_iteration.
    destruct (line a) as [| v]; [exact He |].
    destruct (process_sample_cases lfilter lfilter_zi e v (t_store a) (t_detect a))
      as [-> | ->]; unfold counts_ok in *; simpl; [exact He |].
    rewrite length_app. simpl. lia.
  - intros e z He. exact He.
  - reflexivity.
Qed.

(** X9. A stopped engine and a disconnected engine take no line: the
    reader loop leaves every attribute as it is and writes no sample. *)
Theorem idle_engine_takes_no_line (e : BrainInterface) (arrivals : list arrival) :
  run (stop_stream e) arrivals = stop_stream e /\
  ingested lfilter lfilter_zi (stop_stream e) arrivals = [] /\
  run (disconnect e) arrivals = disconnect e /\
  ingested lfilter lfilter_zi (disconnect e) arrivals = [].
Proof.
  assert (Hd : streaming (disconnect e) && serial_open (disconnect e) = false).
  { unfold disconnect. destruct (serial_open e) eqn:Ho; simpl.
    - reflexivity.
    - rewrite Ho. apply andb_false_r. }
  split; [now apply run_not_streaming |].
  split; [now apply trace_not_streaming |].
  split; [now apply run_not_streaming | now apply trace_not_streaming].
Qed.

End InvariantProperties.

(** ** What a restart keeps *)

Section RestartProperties.

Variable lfilter : list R -> list R -> list R -> list R -> list R * list R.
Variable lfilter_zi : list R -> list R -> list R.

Local Abbreviation process := (process_sample lfilter lfilter_zi).
Local Abbreviation iteration := (stream_iteration lfilter lfilter_zi).
Local Abbreviation run := (_stream_data lfilter lfilter_zi).
Local Abbreviation trace := (ingested lfilter lfilter_zi).
Local Abbreviation calibrate := (calibrate lfilter lfilter_zi).
Local Abbreviation run_session := (run_session lfilter lfilter_zi).
Local Abbreviation exec := (exec lfilter lfilter_zi).
Local Abbreviation exec_all := (exec_all lfilter lfilter_zi).
Local Abbreviation stored := (stored lfilter lfilter_zi).

Lemma run_start_time e arrivals : start_time (run e arrivals) = start_time e.
Proof.
  revert e. induction arrivals as [| a rest IH]; intros e; simpl; [reflexivity |].
  destruct (streaming e && serial_open e); [| reflexivity].
  rewrite IH. unfold stream_iteration. destruct (line a) as [| v]; [reflexivity |].
  destruct (process_sample_cases lfilter lfilter_zi e v (t_store a) (t_detect a))
    as [-> | ->]; reflexivity.
Qed.

(** Every event logged by a run is more than the cooldown after the last
    event time the run started with. *)
Lemma run_log_after (L0 : R) (arrivals : list arrival) : forall e,
  (0 <= cooldown_period e)%R ->
  (L0 <= last_event_time e)%R ->
  Forall (fun t => (t - L0 > cooldown_period e)%R) (event_timestamps e) ->
  Forall (fun t => (t - L0 > cooldown_period e)%R)
    (event_timestamps (run e arrivals)).
Proof.
  induction arrivals as [| a rest IH]; intros e Hcd Hlast Hlog; simpl;
    [exact Hlog |].
  destruct (streaming e && serial_open e); [| exact Hlog].
  destruct (iteration_parameters lfilter lfilter_zi e a) as (_ & Hc & _).
  rewrite <- Hc. unfold stream_iteration in *.
  destruct (line a) as [| v]; [now apply IH |].
  destruct (process_fired_cases lfilter lfilter_zi e v (t_store a) (t_detect a))
    as [Heq | [Heq Hgap]]; rewrite Heq in *; apply IH; simpl; auto.
  - lra.
  - apply Forall_app. split; [exact Hlog |].
    constructor; [lra | constructor].
Qed.

(** X10. The cooldown spans a restart: [start_stream] empties the event
    log but keeps [last_event_time], so every event of the new stream is
    more than the cooldown period after the last event of the stream
    before it. *)
Theorem cooldown_spans_restart (e : BrainInterface) (ok : bool) (now : R)
    (arrivals : list arrival) :
  (0 <= cooldown_period e)%R ->
  running e || ok = true ->
  let e' := run (fst (start_stream e ok now)) arrivals in
  Forall (fun t => (t - last_event_time e > cooldown_period e)%R)
    (event_timestamps e').
Proof.
  intros Hcd Hok e'. subst e'.
  destruct (start_stream_accepted e ok now Hok) as (e1 & -> & He1).
  cbn [fst].
  set (e2 := reset_session (set_streaming e1 true) now).
  assert (Hc : cooldown_period e2 = cooldown_period e)
    by (destruct He1; subst; reflexivity).
  assert (Hl : last_event_time e2 = last_event_time e)
    by (destruct He1; subst; reflexivity).
  rewrite <- Hc.
  apply run_log_after; [rewrite Hc; exact Hcd | rewrite Hl; lra |].
  change (event_timestamps e2) with (@nil R). constructor.
Qed.

(** X11. No method resets the two filter states: [start_stream] after
    [stop_stream] leaves them as they are, and once a sample has set them
    they stay set whatever methods are called and whatever lines arrive,
    so the bandpass stage takes the steady state of [lfilter_zi] only for
    the first sample an engine ever processes. *)
Theorem filter_states_never_reset (e : BrainInterface) (zi ns : list R)
    (cs : list command) :
  filter_state e = Some zi ->
  notch_state e = Some ns ->
  (forall ok now,
     filter_state (fst (start_stream (stop_stream e) ok now)) = Some zi /\
     notch_state (fst (start_stream (stop_stream e) ok now)) = Some ns) /\
  (exists zi' ns',
     filter_state (exec_all e cs) = Some zi' /\
     notch_state (exec_all e cs) = Some ns').
Proof.
  intros Hf Hn. split.
  - intros ok now. unfold start_stream, connect, stop_stream.
    cbn [running set_streaming].
    destruct (running e); [now split |].
    destruct ok; now split.
  - apply (invariant_of_methods lfilter lfilter_zi
             (fun e => exists zi' ns',
                filter_state e = Some zi' /\ notch_state e = Some ns')).
    + intros e0 ok He. unfold connect. destruct ok; exact He.
    + intros e0 He. unfold disconnect. destruct (serial_open e0); exact He.
    + intros e0 ok now He. unfold start_stream, connect.
      destruct (running e0); [exact He |]. destruct ok; exact He.
    + intros e0 He. exact He.
    + intros e0 a _ He. unfold stream_iteration.
      destruct (line a) as [| v]; [exact He |].
      destruct (process_filter_states lfilter lfilter_zi e0 v
                  (t_store a) (t_detect a)) as (-> & ->).
      eauto.
    + intros e0 z He. exact He.
    + eauto.
Qed.

(** X12. [calibrate] and [run_session] leave the streaming flag as they
    found it: a stream they had to start is stopped again, and a stream
    that was running keeps running. *)
Theorem streaming_flag_restored (e : BrainInterface) (ok : bool) (now : R)
    (arrivals : list arrival) (save : bool) :
  streaming (fst (calibrate e ok now arrivals)) = streaming e /\
  streaming (fst (run_session e ok now arrivals save)) = streaming e.
Proof.
  assert (Hrun : forall e1, streaming (run e1 arrivals) = streaming e1)
    by (intros e1; apply run_flags).
  split.
  - unfold calibrate, ensure_streaming. cbv zeta.
    destruct (streaming e) eqn:Hs.
    + match goal with
      | |- context [if ?c then _ else _] => destruct c
      end; cbn [fst set_detection_threshold streaming]; rewrite Hrun; exact Hs.
    + match goal with
      | |- context [if ?c then _ else _] => destruct c
      end; reflexivity.
  - unfold run_session, ensure_streaming. cbn [fst].
    destruct (streaming e) eqn:Hs; [rewrite Hrun; exact Hs | reflexivity].
Qed.

(** [calibrate] and [run_session] touch the connection only where they
    have to start the stream. *)
Lemma ensure_streaming_connected (e : BrainInterface) (ok : bool) (now : R) :
  running e = true ->
  serial_open (ensure_streaming e ok now) = serial_open e /\
  running (ensure_streaming e ok now) = true.
Proof.
  intros Hr. unfold ensure_streaming, start_stream.
  destruct (streaming e); [auto |]. rewrite Hr. auto.
Qed.

Lemma calibrate_connection (e : BrainInterface) (ok : bool) (now : R)
    (arrivals : list arrival) :
  serial_open (fst (calibrate e ok now arrivals))
    = serial_open (ensure_streaming e ok now) /\
  running (fst (calibrate e ok now arrivals))
    = running (ensure_streaming e ok now).
Proof.
  destruct (run_flags lfilter lfilter_zi (ensure_streaming e ok now) arrivals)
    as (_ & Ho & Hr).
  unfold calibrate. cbv zeta.
  match goal with
  | |- context [if ?c then _ else _] => destruct c
  end; destruct (streaming e); cbn [fst]; simpl; auto.
Qed.

Lemma run_session_connection (e : BrainInterface) (ok : bool) (now : R)
    (arrivals : list arrival) (save : bool) :
  serial_open (fst (run_session e ok now arrivals save))
    = serial_open (ensure_streaming e ok now) /\
  running (fst (run_session e ok now arrivals save))
    = running (ensure_streaming e ok now).
Proof.
  destruct (run_flags lfilter lfilter_zi (ensure_streaming e ok now) arrivals)
    as (_ & Ho & Hr).
  unfold run_session. cbn [fst]. destruct (streaming e); simpl; auto.
Qed.

(** X13. A session that [run_session] starts itself is saved whole: on
    an idle engine whose device answers, the arrays handed to the writer
    are, oldest first, the samples ingested during the session (the most
    recent [BUFFER_SIZE] of a longer one), with the timestamps counted from
    the start of the session; nothing is written when no line parsed. *)
Theorem run_session_saves_stream (e : BrainInterface) (ok : bool) (now : R)
    (arrivals : list arrival) :
  buffers_ok e ->
  streaming e = false ->
  running e || ok = true ->
  let recs := trace (fst (start_stream e ok now)) arrivals in
  snd (run_session e ok now arrivals true) =
  match recs with
  | [] => None
  | _ :: _ =>
      Some {| raw_data := most_recent (map raw recs);
              filtered_data := most_recent (map filtered recs);
              time_data := map (fun t => (t - now)%R)
                             (most_recent (map timestamp recs)) |}
  end.
Proof.
  intros Hok Hs Hacc recs.
  unfold run_session, ensure_streaming. rewrite Hs. cbn [snd].
  set (e1 := fst (start_stream e ok now)) in *.
  assert (H1 : buffers_ok e1 /\ current_sample_idx e1 = 0
               /\ start_time e1 = Some now).
  { subst e1. destruct (start_stream_accepted e ok now Hacc) as (e0 & -> & He0).
    cbn [fst]. destruct Hok as (Hr & Hf & Ht & Hi).
    destruct He0; subst e0; (split; [| split]; [| reflexivity | reflexivity]);
      repeat split; auto; simpl; lia. }
  destruct H1 as (Hok1 & Hz & Hst).
  set (e2 := run e1 arrivals).
  assert (Hring : ring_holds 0 recs e2).
  { pose proof (ring_run lfilter lfilter_zi arrivals e1 0 [] Hok1) as H.
    simpl in H. apply H. rewrite <- Hz. apply ring_holds_start. }
  assert (Hst2 : start_time e2 = Some now)
    by (subst e2; now rewrite run_start_time).
  change (save_data (stop_stream e2)) with (save_data e2).
  clearbody recs e2. clear e1 Hok1 Hz Hst.
  pose proof Hring as (Hidx & _ & _).
  assert (Hnonneg : 0 <= current_sample_idx e2) by lia.
  pose proof (ring_gather e2 0 recs Hring) as (Hraw & Hfil & Hts).
  replace (Z.of_nat (length recs)) with (current_sample_idx e2) in Hraw, Hfil, Hts
    by lia.
  rewrite <- (chronological_gather e2 (raw_buffer e2) Hnonneg) in Hraw.
  rewrite <- (chronological_gather e2 (filtered_buffer e2) Hnonneg) in Hfil.
  rewrite <- (chronological_gather e2 (timestamps e2) Hnonneg) in Hts.
  unfold save_data. rewrite Hst2, Hraw, Hfil, Hts.
  destruct recs as [| r rs].
  - simpl in Hidx. now rewrite Hidx.
  - destruct (current_sample_idx e2 =? 0) eqn:Hzero; [| reflexivity].
    apply Z.eqb_eq in Hzero. simpl in Hidx. lia.
Qed.

End RestartProperties.

Section StandaloneProperties.

Variable lfilter : list R -> list R -> list R -> list R -> list R * list R.
Variable lfilter_zi : list R -> list R -> list R.
Variables butter_b butter_a iirnotch_b iirnotch_a : list R.

Local Abbreviation run_standalone_mode :=
  (run_standalone_mode lfilter lfilter_zi butter_b butter_a iirnotch_b iirnotch_a).

(** X14. The standalone mode never leaves the port open: whatever the
    arguments, whether or not the device answers and whatever lines
    arrive, the engine it ends with has its port closed and is neither
    running nor streaming. *)
Theorem standalone_closes_port (args : arguments) (device_ok : bool)
    (now_cal now_rec : R) (cal_lines rec_lines : list arrival) :
  let device :=
    run_standalone_mode args device_ok now_cal now_rec cal_lines rec_lines in
  serial_open device = false /\ running device = false /\
  streaming device = false.
Proof.
  intros device. subst device. unfold run_standalone_mode.
  destruct (arg_list_ports args); [now repeat split |].
  unfold connect. destruct device_ok; [| now repeat split].
  set (d1 := set_connection (init butter_b butter_a iirnotch_b iirnotch_a)
               true true).
  assert (H1 : serial_open d1 = true /\ running d1 = true) by now split.
  clearbody d1.
  set (d2 := if arg_calibrate args then _ else d1).
  assert (H2 : serial_open d2 = true /\ running d2 = true).
  { subst d2. destruct (arg_calibrate args); [| exact H1].
    destruct H1 as (Ho & Hr).
    destruct (calibrate_connection lfilter lfilter_zi d1 true now_cal cal_lines)
      as (-> & ->).
    destruct (ensure_streaming_connected d1 true now_cal Hr) as (-> & ->).
    now split. }
  clearbody d2.
  set (d3 := if arg_record args =? 0 then d2 else _).
  assert (H3 : serial_open d3 = true /\ running d3 = true).
  { subst d3. destruct (arg_record args =? 0); [exact H2 |].
    destruct H2 as (Ho & Hr).
    destruct (run_session_connection lfilter lfilter_zi d2 true now_rec
                rec_lines true) as (-> & ->).
    destruct (ensure_streaming_connected d2 true now_rec Hr) as (-> & ->).
    now split. }
  clearbody d3. destruct H3 as (Ho & _).
  unfold disconnect. rewrite Ho. now repeat split.
Qed.

End StandaloneProperties.

Lemma cooldown_spans_restart_witness :
  (0 <= cooldown_period bench_session)%R /\
  running bench_session || true = true /\
  Forall (fun t => (t - last_event_time bench_session
                    > cooldown_period bench_session)%R)
    (event_timestamps
       (_stream_data df2t.lfilter df2t.lfilter_zi
          (fst (start_stream bench_session true 103%R))
          [reading 3 104%R; reading 5 105%R])).
Proof.
  assert (H1 : (0 <= cooldown_period bench_session)%R) by (simpl; lra).
  assert (H2 : running bench_session || true = true) by reflexivity.
  split; [exact H1 |]. split; [exact H2 |].
  exact (cooldown_spans_restart df2t.lfilter df2t.lfilter_zi bench_session true
           103%R [reading 3 104%R; reading 5 105%R] H1 H2).
Defined.

Lemma filter_states_never_reset_witness :
  filter_state bench_session = Some [0%R] /\
  notch_state bench_session = Some [0%R; 0%R] /\
  exists zi' ns',
    filter_state
      (exec_all df2t.lfilter df2t.lfilter_zi bench_session
         [StopStream; StartStream true 103%R; Arrive (reading 3 104%R)])
      = Some zi' /\
    notch_state
      (exec_all df2t.lfilter df2t.lfilter_zi bench_session
         [StopStream; StartStream true 103%R; Arrive (reading 3 104%R)])
      = Some ns'.
Proof.
  split; [reflexivity |]. split; [reflexivity |].
  exact (proj2 (filter_states_never_reset df2t.lfilter df2t.lfilter_zi
                  bench_session [0%R] [0%R; 0%R]
                  [StopStream; StartStream true 103%R; Arrive (reading 3 104%R)]
                  eq_refl eq_refl)).
Defined.

Lemma run_session_saves_stream_witness :
  buffers_ok bench /\
  streaming bench = false /\
  running bench || true = true /\
  snd (run_session df2t.lfilter df2t.lfilter_zi bench true 100%R
         [reading 2 101%R; reading 4 102%R] true)
  = match ingested df2t.lfilter df2t.lfilter_zi
            (fst (start_stream bench true 100%R))
            [reading 2 101%R; reading 4 102%R] with
    | [] => None
    | _ :: _ =>
        Some {| raw_data :=
                  most_recent
                    (map raw
                       (ingested df2t.lfilter df2t.lfilter_zi
                          (fst (start_stream bench true 100%R))
                          [reading 2 101%R; reading 4 102%R]));
                filtered_data :=
                  most_recent
                    (map filtered
                       (ingested df2t.lfilter df2t.lfilter_zi
                          (fst (start_stream bench true 100%R))
                          [reading 2 101%R; reading 4 102%R]));
                time_data :=
                  map (fun t => (t - 100)%R)
                    (most_recent
                       (map timestamp
                          (ingested df2t.lfilter df2t.lfilter_zi
                             (fst (start_stream bench true 100%R))
                             [reading 2 101%R; reading 4 102%R]))) |}
    end.
Proof.
  assert (H1 : buffers_ok bench) by apply buffers_ok_init.
  split; [exact H1 |]. split; [reflexivity |]. split; [reflexivity |].
  exact (run_session_saves_stream df2t.lfilter df2t.lfilter_zi bench true 100%R
           [reading 2 101%R; reading 4 102%R] H1 eq_refl eq_refl).
Defined.

(** ** The event column of the csv file *)

Lemma argmin_from_spec (a : list R) : forall (pre : list R) (bi : nat) (best : R),
  pre !! bi = Some best ->
  (forall j w, pre !! j = Some w -> (best <= w)%R) ->
  (forall j w, (j < bi)%nat -> pre !! j = Some w -> (best < w)%R) ->
  exists v,
    (pre ++ a) !! argmin_from a (length pre) bi best = Some v /\
    (forall j w, (pre ++ a) !! j = Some w -> (v <= w)%R) /\
    (forall j w, (j < argmin_from a (length pre) bi best)%nat ->
       (pre ++ a) !! j = Some w -> (v < w)%R).
Proof.
  induction a as [| x t IH]; intros pre bi best Hbi Hmin Hfirst; simpl.
  - rewrite app_nil_r. eauto.
  - pose proof (lookup_lt_Some _ _ _ Hbi) as Hlen.
    destruct (Rlt_dec x best) as [Hlt | Hge].
    + specialize (IH (pre ++ [x]) (length pre) x).
      rewrite length_app in IH. simpl in IH. rewrite Nat.add_1_r in IH.
      rewrite <- app_assoc in IH. simpl in IH. apply IH.
      * rewrite lookup_app_r by lia. now rewrite Nat.sub_diag.
      * intros j w Hj. apply lookup_app_Some in Hj as [Hj | [_ Hj]].
        -- pose proof (Hmin j w Hj). lra.
        -- apply list_lookup_singleton_Some in Hj as [_ <-]. lra.
      * intros j w Hjlt Hj. rewrite lookup_app_l in Hj by lia.
        pose proof (Hmin j w Hj). lra.
    + specialize (IH (pre ++ [x]) bi best).
      rewrite length_app in IH. simpl in IH. rewrite Nat.add_1_r in IH.
      rewrite <- app_assoc in IH. simpl in IH. apply IH.
      * rewrite lookup_app_l by lia. exact Hbi.
      * intros j w Hj. apply lookup_app_Some in Hj as [Hj | [_ Hj]].
        -- now apply (Hmin j w).
        -- apply list_lookup_singleton_Some in Hj as [_ <-]. lra.
      * intros j w Hjlt Hj. rewrite lookup_app_l in Hj by lia.
        now apply (Hfirst j w).
Qed.

(** [np.argmin] returns the position of a smallest element, and the first
    such position. *)
Lemma argmin_spec (a : list R) :
  a <> [] ->
  exists v,
    a !! argmin a = Some v /\
    (forall j w, a !! j = Some w -> (v <= w)%R) /\
    (forall j w, (j < argmin a)%nat -> a !! j = Some w -> (v < w)%R).
Proof.
  destruct a as [| x t]; [congruence |]. intros _. unfold argmin.
  apply (argmin_from_spec t [x] 0 x).
  - reflexivity.
  - intros j w Hj. apply list_lookup_singleton_Some in Hj as [_ <-]. lra.
  - intros j w Hj. lia.
Qed.

Lemma length_mark_event (time_data indicators : list R) (t : R) :
  length (mark_event time_data indicators t) = length indicators.
Proof. unfold mark_event. apply length_insert. Qed.

Lemma mark_event_keeps (time_data indicators : list R) (t : R) (i : nat) :
  indicators !! i = Some 1%R ->
  mark_event time_data indicators t !! i = Some 1%R.
Proof.
  intros Hi. unfold mark_event.
  set (idx := argmin _).
  destruct (decide (idx = i)) as [-> | Hne].
  - apply list_lookup_insert_eq. eapply lookup_lt_Some, Hi.
  - now rewrite list_lookup_insert_ne.
Qed.

(** One pass marks a row whose time is nearest to the event time. *)
Lemma mark_event_nearest (time_data indicators : list R) (t : R) :
  time_data <> [] ->
  length indicators = length time_data ->
  exists i v,
    time_data !! i = Some v /\
    mark_event time_data indicators t !! i = Some 1%R /\
    (forall j w, time_data !! j = Some w ->
       (Rabs (v - t) <= Rabs (w - t))%R).
Proof.
  intros Hne Hlen. unfold mark_event.
  set (a := np.abs (map (fun x => (x - t)%R) time_data)).
  assert (Ha : forall j, a !! j = (fun w => Rabs (w - t)) <$> time_data !! j).
  { intros j. subst a. unfold np.abs. rewrite !lookup_map.
    now destruct (time_data !! j). }
  assert (Hane : a <> []).
  { subst a. unfold np.abs. destruct time_data; [congruence | discriminate]. }
  destruct (argmin_spec a Hane) as (m & Hm & Hmin & _).
  rewrite Ha in Hm. apply fmap_Some in Hm as (v & Hv & ->).
  exists (argmin a), v. split; [exact Hv |]. split.
  - apply list_lookup_insert_eq. rewrite Hlen. eapply lookup_lt_Some, Hv.
  - intros j w Hw. apply (Hmin j). rewrite Ha, Hw. reflexivity.
Qed.

Lemma marks_keep (time_data : list R) (event_times : list R) :
  forall (indicators : list R) (i : nat),
  indicators !! i = Some 1%R ->
  fold_left (mark_event time_data) event_times indicators !! i = Some 1%R.
Proof.
  induction event_times as [| t rest IH]; intros indicators i Hi; simpl;
    [exact Hi |].
  now apply IH, mark_event_keeps.
Qed.

Lemma length_marks (time_data : list R) (event_times : list R) :
  forall indicators : list R,
  length (fold_left (mark_event time_data) event_times indicators)
  = length indicators.
Proof.
  induction event_times as [| t rest IH]; intros indicators; simpl;
    [reflexivity |].
  now rewrite IH, length_mark_event.
Qed.

Lemma marks_nearest (time_data : list R) (event_times : list R) (t : R) :
  time_data <> [] ->
  In t event_times ->
  forall indicators : list R,
  length indicators = length time_data ->
  exists i v,
    time_data !! i = Some v /\
    fold_left (mark_event time_data) event_times indicators !! i = Some 1%R /\
    (forall j w, time_data !! j = Some w ->
       (Rabs (v - t) <= Rabs (w - t))%R).
Proof.
  intros Hne. induction event_times as [| t0 rest IH]; intros Hin indicators Hlen;
    [destruct Hin |].
  simpl. destruct Hin as [-> | Hin].
  - destruct (mark_event_nearest time_data indicators t Hne Hlen)
      as (i & v & Hv & Hmark & Hnear).
    exists i, v. split; [exact Hv |]. split; [| exact Hnear].
    now apply marks_keep.
  - apply IH; [exact Hin |]. now rewrite length_mark_event.
Qed.

(** A column of zeros and ones stays one, and its sum grows by at most
    one per pass. *)
Lemma sum_insert_one (l : list R) : forall i : nat,
  Forall (fun x => x = 0%R \/ x = 1%R) l ->
  (np.sum (<[i := 1%R]> l) <= np.sum l + 1)%R.
Proof.
  unfold np.sum.
  induction l as [| x t IH]; intros i Hl; simpl; [lra |].
  inversion Hl as [| ? ? Hx Ht]; subst.
  destruct i as [| i]; simpl.
  - destruct Hx; subst; lra.
  - specialize (IH i Ht). lra.
Qed.

Lemma marks_zero_one (time_data : list R) (event_times : list R) :
  forall indicators : list R,
  Forall (fun x => x = 0%R \/ x = 1%R) indicators ->
  Forall (fun x => x = 0%R \/ x = 1%R)
    (fold_left (mark_event time_data) event_times indicators) /\
  (np.sum (fold_left (mark_event time_data) event_times indicators)
   <= np.sum indicators + INR (length event_times))%R.
Proof.
  induction event_times as [| t rest IH]; intros indicators Hind.
  - simpl. split; [exact Hind | lra].
  - cbn [fold_left].
    assert (Hmark : Forall (fun x => x = 0%R \/ x = 1%R)
                      (mark_event time_data indicators t)).
    { unfold mark_event.
      apply Forall_insert; [exact Hind | now right]. }
    destruct (IH _ Hmark) as (H01 & Hsum). split; [exact H01 |].
    assert (Hone : (np.sum (mark_event time_data indicators t)
                    <= np.sum indicators + 1)%R)
      by (unfold mark_event; now apply sum_insert_one).
    change (length (t :: rest)) with (S (length rest)). rewrite S_INR. lra.
Qed.

Lemma sum_replicate_zero (n : nat) : np.sum (replicate n 0%R) = 0%R.
Proof. unfold np.sum. induction n as [| n IH]; simpl; [reflexivity | lra]. Qed.

Lemma length_event_indicators (e : BrainInterface) (st : R) (time_data : list R) :
  length (event_indicators e st time_data) = length time_data.
Proof.
  unfold event_indicators.
  destruct (Req_dec_T st 0); [apply length_replicate |].
  destruct (event_timestamps e); [apply length_replicate |].
  now rewrite length_marks, length_replicate.
Qed.

Lemma event_indicators_zero_one (e : BrainInterface) (st : R) (time_data : list R) :
  Forall (fun x => x = 0%R \/ x = 1%R) (event_indicators e st time_data) /\
  (np.sum (event_indicators e st time_data)
   <= INR (length (event_timestamps e)))%R.
Proof.
  assert (Hz : Forall (fun x => x = 0%R \/ x = 1%R)
                 (replicate (length time_data) 0%R))
    by (apply Forall_replicate; now left).
  assert (Hpos : (0 <= INR (length (event_timestamps e)))%R) by apply pos_INR.
  unfold event_indicators.
  destruct (Req_dec_T st 0);
    [split; [exact Hz | now rewrite sum_replicate_zero] |].
  destruct (event_timestamps e) as [| t0 rest] eqn:Hlog;
    [split; [exact Hz | now rewrite sum_replicate_zero] |].
  rewrite <- Hlog in *.
  destruct (marks_zero_one time_data
              (map (fun t => (t - st)%R) (event_timestamps e)) _ Hz)
    as (H01 & Hsum).
  split; [exact H01 |].
  rewrite sum_replicate_zero, length_map in Hsum. lra.
Qed.

Lemma map_getitem_seq (l : list R) :
  map (fun i => np.getitem l (Z.of_nat i)) (seq 0 (length l)) = l.
Proof.
  apply list_eq. intros i. rewrite lookup_map.
  destruct (decide (i < length l)%nat) as [Hi | Hi].
  - rewrite lookup_seq_lt by exact Hi. simpl.
    unfold np.getitem. rewrite Nat2Z.id.
    destruct (lookup_lt_is_Some_2 l i Hi) as [v Hv]. now rewrite Hv.
  - rewrite lookup_seq_ge by lia. simpl. symmetry.
    apply lookup_ge_None. lia.
Qed.

Lemma length_chronological_indices (e : BrainInterface) :
  0 <= current_sample_idx e ->
  Z.of_nat (length (chronological_indices e))
  = Z.min (current_sample_idx e) BUFFER_SIZE.
Proof.
  intros Hi. unfold chronological_indices, range.
  destruct (current_sample_idx e <? BUFFER_SIZE) eqn:Hlt.
  - apply Z.ltb_lt in Hlt. rewrite length_seqZ. lia.
  - apply Z.ltb_ge in Hlt. rewrite length_map, length_seqZ.
    unfold BUFFER_SIZE in *. lia.
Qed.

(** X15. The rows of the csv file: there is one row per sample that
    the chronological read returns, its [is_event] entry is 0 or 1, and no
    more rows are flagged than the event log has entries; the file is not
    written before the first sample of a stream. *)
Theorem csv_rows_shape (e : BrainInterface) :
  buffers_ok e ->
  match csv_rows e with
  | Some rows =>
      Z.of_nat (length rows) = Z.min (current_sample_idx e) BUFFER_SIZE /\
      Forall (fun r => row_is_event r = 0%R \/ row_is_event r = 1%R) rows /\
      (np.sum (map row_is_event rows)
       <= INR (length (event_timestamps e)))%R
  | None => current_sample_idx e = 0 \/ start_time e = None
  end.
Proof.
  intros (_ & _ & _ & Hidx). unfold csv_rows, save_data.
  destruct (current_sample_idx e =? 0) eqn:Hz;
    [left; now apply Z.eqb_eq |].
  destruct (start_time e) as [st |]; [| now right].
  cbn [time_data raw_data filtered_data].
  set (td := map (fun t => (t - st)%R)
               (np.take (timestamps e) (chronological_indices e))).
  assert (Hlen : Z.of_nat (length td)
                 = Z.min (current_sample_idx e) BUFFER_SIZE).
  { subst td. unfold np.take. rewrite !length_map.
    now apply length_chronological_indices. }
  assert (Hcol : map row_is_event
                   (map (fun i =>
                           {| row_timestamp := np.getitem td (Z.of_nat i);
                              row_raw :=
                                np.getitem
                                  (np.take (raw_buffer e) (chronological_indices e))
                                  (Z.of_nat i);
                              row_filtered :=
                                np.getitem
                                  (np.take (filtered_buffer e)
                                     (chronological_indices e))
                                  (Z.of_nat i);
                              row_is_event :=
                                np.getitem (event_indicators e st td) (Z.of_nat i) |})
                      (seq 0 (length td)))
                 = event_indicators e st td).
  { rewrite map_map. cbn [row_is_event].
    rewrite <- (length_event_indicators e st td) at 1.
    apply map_getitem_seq. }
  destruct (event_indicators_zero_one e st td) as (H01 & Hsum).
  split; [now rewrite length_map, length_seq |].
  split.
  - rewrite <- Hcol in H01. now apply List.Forall_map in H01.
  - now rewrite Hcol.
Qed.

(** X16. Every logged event is flagged in the csv file on a row whose
    time is nearest to the event time: when the start time is not zero and
    a sample has been written, for each entry of the event log some row
    has [is_event] 1 and no row is nearer in time to that entry. *)
Theorem csv_event_marks_nearest_row (e : BrainInterface) (st t : R) :
  buffers_ok e ->
  current_sample_idx e <> 0 ->
  start_time e = Some st ->
  st <> 0%R ->
  In t (event_timestamps e) ->
  exists rows r,
    csv_rows e = Some rows /\
    In r rows /\
    row_is_event r = 1%R /\
    (forall r', In r' rows ->
       (Rabs (row_timestamp r - (t - st))
        <= Rabs (row_timestamp r' - (t - st)))%R).
Proof.
  intros (_ & _ & _ & Hidx) Hnz Hst Hst0 Hin.
  unfold csv_rows, save_data.
  apply Z.eqb_neq in Hnz. rewrite Hnz, Hst.
  cbn [time_data raw_data filtered_data].
  set (td := map (fun t => (t - st)%R)
               (np.take (timestamps e) (chronological_indices e))).
  assert (Hlen : Z.of_nat (length td)
                 = Z.min (current_sample_idx e) BUFFER_SIZE).
  { subst td. unfold np.take. rewrite !length_map.
    now apply length_chronological_indices. }
  assert (Hne : td <> []).
  { apply Z.eqb_neq in Hnz. intros Hnil. rewrite Hnil in Hlen. simpl in Hlen.
    unfold BUFFER_SIZE in Hlen. lia. }
  set (ind := event_indicators e st td).
  assert (Hmarked : exists i v,
            td !! i = Some v /\ ind !! i = Some 1%R /\
            (forall j w, td !! j = Some w ->
               (Rabs (v - (t - st)) <= Rabs (w - (t - st)))%R)).
  { subst ind. unfold event_indicators.
    destruct (Req_dec_T st 0) as [H0 | _]; [contradiction |].
    destruct (event_timestamps e) as [| t0 rest] eqn:Hlog; [destruct Hin |].
    rewrite <- Hlog in *.
    apply marks_nearest; [exact Hne | | apply length_replicate].
    apply in_map_iff. now exists t. }
  destruct Hmarked as (i & v & Hv & Hi & Hnear).
  pose proof (lookup_lt_Some _ _ _ Hv) as Hilt.
  eexists. eexists. split; [reflexivity |]. split; [| split].
  - apply in_map_iff. exists i. split; [reflexivity |].
    apply in_seq. lia.
  - cbn [row_is_event]. unfold np.getitem. rewrite Nat2Z.id. now rewrite Hi.
  - intros r' Hr'. apply in_map_iff in Hr' as (j & <- & Hj).
    apply in_seq in Hj. cbn [row_timestamp].
    destruct (lookup_lt_is_Some_2 td j) as [w Hw]; [lia |].
    unfold np.getitem. rewrite !Nat2Z.id, Hv, Hw. simpl.
    now apply (Hnear j w).
Qed.

Lemma buffers_ok_bench_session : buffers_ok bench_session.
Proof.
  unfold buffers_ok, bench_session. cbn [raw_buffer filtered_buffer timestamps
    current_sample_idx].
  rewrite !length_zeros. unfold BUFFER_SIZE. lia.
Qed.

Lemma csv_rows_shape_witness :
  buffers_ok bench_session /\
  match csv_rows bench_session with
  | Some rows =>
      Z.of_nat (length rows)
      = Z.min (current_sample_idx bench_session) BUFFER_SIZE /\
      Forall (fun r => row_is_event r = 0%R \/ row_is_event r = 1%R) rows /\
      (np.sum (map row_is_event rows)
       <= INR (length (event_timestamps bench_session)))%R
  | None => current_sample_idx bench_session = 0
            \/ start_time bench_session = None
  end.
Proof.
  split; [exact buffers_ok_bench_session |].
  exact (csv_rows_shape bench_session buffers_ok_bench_session).
Defined.

Lemma csv_event_marks_nearest_row_witness :
  buffers_ok bench_session /\
  current_sample_idx bench_session <> 0 /\
  start_time bench_session = Some 100%R /\
  100%R <> 0%R /\
  In 101%R (event_timestamps bench_session) /\
  exists rows r,
    csv_rows bench_session = Some rows /\
    In r rows /\
    row_is_event r = 1%R /\
    (forall r', In r' rows ->
       (Rabs (row_timestamp r - (101 - 100))
        <= Rabs (row_timestamp r' - (101 - 100)))%R).
Proof.
  assert (H1 : current_sample_idx bench_session <> 0) by discriminate.
  assert (H2 : start_time bench_session = Some 100%R) by reflexivity.
  assert (H3 : 100%R <> 0%R) by lra.
  assert (H4 : In 101%R (event_timestamps bench_session)) by (left; reflexivity).
  split; [exact buffers_ok_bench_session |]. split; [exact H1 |].
  split; [exact H2 |]. split; [exact H3 |]. split; [exact H4 |].
  exact (csv_event_marks_nearest_row bench_session 100%R 101%R
           buffers_ok_bench_session H1 H2 H3 H4).
Defined.

(** ** The server *)

Lemma omap_ext_Forall {A B : Type} (f g : A -> option B) (l : list A) :
  Forall (fun x => f x = g x) l -> omap f l = omap g l.
Proof.
  induction 1 as [| x l Hx _ IH]; [reflexivity |].
  simpl. rewrite Hx. unfold omap in IH. now rewrite IH.
Qed.

Lemma omap_lookup_seq {A : Type} (l : list A) : forall n k : nat,
  (k + n <= length l)%nat ->
  omap (fun i => l !! i) (seq k n) = take n (drop k l).
Proof.
  induction n as [| n IH]; intros k Hk; [reflexivity |].
  destruct (lookup_lt_is_Some_2 l k) as [x Hx]; [lia |].
  cbn [seq omap list_omap]. rewrite Hx, (drop_S l x k Hx). simpl.
  f_equal. apply IH. lia.
Qed.

(** X17. The recent events of the brain signals resource are the last
    five entries of the session's event list, newest first (all of them
    when there are fewer than five). *)
Theorem recent_events_newest_first (events : list event) :
  recent_events events = take 5 (reverse events).
Proof.
  unfold recent_events.
  rewrite (omap_ext_Forall _ (fun i => reverse events !! i)).
  - rewrite omap_lookup_seq by (rewrite length_reverse; lia).
    rewrite drop_0.
    destruct (decide (5 <= length events)%nat) as [Hle | Hgt].
    + now rewrite Nat.min_l by exact Hle.
    + rewrite Nat.min_r by lia.
      rewrite !take_ge by (rewrite length_reverse; lia). reflexivity.
  - apply List.Forall_forall. intros i Hi. apply in_seq in Hi.
    symmetry. apply reverse_lookup. lia.
Qed.

Section ServerProperties.

Variable lfilter : list R -> list R -> list R -> list R -> list R * list R.
Variable lfilter_zi : list R -> list R -> list R.
Variables butter_b butter_a iirnotch_b iirnotch_a : list R.

Local Abbreviation start_server :=
  (start_server butter_b butter_a iirnotch_b iirnotch_a).
Local Abbreviation invoke_tool_connect_device :=
  (invoke_tool_connect_device butter_b butter_a iirnotch_b iirnotch_a).
Local Abbreviation invoke_tool_calibrate_device :=
  (invoke_tool_calibrate_device lfilter lfilter_zi).
Local Abbreviation serve :=
  (serve lfilter lfilter_zi butter_b butter_a iirnotch_b iirnotch_a).
Local Abbreviation serve_all :=
  (serve_all lfilter lfilter_zi butter_b butter_a iirnotch_b iirnotch_a).

Lemma start_server_tracks : session_tracks_engine start_server.
Proof.
  eexists. split; [reflexivity |].
  split; [split; [reflexivity | discriminate] |].
  split; [reflexivity | discriminate].
Qed.

Lemma serve_tracks (s : server) (r : request) :
  session_tracks_engine s -> session_tracks_engine (serve s r).
Proof.
  intros (e & He & (Hro & Hsr) & Hst & Hco).
  unfold session_tracks_engine, flags_ok.
  destruct r as [ok | | ok now session_now | | duration ok now arrivals stamp
                 | supported | arrivals]; cbn [serve].
  - unfold invoke_tool_connect_device, connect. rewrite He.
    destruct ok; cbn [fst brain_interface session].
    + eexists. split; [reflexivity |]. simpl. auto.
    + exists e. split; [reflexivity |]. simpl.
      split; [auto |]. split; [exact Hst | discriminate].
  - unfold invoke_tool_disconnect_device. rewrite He.
    destruct (sd_device_connected (session s)) eqn:Hc; cbn [negb fst].
    + specialize (Hco eq_refl).
      assert (Ho : serial_open e = true) by congruence.
      unfold disconnect. rewrite Ho.
      eexists. split; [reflexivity |]. simpl.
      split; [split; [reflexivity | discriminate] |].
      split; [reflexivity | discriminate].
    + exists e. rewrite He, Hc. auto.
  - unfold invoke_tool_start_stream. rewrite He.
    destruct (sd_device_connected (session s)) eqn:Hc; cbn [negb];
      [| exists e; cbn [fst]; rewrite He, Hc; auto].
    specialize (Hco eq_refl).
    destruct (sd_streaming (session s)) eqn:Hs;
      [exists e; cbn [fst]; rewrite He, Hc, Hs; auto |].
    unfold start_stream. rewrite Hco. cbn [fst].
    eexists. split; [reflexivity |]. simpl.
    split; [split; [exact Hro | auto] |]. split; [reflexivity | auto].
  - unfold invoke_tool_stop_stream. rewrite He.
    destruct (sd_streaming (session s)) eqn:Hs; cbn [negb fst].
    + eexists. split; [reflexivity |]. simpl.
      split; [split; [exact Hro | discriminate] |]. split; [reflexivity | exact Hco].
    + exists e. rewrite He, Hs. auto.
  - unfold invoke_tool_calibrate_device. rewrite He.
    destruct (sd_device_connected (session s)) eqn:Hc; cbn [negb fst];
      [| exists e; rewrite He, Hc; auto].
    specialize (Hco eq_refl).
    destruct (calibrate_connection lfilter lfilter_zi e ok now arrivals)
      as (Hopen & Hrun).
    destruct (ensure_streaming_connected e ok now Hco) as (Ho1 & Hr1).
    rewrite Ho1 in Hopen. rewrite Hr1 in Hrun.
    eexists. split; [reflexivity |]. cbn [session sd_streaming sd_device_connected].
    split; [split; [congruence | auto] |]. split; [reflexivity | auto].
  - unfold invoke_tool_save_data. rewrite He.
    exists e.
    destruct (current_sample_idx e =? 0); [cbn [fst]; rewrite He; auto |].
    destruct (if supported then save_data e else None);
      cbn [fst]; rewrite He; auto.
  - rewrite He.
    destruct (run_flags lfilter lfilter_zi e arrivals) as (Hs' & Ho' & Hr').
    eexists. split; [reflexivity |]. cbn [session].
    rewrite Hs', Ho', Hr'. auto.
Qed.

Lemma serve_all_tracks (rs : list request) : forall s : server,
  session_tracks_engine s -> session_tracks_engine (serve_all s rs).
Proof.
  induction rs as [| r rs IH]; intros s Hs; [exact Hs |].
  apply IH, serve_tracks, Hs.
Qed.

(** X18. From the start of the server on, whatever requests are served
    and whatever lines arrive between them, the streaming entry of the
    session record is the streaming flag of the engine, and a device the
    record calls connected has its port open. *)
Theorem session_flags_track_engine (rs : list request) :
  let s := serve_all start_server rs in
  exists e,
    brain_interface s = Some e /\
    sd_streaming (session s) = streaming e /\
    (sd_device_connected (session s) = true ->
     running e = true /\ serial_open e = true).
Proof.
  destruct (serve_all_tracks rs start_server start_server_tracks)
    as (e & He & (Hro & _) & Hst & Hco).
  exists e. split; [exact He |]. split; [exact Hst |].
  intros Hc. specialize (Hco Hc). split; [exact Hco | congruence].
Qed.

(** X19. The start tool never answers that streaming failed to start:
    whatever was served before, it answers ["streaming"] or
    ["already_streaming"], or refuses with code -32002 because the record
    has no connected device. *)
Theorem start_tool_never_fails (rs : list request) (ok : bool)
    (now session_now : R) :
  let answer :=
    snd (invoke_tool_start_stream (serve_all start_server rs) ok now session_now)
  in
  answer = Success "streaming" \/ answer = Success "already_streaming"
  \/ answer = Error (-32002).
Proof.
  destruct (serve_all_tracks rs start_server start_server_tracks)
    as (e & He & _ & _ & Hco).
  cbv zeta. unfold invoke_tool_start_stream. rewrite He.
  destruct (sd_device_connected (session _)); cbn [negb snd]; [| auto].
  destruct (sd_streaming (session _)); cbn [snd]; [auto |].
  unfold start_stream. rewrite (Hco eq_refl). cbn [snd]. auto.
Qed.

(** X20. A connection attempt that fails locks the tools out of an engine
    that is still connected: the engine stays as it was, port open and
    streaming if it was, but the record now says no device is connected, so
    the disconnect, start and calibrate tools refuse with code -32002 and
    leave everything as it is. *)
Theorem failed_reconnect_locks_tools (s : server) (e : BrainInterface)
    (ok : bool) (now session_now stamp : R) (duration : Z)
    (arrivals : list arrival) :
  brain_interface s = Some e ->
  let s' := fst (invoke_tool_connect_device s false) in
  brain_interface s' = Some e /\
  invoke_tool_disconnect_device s' = (s', Error (-32002)) /\
  invoke_tool_start_stream s' ok now session_now = (s', Error (-32002)) /\
  invoke_tool_calibrate_device s' duration ok now arrivals stamp
    = (s', Error (-32002)).
Proof.
  intros He s'. subst s'. unfold invoke_tool_connect_device, connect.
  rewrite He. cbn [fst].
  unfold invoke_tool_disconnect_device, invoke_tool_start_stream,
    invoke_tool_calibrate_device.
  cbn [brain_interface session set_device_connected sd_device_connected negb].
  auto.
Qed.

End ServerProperties.

Lemma failed_reconnect_locks_tools_witness :
  brain_interface bench_server = Some bench_session /\
  invoke_tool_disconnect_device
    (fst (invoke_tool_connect_device [] [] [] [] bench_server false))
  = (fst (invoke_tool_connect_device [] [] [] [] bench_server false),
     Error (-32002)).
Proof.
  split; [reflexivity |].
  exact (proj1 (proj2 (failed_reconnect_locks_tools df2t.lfilter df2t.lfilter_zi
                         [] [] [] [] bench_server bench_session true 103%R 103%R
                         104%R 10 [] eq_refl))).
Defined.

(** ** The data of the brain signals resource *)

(** Reading the first slots of a buffer that has not wrapped gives the
    values oldest first. *)
Lemma signals_oldest_first (buf vals : list R) :
  (forall (k : nat) (v : R),
     vals !! k = Some v -> np.getitem buf (Z.of_nat k mod BUFFER_SIZE) = v) ->
  Z.of_nat (length vals) <= BUFFER_SIZE ->
  np.take buf (range (Z.of_nat (length vals))) = vals.
Proof.
  intros Hget Hlen. apply list_eq. intros i.
  unfold np.take, range. rewrite lookup_map.
  destruct (decide (i < length vals)%nat) as [Hi | Hi].
  - rewrite lookup_seqZ_lt by lia. simpl.
    destruct (lookup_lt_is_Some_2 vals i Hi) as [v Hv]. rewrite Hv. f_equal.
    rewrite <- (Hget i v Hv). f_equal. rewrite Z.mod_small; lia.
  - rewrite lookup_seqZ_ge by lia. simpl. symmetry.
    apply lookup_ge_None. lia.
Qed.

Section SignalProperties.

Variable lfilter : list R -> list R -> list R -> list R -> list R * list R.
Variable lfilter_zi : list R -> list R -> list R.

Local Abbreviation run := (_stream_data lfilter lfilter_zi).
Local Abbreviation trace := (ingested lfilter lfilter_zi).

(** X21. What the brain signals resource answers after [n] samples of a
    stream, on a server whose record says streaming.  With no sample it
    answers that there is no data; with fewer than 250 it returns all the
    samples of the stream, oldest first, with the timestamps counted from
    the start of the stream; from 250 samples on it raises
    [AttributeError], because it asks the engine object for [BUFFER_SIZE],
    so the last second of data it is meant to return is never read. *)
Theorem brain_signals_read (e0 : BrainInterface) (arrivals : list arrival)
    (s : server) (st : R) :
  buffers_ok e0 ->
  current_sample_idx e0 = 0 ->
  start_time e0 = Some st ->
  let e := run e0 arrivals in
  let recs := trace e0 arrivals in
  let n := Z.of_nat (length recs) in
  brain_interface s = Some e ->
  sd_streaming (session s) = true ->
  (n = 0 -> get_resource_brain_signals s = SignalsNoData) /\
  (0 < n < 250 ->
   get_resource_brain_signals s =
   SignalsStreaming
     (map (fun r => (timestamp r - st)%R) recs)
     (map raw recs)
     (map filtered recs)
     (sd_event_count (session s))
     (recent_events (sd_events (session s)))) /\
  (250 <= n -> get_resource_brain_signals s = SignalsAttributeError).
Proof.
  intros Hok Hzero Hst0 e recs n Hs Hon. pose proof BUFFER_SIZE_pos as Hpos.
  assert (Hring : ring_holds 0 recs e).
  { pose proof (ring_run lfilter lfilter_zi arrivals e0 0 [] Hok) as H.
    simpl in H. apply H. rewrite <- Hzero. apply ring_holds_start. }
  pose proof Hring as (Hidx & _ & Hslots).
  assert (Hn : current_sample_idx e = n) by (subst n; lia).
  assert (Hst : start_time e = Some st)
    by (subst e; now rewrite run_start_time).
  assert (Hlen : n = Z.of_nat (length recs)) by reflexivity.
  clearbody n e recs.
  unfold get_resource_brain_signals, signal_indices.
  rewrite Hs, Hon, Hn. cbn [negb].
  split; [| split].
  - intros H0. rewrite H0. reflexivity.
  - intros Hsmall.
    destruct (n <? 250) eqn:Hlt; [| apply Z.ltb_ge in Hlt; lia].
    cbv zeta.
    destruct (length (range n) =? 0)%nat eqn:Hl.
    { apply Nat.eqb_eq in Hl. unfold range in Hl. rewrite length_seqZ in Hl. lia. }
    rewrite Hst.
    assert (Hget : forall (buf : list R) (proj : Sample -> R),
              (forall k r, recs !! k = Some r ->
                 np.getitem buf ((0 + Z.of_nat k) mod BUFFER_SIZE) = proj r) ->
              np.take buf (range n) = map proj recs).
    { intros buf proj Hbuf.
      replace n with (Z.of_nat (length (map proj recs)))
        by (now rewrite length_map).
      apply signals_oldest_first.
      - intros k v Hk. rewrite lookup_map in Hk.
        apply fmap_Some in Hk as (r & Hr & ->).
        rewrite <- (Hbuf k r Hr). f_equal.
      - rewrite length_map. unfold BUFFER_SIZE. lia. }
    assert (Hrecent : forall k r, recs !! k = Some r ->
              current_sample_idx e - BUFFER_SIZE <= 0 + Z.of_nat k)
      by (intros k r _; unfold BUFFER_SIZE; lia).
    rewrite (Hget (timestamps e) timestamp),
            (Hget (raw_buffer e) raw),
            (Hget (filtered_buffer e) filtered).
    + now rewrite map_map.
    + intros k r Hk. now apply (Hslots k r Hk (Hrecent k r Hk)).
    + intros k r Hk. now apply (Hslots k r Hk (Hrecent k r Hk)).
    + intros k r Hk. now apply (Hslots k r Hk (Hrecent k r Hk)).
  - intros Hlarge.
    destruct (n <? 250) eqn:Hlt; [apply Z.ltb_lt in Hlt; lia | reflexivity].
Qed.

End SignalProperties.

Local Abbreviation long_lines := (replicate 300 (reading 3 101%R)).
Local Abbreviation after_long :=
  (_stream_data df2t.lfilter df2t.lfilter_zi bench_streaming long_lines).
Local Abbreviation long_trace :=
  (ingested df2t.lfilter df2t.lfilter_zi bench_streaming long_lines).

Lemma long_trace_length : 250 <= Z.of_nat (length long_trace).
Proof.
  rewrite trace_length_all_parsed.
  - rewrite length_replicate. lia.
  - reflexivity.
  - apply Forall_replicate. discriminate.
Qed.

Lemma brain_signals_read_witness :
  buffers_ok bench_streaming /\
  current_sample_idx bench_streaming = 0 /\
  start_time bench_streaming = Some 100%R /\
  brain_interface
    {| brain_interface := Some after_long; session := session bench_server |}
  = Some after_long /\
  sd_streaming
    (session
       {| brain_interface := Some after_long; session := session bench_server |})
  = true /\
  get_resource_brain_signals
    {| brain_interface := Some after_long; session := session bench_server |}
  = SignalsAttributeError.
Proof.
  assert (H0 : current_sample_idx bench_streaming = 0) by reflexivity.
  assert (H1 : start_time bench_streaming = Some 100%R) by reflexivity.
  split; [exact buffers_ok_bench_streaming |]. split; [exact H0 |].
  split; [exact H1 |]. split; [reflexivity |]. split; [reflexivity |].
  exact (proj2 (proj2 (brain_signals_read df2t.lfilter df2t.lfilter_zi
                         bench_streaming long_lines
                         {| brain_interface := Some after_long;
                            session := session bench_server |}
                         100%R buffers_ok_bench_streaming H0 H1
                         eq_refl eq_refl))
           long_trace_length).
Defined.

(** ** The first samples of a stream, and what can be saved *)

Section SessionProperties.

Variable lfilter : list R -> list R -> list R -> list R -> list R * list R.
Variable lfilter_zi : list R -> list R -> list R.

Local Abbreviation process := (process_sample lfilter lfilter_zi).
Local Abbreviation iteration := (stream_iteration lfilter lfilter_zi).
Local Abbreviation run := (_stream_data lfilter lfilter_zi).
Local Abbreviation exec := (exec lfilter lfilter_zi).
Local Abbreviation exec_all := (exec_all lfilter lfilter_zi).
Local Abbreviation stored := (stored lfilter lfilter_zi).

(** Below the window size the loop does not consult the detector. *)
Lemma process_warm_up e v ts td :
  current_sample_idx e < window_size e ->
  process e v ts td = advance_sample_idx (stored e v ts).
Proof.
  intros Hlt. unfold process_sample, stored.
  destruct (filter_sample lfilter lfilter_zi e (IZR (decode_sample v)))
    as [[y fs] ns]. cbn [fst snd store_sample current_sample_idx window_size].
  destruct (current_sample_idx e >=? window_size e) eqn:Hge; [| reflexivity].
  apply Z.geb_le in Hge. lia.
Qed.

(** X22. The detector is not consulted for the first [window_size]
    samples of a stream: while the sample counter plus the number of lines
    stays within the window size, a run fires no event, whatever the
    values are and whatever the threshold is. *)
Theorem warm_up_fires_no_event (e : BrainInterface) (arrivals : list arrival) :
  current_sample_idx e + Z.of_nat (length arrivals) <= window_size e ->
  event_count (run e arrivals) = event_count e /\
  event_timestamps (run e arrivals) = event_timestamps e /\
  last_event_time (run e arrivals) = last_event_time e.
Proof.
  revert e. induction arrivals as [| a rest IH]; intros e Hlen; [simpl; auto |].
  cbn [_stream_data]. cbn [length] in Hlen.
  destruct (streaming e && serial_open e); [| auto].
  destruct (iteration_parameters lfilter lfilter_zi e a) as (_ & _ & Hw).
  unfold stream_iteration in *. destruct (line a) as [| v].
  - apply IH. lia.
  - rewrite process_warm_up in * by lia.
    destruct (IH (advance_sample_idx (stored e v (t_store a)))) as (-> & -> & ->);
      [simpl in *; lia | auto].
Qed.

Lemma iteration_start_time e a : start_time (iteration e a) = start_time e.
Proof.
  unfold stream_iteration. destruct (line a) as [| v]; [reflexivity |].
  destruct (process_sample_cases lfilter lfilter_zi e v (t_store a) (t_detect a))
    as [-> | ->]; reflexivity.
Qed.

Lemma exec_all_started_ok e cs : started_ok e -> started_ok (exec_all e cs).
Proof.
  apply (invariant_of_methods lfilter lfilter_zi started_ok).
  - intros e0 ok He. unfold connect. destruct ok; exact He.
  - intros e0 He Hst. unfold disconnect in *.
    destruct (serial_open e0); [| now apply He].
    split; [now apply He | reflexivity].
  - intros e0 ok now He. unfold start_stream, connect.
    destruct (running e0); [discriminate |].
    destruct ok; [discriminate | exact He].
  - intros e0 He Hst. split; [now apply He | reflexivity].
  - intros e0 a Hs He Hst. rewrite iteration_start_time in Hst.
    destruct (He Hst) as (_ & Hoff). rewrite Hoff in Hs. discriminate.
  - intros e0 z He. exact He.
Qed.

(** X23. From the constructor on, whatever methods are called and
    whatever lines arrive, [save_data] has something to write exactly when
    the sample counter is not 0, and so have the rows of the csv file: an
    engine that has taken a sample always has a start time to subtract. *)
Theorem save_data_writes_iff_sampled (bp_b bp_a n_b n_a : list R)
    (cs : list command) :
  let e := exec_all (init bp_b bp_a n_b n_a) cs in
  (save_data e = None <-> current_sample_idx e = 0) /\
  (csv_rows e = None <-> current_sample_idx e = 0).
Proof.
  intros e.
  assert (He : started_ok e)
    by (apply exec_all_started_ok; intros _; now split).
  clearbody e. unfold csv_rows, save_data, started_ok in *.
  destruct (current_sample_idx e =? 0) eqn:Hz.
  - apply Z.eqb_eq in Hz. now repeat split.
  - apply Z.eqb_neq in Hz.
    destruct (start_time e) as [st |].
    + split; split; intros H; try discriminate; contradiction.
    + destruct (He eq_refl) as (H0 & _). contradiction.
Qed.

(** The lines of a run reach the engine one by one. *)
Lemma run_as_commands (arrivals : list arrival) : forall e,
  run e arrivals = exec_all e (map Arrive arrivals).
Proof.
  induction arrivals as [| a rest IH]; intros e; [reflexivity |].
  cbn [map].
  change (exec_all e (Arrive a :: map Arrive rest))
    with (exec_all (run e [a]) (map Arrive rest)).
  rewrite <- IH. cbn [_stream_data].
  destruct (streaming e && serial_open e) eqn:Hs; [reflexivity |].
  symmetry. now apply run_not_streaming.
Qed.

Lemma exec_all_app e cs1 cs2 :
  exec_all e (cs1 ++ cs2) = exec_all (exec_all e cs1) cs2.
Proof. apply fold_left_app. Qed.

End SessionProperties.

Lemma warm_up_fires_no_event_witness :
  current_sample_idx bench_streaming + Z.of_nat (length fifty_lines)
    <= window_size bench_streaming /\
  event_count (_stream_data df2t.lfilter df2t.lfilter_zi bench_streaming fifty_lines)
  = event_count bench_streaming.
Proof.
  assert (H : current_sample_idx bench_streaming + Z.of_nat (length fifty_lines)
              <= window_size bench_streaming) by (simpl; lia).
  split; [exact H |].
  exact (proj1 (warm_up_fires_no_event df2t.lfilter df2t.lfilter_zi
                  bench_streaming fifty_lines H)).
Defined.

Section ServerEngineProperties.

Variable lfilter : list R -> list R -> list R -> list R -> list R * list R.
Variable lfilter_zi : list R -> list R -> list R.
Variables butter_b butter_a iirnotch_b iirnotch_a : list R.

Local Abbreviation exec_all := (exec_all lfilter lfilter_zi).
Local Abbreviation start_server :=
  (start_server butter_b butter_a iirnotch_b iirnotch_a).
Local Abbreviation serve :=
  (serve lfilter lfilter_zi butter_b butter_a iirnotch_b iirnotch_a).
Local Abbreviation serve_all :=
  (serve_all lfilter lfilter_zi butter_b butter_a iirnotch_b iirnotch_a).

(** What a request does to the engine is what a list of method calls and
    arriving lines does. *)
Lemma serve_engine (s : server) (r : request) (e : BrainInterface) :
  brain_interface s = Some e ->
  exists cs, brain_interface (serve s r) = Some (exec_all e cs).
Proof.
  intros He.
  destruct r as [ok | | ok now session_now | | duration ok now arrivals stamp
                 | supported | arrivals]; cbn [serve].
  - exists [Connect ok]. unfold invoke_tool_connect_device. rewrite He.
    simpl. now destruct (connect e ok).
  - unfold invoke_tool_disconnect_device. rewrite He.
    destruct (negb (sd_device_connected (session s)));
      [exists []; exact He | now exists [Disconnect]].
  - unfold invoke_tool_start_stream. rewrite He.
    destruct (negb (sd_device_connected (session s))); [exists []; exact He |].
    destruct (sd_streaming (session s)); [exists []; exact He |].
    exists [StartStream ok now]. simpl.
    now destruct (start_stream e ok now) as [e' []].
  - unfold invoke_tool_stop_stream. rewrite He.
    destruct (negb (sd_streaming (session s)));
      [exists []; exact He | now exists [StopStream]].
  - unfold invoke_tool_calibrate_device. rewrite He.
    destruct (negb (sd_device_connected (session s)));
      [exists []; exact He | now exists [Calibrate ok now arrivals]].
  - exists []. unfold invoke_tool_save_data. rewrite He.
    destruct (current_sample_idx e =? 0); [exact He |].
    destruct (if supported then save_data e else None); exact He.
  - exists (map Arrive arrivals). rewrite He. cbn [brain_interface].
    now rewrite run_as_commands.
Qed.

Lemma serve_all_engine (rs : list request) : forall (s : server) (e : BrainInterface),
  brain_interface s = Some e ->
  exists cs, brain_interface (serve_all s rs) = Some (exec_all e cs).
Proof.
  induction rs as [| r rs IH]; intros s e He; [now exists [] |].
  destruct (serve_engine s r e He) as (cs1 & H1).
  destruct (IH (serve s r) _ H1) as (cs2 & H2).
  exists (cs1 ++ cs2).
  change (serve_all s (r :: rs)) with (serve_all (serve s r) rs).
  rewrite H2. f_equal. symmetry. apply exec_all_app.
Qed.

(** X24. From the start of the server on, whatever requests are served
    and whatever lines arrive between them, the engine the server holds is
    never one that streams or has samples without a start time: the brain
    signals resource never fails on the subtraction of the start time, and
    the save tool with a supported format answers ["saved"], or refuses
    with code -32004 because there is no sample. *)
Theorem server_reads_never_fail (rs : list request) :
  let s := serve_all start_server rs in
  get_resource_brain_signals s <> SignalsTypeError /\
  (snd (invoke_tool_save_data s true) = Success "saved" \/
   snd (invoke_tool_save_data s true) = Error (-32004)).
Proof.
  cbv zeta.
  destruct (serve_all_engine rs start_server _ eq_refl) as (cs & He).
  destruct (serve_all_tracks lfilter lfilter_zi butter_b butter_a iirnotch_b
              iirnotch_a rs start_server
              (start_server_tracks butter_b butter_a iirnotch_b iirnotch_a))
    as (e & He' & _ & Hst & _).
  rewrite He in He'. injection He' as <-.
  set (s := serve_all start_server rs) in *.
  set (e := exec_all (init butter_b butter_a iirnotch_b iirnotch_a) cs) in *.
  assert (Hok : started_ok e)
    by (apply exec_all_started_ok; intros _; now split).
  clearbody e s. unfold started_ok in Hok. split.
  - unfold get_resource_brain_signals. rewrite He, Hst.
    destruct (streaming e) eqn:Hon; cbn [negb]; [| discriminate].
    destruct (signal_indices e); [discriminate | | discriminate].
    destruct (start_time e); [discriminate |].
    destruct (Hok eq_refl) as (_ & Hoff). discriminate.
  - unfold invoke_tool_save_data, save_data. rewrite He.
    destruct (current_sample_idx e =? 0) eqn:Hz; [now right |].
    apply Z.eqb_neq in Hz.
    destruct (start_time e); [now left |].
    destruct (Hok eq_refl) as (H0 & _). contradiction.
Qed.

End ServerEngineProperties.
